(** * Weather extractor: the group-fetch / merge / resample pipeline

    A shallow embedding of [src/weather_extractor.py] (class
    [WeatherExtractor]) and the properties of its pipeline.

    Conventions of the embedding.
    - A pandas [DataFrame] is an ordered list of labelled, typed columns
      ([Series]); a missing entry (NaN, NaT, None) is [None].
    - A float64 value is the rational that it is ([Q]).  What the
      libraries compute with rounding errors (sums, means, [round(2)]) and
      the order in which a sort leaves equal keys are parameters of the
      embedding ([Library]); [ideal] is the library without rounding
      errors, with a stable sort.
    - A pandas [Timestamp] is the tuple of its calendar fields, compared as
      Python compares [datetime] objects (lexicographically).
    - The archive endpoint is a function from the request to the response.
    - [print] appends a line to the console; [requests.get] appends the
      request to the list of requests sent. *)

From Stdlib Require Import ZArith QArith Qround Qminmax Qabs Qfield Lqa List String Ascii Lia Bool Permutation Sorted.
From stdpp Require Import base option list gmap strings.
From Stdlib Require Qcanon.

Close Scope Q_scope.
Open Scope string_scope.
Open Scope list_scope.

(** ** Exceptions and results *)

Inductive exn :=
| ValueError (msg : string)
| KeyError (key : string)
| TypeError (msg : string)
| MergeError (msg : string).

Inductive result (A : Type) :=
| Ok (a : A)
| Raise (e : exn).
Arguments Ok {A} a.
Arguments Raise {A} e.

#[global] Instance result_ret : MRet result := λ A a, Ok a.
#[global] Instance result_bind : MBind result := λ A B f m,
  match m with
  | Ok a => f a
  | Raise e => Raise e
  end.

(** The two [ValueError]s the pipeline raises itself. *)
Definition InvalidDateRange : exn := ValueError "Start date must be before end date".
Definition NoDataRetrieved : exn :=
  ValueError "No data was successfully retrieved from any group".

(** ** Calendar values *)

Record Date := mkDate { d_year : Z; d_month : Z; d_day : Z }.
Record Month := mkMonth { m_year : Z; m_month : Z }.
Record Timestamp := mkTs {
  ts_year : Z; ts_month : Z; ts_day : Z; ts_hour : Z; ts_minute : Z }.

(** [datetime.strptime(s, '%Y-%m-%d')]: midnight of the date. *)
Definition datetime_of_date (d : Date) : Timestamp :=
  mkTs (d_year d) (d_month d) (d_day d) 0 0.
(** [Timestamp.date()], as [.dt.date] applies it. *)
Definition date_of (t : Timestamp) : Date :=
  mkDate (ts_year t) (ts_month t) (ts_day t).
(** [.dt.to_period('M')]. *)
Definition period_of (t : Timestamp) : Month :=
  mkMonth (ts_year t) (ts_month t).
(** [pd.to_datetime(str(period))]: the string is YYYY-MM, parsed as the
    first instant of the month. *)
Definition datetime_of_period (m : Month) : Timestamp :=
  mkTs (m_year m) (m_month m) 1 0 0.

(** ** Ordered keys

    Python compares dates, datetimes and periods field by field. *)

Fixpoint lex_ltb (a b : list Z) : bool :=
  match a, b with
  | x :: a', y :: b' => (x <? y)%Z || ((x =? y)%Z && lex_ltb a' b')
  | [], _ :: _ => true
  | _, [] => false
  end.

Class Key (K : Type) := key_ltb : K → K → bool.

Definition key_eqb {K} `{Key K} (a b : K) : bool :=
  negb (key_ltb a b) && negb (key_ltb b a).

Definition date_fields (d : Date) : list Z := [d_year d; d_month d; d_day d].
Definition month_fields (m : Month) : list Z := [m_year m; m_month m].
Definition ts_fields (t : Timestamp) : list Z :=
  [ts_year t; ts_month t; ts_day t; ts_hour t; ts_minute t].

#[global] Instance date_key : Key Date :=
  λ a b, lex_ltb (date_fields a) (date_fields b).
#[global] Instance month_key : Key Month :=
  λ a b, lex_ltb (month_fields a) (month_fields b).
#[global] Instance timestamp_key : Key Timestamp :=
  λ a b, lex_ltb (ts_fields a) (ts_fields b).

(** A missing key (NaT) sorts after every present key, as pandas places it
    ([na_position='last']). *)
#[global] Instance option_key {K} `{Key K} : Key (option K) :=
  λ a b, match a, b with
         | Some x, Some y => key_ltb x y
         | Some _, None => true
         | None, _ => false
         end.

(** ** Sorting and grouping on keys *)

Section Keys.
Context {K : Type} `{Key K}.

(** The sorted list of the distinct keys, as [groupby] and an outer
    [merge] enumerate them. *)
Fixpoint insert_uniq (k : K) (l : list K) : list K :=
  match l with
  | [] => [k]
  | x :: r =>
      if key_ltb k x then k :: l
      else if key_ltb x k then x :: insert_uniq k r
      else l
  end.

Definition sort_uniq (l : list K) : list K := foldr insert_uniq [] l.

(** The row numbers at which a key occurs, in row order. *)
Fixpoint positions_from (i : nat) (k : K) (l : list K) : list nat :=
  match l with
  | [] => []
  | x :: r =>
      if key_eqb x k then i :: positions_from (S i) k r
      else positions_from (S i) k r
  end.
Definition positions (k : K) (l : list K) : list nat := positions_from 0 k l.

(** A stable sort of the row numbers by key. *)
Fixpoint insert_by (x : K * nat) (l : list (K * nat)) : list (K * nat) :=
  match l with
  | [] => [x]
  | y :: r => if key_ltb y.1 x.1 then y :: insert_by x r else x :: l
  end.

Definition sort_by (l : list (K * nat)) : list (K * nat) := foldr insert_by [] l.

Definition argsort (keys : list K) : list nat :=
  (sort_by (zip keys (seq 0 (length keys)))).*2.
End Keys.

(** ** Series and data frames *)

(** A column with its dtype: float64, datetime64, an object column of
    [datetime.date] values, or a monthly period column. *)
Inductive Series :=
| Float64 (xs : list (option Q))
| Datetime64 (ts : list (option Timestamp))
| DateObj (ds : list (option Date))
| PeriodM (ms : list (option Month)).

Definition DataFrame := list (string * Series).

Definition series_len (s : Series) : nat :=
  match s with
  | Float64 xs => length xs
  | Datetime64 ts => length ts
  | DateObj ds => length ds
  | PeriodM ms => length ms
  end.

(** [len(df)]: every column has the length of the index. *)
Definition nrows (df : DataFrame) : nat :=
  match df with
  | [] => 0
  | (_, s) :: _ => series_len s
  end.

(** [df.columns] *)
Definition columns (df : DataFrame) : list string := df.*1.

(** [name in l] for a list of strings. *)
Definition mem (name : string) (l : list string) : bool :=
  existsb (String.eqb name) l.

(** [df[name]], [None] standing for the [KeyError]. *)
Fixpoint get_col (name : string) (df : DataFrame) : option Series :=
  match df with
  | [] => None
  | (c, s) :: r => if String.eqb c name then Some s else get_col name r
  end.

(** [df[name] = s]: an existing column is replaced in its place, a new one
    is appended. *)
Fixpoint set_col (name : string) (s : Series) (df : DataFrame) : DataFrame :=
  match df with
  | [] => [(name, s)]
  | (c, s') :: r =>
      if String.eqb c name then (c, s) :: r else (c, s') :: set_col name s r
  end.

(** [df.drop(columns=names)] for labels that are present. *)
Definition drop_cols (names : list string) (df : DataFrame) : DataFrame :=
  List.filter (λ cs, negb (mem cs.1 names)) df.

(** [df[names]]: the columns with these labels, in the order of [names]. *)
Definition select_cols (names : list string) (df : DataFrame) : DataFrame :=
  flat_map (λ n, List.filter (λ cs, String.eqb cs.1 n) df) names.

(** Rows picked by number; an absent row number gives a missing entry. *)
Definition rows_at {A} (idx : list nat) (l : list (option A)) : list (option A) :=
  map (λ i, mjoin (l !! i)) idx.
Definition take {A} (idx : list (option nat)) (l : list (option A)) : list (option A) :=
  map (λ oi, i ← oi; mjoin (l !! i)) idx.

Definition series_take (idx : list (option nat)) (s : Series) : Series :=
  match s with
  | Float64 xs => Float64 (take idx xs)
  | Datetime64 ts => Datetime64 (take idx ts)
  | DateObj ds => DateObj (take idx ds)
  | PeriodM ms => PeriodM (take idx ms)
  end.

Definition frame_take (idx : list (option nat)) (df : DataFrame) : DataFrame :=
  map (λ cs, (cs.1, series_take idx cs.2)) df.

(** [s.endswith(suffix)] *)
Fixpoint endswith (s suffix : string) : bool :=
  String.eqb s suffix ||
  match s with
  | EmptyString => false
  | String _ s' => endswith s' suffix
  end.

(** ** Statistics *)

Inductive Stat := Mean | Min | Max | Sum.

Definition stat_name (s : Stat) : string :=
  match s with
  | Mean => "mean"
  | Min => "min"
  | Max => "max"
  | Sum => "sum"
  end.

(** The values that are not missing ([skipna]). *)
Definition dropna {A} (xs : list (option A)) : list A := omap id xs.

Definition q_sum (xs : list Q) : Q := foldr Qplus 0%Q xs.
Definition q_min (x : Q) (xs : list Q) : Q := foldr Qmin x xs.
Definition q_max (x : Q) (xs : list Q) : Q := foldr Qmax x xs.

(** [numpy.rint]: the nearest integer, ties to the even one. *)
Definition rint (x : Q) : Z :=
  let f := Qfloor x in
  match ((x - inject_Z f) ?= 1 # 2)%Q with
  | Lt => f
  | Gt => (f + 1)%Z
  | Eq => if Z.even f then f else (f + 1)%Z
  end.

(** Rounding to two decimals without a rounding error: [rint] of the exact
    product with 100, divided by 100 exactly. *)
Definition round_half_even (x : Q) : Q := Qred (inject_Z (rint (x * 100)) / 100)%Q.

(** ** What the libraries compute

    The values of a float column are float64 values, read as the
    rationals that they are.  Four results of the libraries are not
    determined by the values as rationals:
    - the sum and the mean of the values of a group ([float_sum],
      [float_mean]), which round after every addition and after the
      division, in an order and with a compensation of the error that are
      the algorithm's;
    - [round(2)] ([round2]), which numpy computes in float64 as
      [rint(x * 100) / 100], rounding the product and the quotient;
    - the order in which [sort_values] leaves rows with equal keys
      ([nargsort], the row numbers in sorted order): its default sort is
      quicksort, which is not stable.
    The embedding takes the four as given.  Minimum and maximum select one
    of the values and are computed here. *)
Class Library := {
  float_sum : list Q → Q;
  float_mean : list Q → Q;
  round2 : Q → Q;
  nargsort : list (option Timestamp) → list nat
}.

(** The group reductions of pandas.  [mean], [min] and [max] of a group
    without a value are missing; [sum] has [min_count=0], so the sum of a
    group without a value is that of no values. *)
Definition agg_stat `{Library} (s : Stat) (xs : list (option Q)) : option Q :=
  match s, dropna xs with
  | Sum, vs => Some (float_sum vs)
  | _, [] => None
  | Mean, v :: vs => Some (float_mean (v :: vs))
  | Min, v :: vs => Some (q_min v vs)
  | Max, v :: vs => Some (q_max v vs)
  end.

(** ** Group-by and aggregation *)

Section GroupBy.
Context `{Library} {K : Type} `{Key K}.

(** The group keys: distinct, ascending, rows with a missing key dropped
    ([sort=True], [dropna=True]). *)
Definition group_keys (keys : list (option K)) : list K :=
  sort_uniq (dropna keys).

(** One statistic of one column, per group. *)
Definition agg_column (keys : list (option K)) (s : Stat)
    (xs : list (option Q)) : list (option Q) :=
  map (λ g, agg_stat s (rows_at (positions (Some g) keys) xs)) (group_keys keys).
End GroupBy.

(** [.round(2)] of a float column. *)
Definition round_col `{Library} (xs : list (option Q)) : list (option Q) :=
  map (fmap round2) xs.

(** [grouped[numeric_cols].agg({col: stats for col in numeric_cols}).round(2)]
    followed by the flattening of the two-level column labels into
    [col_stat].  The index (the group keys) is returned by [group_keys].
    Only float columns are in the modelled fragment; an empty selection
    leaves pandas nothing to concatenate. *)
Fixpoint agg_columns `{Library} {K} `{Key K} (keys : list (option K)) (stats : list Stat)
    (cols : DataFrame) : result DataFrame :=
  match cols with
  | [] => Ok []
  | (c, Float64 xs) :: r =>
      rest ← agg_columns keys stats r;
      Ok (map (λ s, (c +:+ "_" +:+ stat_name s,
                      Float64 (round_col (agg_column keys s xs)))) stats ++ rest)
  | (c, _) :: _ => Raise (TypeError ("agg function failed for column " +:+ c))
  end.

Definition groupby_agg `{Library} {K} `{Key K} (keys : list (option K)) (stats : list Stat)
    (cols : DataFrame) : result DataFrame :=
  match cols with
  | [] => Raise (ValueError "No objects to concatenate")
  | _ => agg_columns keys stats cols
  end.

(** [df.reset_index()] for an index called [name]. *)
Definition reset_index (name : string) (index : Series) (df : DataFrame)
    : result DataFrame :=
  if mem name (columns df)
  then Raise (ValueError ("cannot insert " +:+ name +:+ ", already exists"))
  else Ok ((name, index) :: df).

(** [pd.to_datetime(s)] for a datetime column (unchanged) and a column of
    dates (midnight of each date).  A period column is refused by pandas; a
    numeric column, which pandas reads as nanoseconds since the epoch, is
    outside the modelled fragment and is reported as an error too. *)
Definition to_datetime (s : Series) : result (list (option Timestamp)) :=
  match s with
  | Datetime64 ts => Ok ts
  | DateObj ds => Ok (map (fmap datetime_of_date) ds)
  | PeriodM _ => Raise (TypeError "Passing PeriodDtype data is invalid")
  | Float64 _ => Raise (TypeError "numeric time column")
  end.

(** The key column of the pipeline: ['time'], of dtype datetime64 (every
    frame the pipeline keeps has had [pd.to_datetime] applied to it).  Any
    other dtype is outside the modelled fragment. *)
Definition time_keys (df : DataFrame) : result (list (option Timestamp)) :=
  match get_col "time" df with
  | None => Raise (KeyError "time")
  | Some (Datetime64 ts) => Ok ts
  | Some _ => Raise (TypeError "time column is not datetime64")
  end.

(** ** Outer merge on ['time'] *)

(** The pairs of row numbers (left, right) that one key contributes: the
    product of its rows on both sides, or its rows on one side alone. *)
Definition join_pairs (ls rs : list nat) : list (option nat * option nat) :=
  match ls, rs with
  | [], _ => map (λ j, (None, Some j)) rs
  | _, [] => map (λ i, (Some i, None)) ls
  | _, _ => i ← ls; j ← rs; [(Some i, Some j)]
  end.

(** The join index of [how='outer']: the keys of both sides, sorted. *)
Definition join_index {K} `{Key K} (lk rk : list K) : list (option nat * option nat) :=
  k ← sort_uniq (lk ++ rk); join_pairs (positions k lk) (positions k rk).

(** The key of a joined row: the left key where the left side has the row,
    the right key otherwise. *)
Definition join_keys {A} (ji : list (option nat * option nat))
    (lk rk : list (option A)) : list (option A) :=
  map (λ p, match p.1 with
            | Some i => mjoin (lk !! i)
            | None => j ← p.2; mjoin (rk !! j)
            end) ji.

(** A label shared by both sides gets the suffix of its side. *)
Definition add_suffix (to_rename : list string) (suffix : string) (c : string) : string :=
  if mem c to_rename then c +:+ suffix else c.

(** [Index.duplicated()]: whether the label occurred earlier. *)
Fixpoint duplicated_from (seen l : list string) : list bool :=
  match l with
  | [] => []
  | x :: r => mem x seen :: duplicated_from (x :: seen) r
  end.
Definition duplicated (l : list string) : list bool := duplicated_from [] l.

(** The labels that the suffixes turned into duplicates. *)
Definition suffix_dups (orig renamed : list string) : list string :=
  omap (λ x, if x.2.1 && negb x.2.2 then Some x.1 else None)
       (zip renamed (zip (duplicated renamed) (duplicated orig))).

(** [pd.merge(left, right, on='time', how='outer', suffixes=('', '_dup'))].
    The right key column is dropped, the left one receives the keys of the
    joined rows. *)
Definition merge (left right : DataFrame) : result DataFrame :=
  lk ← time_keys left;
  rk ← time_keys right;
  let right' := drop_cols ["time"] right in
  let to_rename := List.filter (λ c, mem c (columns right')) (columns left) in
  let llabels := map (add_suffix to_rename "") (columns left) in
  let rlabels := map (add_suffix to_rename "_dup") (columns right') in
  match suffix_dups (columns left) llabels ++ suffix_dups (columns right') rlabels with
  | _ :: _ => Raise (MergeError "Passing 'suffixes' which cause duplicate columns")
  | [] =>
      let ji := join_index lk rk in
      let l := zip llabels (map (series_take ji.*1) left.*2) in
      let r := zip rlabels (map (series_take ji.*2) right'.*2) in
      Ok (set_col "time" (Datetime64 (join_keys ji lk rk)) l ++ r)
  end.

(** Lines 143-144: drop every column whose label ends with [_dup]. *)
Definition drop_dup_cols (merged_df : DataFrame) : DataFrame :=
  let cols_to_drop := List.filter (λ col, endswith col "_dup") (columns merged_df) in
  drop_cols cols_to_drop merged_df.

(** Lines 139-144: the accumulator starts as the first frame; every further
    frame is merged into it and the suffixed columns are dropped. *)
Fixpoint merge_all (merged_df : DataFrame) (rest : list DataFrame) : result DataFrame :=
  match rest with
  | [] => Ok merged_df
  | df :: rest' =>
      m ← merge merged_df df;
      merge_all (drop_dup_cols m) rest'
  end.

(** [df.sort_values('time')]: the rows in the order that the sort gives
    to their row numbers. *)
Definition sort_values `{Library} (df : DataFrame) : result DataFrame :=
  ks ← time_keys df;
  Ok (frame_take (Some <$> nargsort ks) df).

(** ** Resampling *)

(** [df.groupby(key)[cols].agg(stats).round(2)] with flattened labels: the
    index of group keys and the statistic columns. *)
Definition groupby `{Library} (key : string) (cols : list string) (stats : list Stat)
    (df : DataFrame) : result (Series * DataFrame) :=
  match get_col key df with
  | None => Raise (KeyError key)
  | Some (Datetime64 ts) =>
      a ← groupby_agg ts stats (select_cols cols df);
      Ok (Datetime64 (Some <$> group_keys ts), a)
  | Some (DateObj ds) =>
      a ← groupby_agg ds stats (select_cols cols df);
      Ok (DateObj (Some <$> group_keys ds), a)
  | Some (PeriodM ms) =>
      a ← groupby_agg ms stats (select_cols cols df);
      Ok (PeriodM (Some <$> group_keys ms), a)
  | Some (Float64 _) => Raise (TypeError "float group keys")
  end.

(** [[col for col in df.columns if col not in names]] *)
Definition labels_except (names : list string) (df : DataFrame) : list string :=
  List.filter (λ col, negb (mem col names)) (columns df).

(** [df[name]] or the [KeyError]. *)
Definition column (name : string) (df : DataFrame) : result Series :=
  match get_col name df with
  | Some s => Ok s
  | None => Raise (KeyError name)
  end.

(** Lines 169-189, after the [print]. *)
Definition resample_to_daily `{Library} (df : DataFrame) : result DataFrame :=
  let df_resampled := df in
  t ← column "time" df_resampled ≫= to_datetime;
  let df_resampled := set_col "date" (DateObj (map (fmap date_of) t)) df_resampled in
  let numeric_cols := labels_except ["time"; "date"] df_resampled in
  '(index, df_daily) ← groupby "date" numeric_cols [Mean; Min; Max] df_resampled;
  df_daily ← reset_index "date" index df_daily;
  t' ← column "date" df_daily ≫= to_datetime;
  let df_daily := set_col "time" (Datetime64 t') df_daily in
  let df_daily := drop_cols ["date"] df_daily in
  let cols := "time" :: List.filter (λ c, negb (String.eqb c "time")) (columns df_daily) in
  Ok (select_cols cols df_daily).

(** [Series.astype(str)] followed by [pd.to_datetime] on a period column. *)
Definition period_to_datetime (s : Series) : result (list (option Timestamp)) :=
  match s with
  | PeriodM ms => Ok (map (fmap datetime_of_period) ms)
  | _ => Raise (TypeError "not a period column")
  end.

(** [.dt.to_period('M')] *)
Definition to_period (s : Series) : result Series :=
  match s with
  | Datetime64 ts => Ok (PeriodM (map (fmap period_of) ts))
  | _ => Raise (TypeError "Can only use .dt accessor with datetimelike values")
  end.

(** Lines 195-216, after the [print]. *)
Definition resample_to_monthly `{Library} (df : DataFrame) : result DataFrame :=
  let df_resampled := df in
  t ← column "time" df_resampled ≫= to_datetime;
  let df_resampled := set_col "date" (Datetime64 t) df_resampled in
  ym ← column "date" df_resampled ≫= to_period;
  let df_resampled := set_col "year_month" ym df_resampled in
  let numeric_cols := labels_except ["time"; "date"; "year_month"] df_resampled in
  '(index, df_monthly) ← groupby "year_month" numeric_cols [Mean; Min; Max; Sum] df_resampled;
  df_monthly ← reset_index "year_month" index df_monthly;
  t' ← column "year_month" df_monthly ≫= period_to_datetime;
  let df_monthly := set_col "time" (Datetime64 t') df_monthly in
  let df_monthly := drop_cols ["year_month"] df_monthly in
  let cols := "time" :: List.filter (λ c, negb (String.eqb c "time")) (columns df_monthly) in
  Ok (select_cols cols df_monthly).

(** ** State and exceptions

    A computation reads and updates a state and returns a value or raises;
    the state reached when it raises is kept. *)

Definition ST (S A : Type) : Type := S → result A * S.

#[global] Instance st_ret {S} : MRet (ST S) := λ A a s, (Ok a, s).
#[global] Instance st_bind {S} : MBind (ST S) := λ A B f m s,
  match m s with
  | (Ok a, s') => f a s'
  | (Raise e, s') => (Raise e, s')
  end.

Definition raise {S A} (e : exn) : ST S A := λ s, (Raise e, s).
Definition lift {S A} (r : result A) : ST S A := λ s, (r, s).

(** ** The archive endpoint and the console *)

Record Request := mkRequest {
  url : string;
  latitude : Q;
  longitude : Q;
  start_date : Date;
  end_date : Date;
  hourly : string;
  timezone : string;
  timeout : Z
}.

(** The value under ['hourly'] of a JSON body: either [pd.DataFrame] (or the
    reading of its time strings) raises on it, or it is the frame that
    [pd.DataFrame] builds, the entries of a ['time'] column being
    timestamps. *)
Inductive Hourly :=
| Malformed (e : string)
| Table (df : DataFrame).

Inductive Body :=
| NotJson (e : string)
| Json (hourly : option Hourly).

Inductive Response :=
| ConnectionFailed (e : string)
| Reply (status : Z) (body : Body).

(** What the [except] clause of the fetch receives. *)
Inductive Failure :=
| Transport (e : string)
| HttpStatus (status : Z)
| JsonDecode (e : string)
| BadPayload (e : string)
| Pandas (e : exn).

Inductive Line :=
| Fetching (group_name : string)
| VariableList (variables : list string)
| WarningNoData (group_name : string)
| Retrieved (records : nat)
| ErrorFailed (group_name : string) (e : Failure)
| Merging
| ConvertingDaily
| ConvertingMonthly
| TotalRecords (n : nat)
| TotalVariables (n : Z)
| Resolution (temporal_resolution : string).

Record World := mkWorld {
  sent : list Request;
  console : list Line
}.

Definition IO := ST World.

Definition print (l : Line) : IO unit :=
  λ w, (Ok tt, mkWorld (sent w) (console w ++ [l])).

(** ** The extractor *)

Definition VARIABLE_GROUPS : list (string * list string) :=
  [ ("basic_weather",
      [ "temperature_2m"; "apparent_temperature"; "relative_humidity_2m";
        "dewpoint_2m"; "precipitation"; "rain"; "snowfall"; "wind_speed_10m";
        "wind_direction_10m"; "pressure_msl"; "surface_pressure"; "cloud_cover";
        "cloud_cover_low"; "cloud_cover_mid"; "cloud_cover_high" ]);
    ("solar_radiation",
      [ "shortwave_radiation"; "direct_radiation"; "diffuse_radiation" ]);
    ("soil",
      [ "soil_temperature_0cm"; "soil_temperature_6cm"; "soil_moisture_0_1cm" ]) ].

Definition base_url : string := "https://archive-api.open-meteo.com/v1/archive".

(** [VARIABLE_GROUPS[group_name]], [None] when the group is not in the
    catalog. *)
Fixpoint lookup_group (group_name : string) (groups : list (string * list string))
    : option (list string) :=
  match groups with
  | [] => None
  | (g, vs) :: r => if String.eqb g group_name then Some vs else lookup_group group_name r
  end.

Section Extractor.
Context `{Library}.
(** The archive endpoint. *)
Variable net : Request → Response.

(** [requests.get(url, params=params, timeout=60)]: the request is sent
    and the endpoint answers. *)
Definition requests_get (params : Request) : IO Response :=
  λ w, (Ok (net params), mkWorld (sent w ++ [params]) (console w)).

(** [response.raise_for_status()] *)
Definition raise_for_status (status : Z) : bool :=
  (400 <=? status)%Z && (status <? 600)%Z.

(** Lines 122-124: the frame of the payload, its ['time'] column
    converted when there is one. *)
Definition frame_of_hourly (df : DataFrame) : result DataFrame :=
  if mem "time" (columns df)
  then t ← column "time" df ≫= to_datetime; Ok (set_col "time" (Datetime64 t) df)
  else Ok df.

(** Lines 104-131, the body of the [try] with its [except]: the frame to
    append, or [None] when the loop continues without one. *)
Definition fetch (latitude longitude : Q) (start_date end_date : Date)
    (group_name : string) (variables : list string) : IO (option DataFrame) :=
  let params := mkRequest base_url latitude longitude start_date end_date
                  (String.concat "," variables) "auto" 60 in
  let failed (e : Failure) : IO (option DataFrame) :=
    _ ← print (ErrorFailed group_name e); mret None in
  r ← requests_get params;
  match r with
  | ConnectionFailed e => failed (Transport e)
  | Reply status body =>
      if raise_for_status status then failed (HttpStatus status)
      else match body with
           | NotJson e => failed (JsonDecode e)
           | Json None => _ ← print (WarningNoData group_name); mret None
           | Json (Some (Malformed e)) => failed (BadPayload e)
           | Json (Some (Table payload)) =>
               match frame_of_hourly payload with
               | Raise e => failed (Pandas e)
               | Ok df => _ ← print (Retrieved (nrows df)); mret (Some df)
               end
           end
  end.

(** Lines 95-131: the loop over [active_groups.items()]. *)
Fixpoint fetch_groups (latitude longitude : Q) (start_date end_date : Date)
    (active_groups : list (string * bool)) (all_dataframes : list DataFrame)
    : IO (list DataFrame) :=
  match active_groups with
  | [] => mret all_dataframes
  | (group_name, include) :: rest =>
      match include, lookup_group group_name VARIABLE_GROUPS with
      | true, Some variables =>
          _ ← print (Fetching group_name);
          _ ← print (VariableList variables);
          df ← fetch latitude longitude start_date end_date group_name variables;
          fetch_groups latitude longitude start_date end_date rest
            (all_dataframes ++ from_option (λ d, [d]) [] df)
      | _, _ => fetch_groups latitude longitude start_date end_date rest all_dataframes
      end
  end.

Definition _resample_to_daily (df : DataFrame) : IO DataFrame :=
  _ ← print ConvertingDaily; lift (resample_to_daily df).

Definition _resample_to_monthly (df : DataFrame) : IO DataFrame :=
  _ ← print ConvertingMonthly; lift (resample_to_monthly df).

(** [extract_weather_data_multi] with [output_file=None].  The date
    arguments are the dates that [strptime] reads from well-formed
    strings. *)
Definition extract_weather_data_multi (latitude longitude : Q)
    (start_date end_date : Date) (active_groups : list (string * bool))
    (temporal_resolution : string) : IO DataFrame :=
  let start := datetime_of_date start_date in
  let end_ := datetime_of_date end_date in
  if key_ltb end_ start then raise InvalidDateRange
  else
    all_dataframes ← fetch_groups latitude longitude start_date end_date active_groups [];
    match all_dataframes with
    | [] => raise NoDataRetrieved
    | first :: rest =>
        _ ← print Merging;
        merged_df ← lift (merge_all first rest);
        merged_df ← lift (sort_values merged_df);
        merged_df ←
          (if String.eqb temporal_resolution "daily" then _resample_to_daily merged_df
           else if String.eqb temporal_resolution "monthly" then _resample_to_monthly merged_df
           else mret merged_df);
        _ ← print (TotalRecords (nrows merged_df));
        _ ← print (TotalVariables (Z.of_nat (length (columns merged_df)) - 1));
        _ ← print (Resolution temporal_resolution);
        mret merged_df
    end.
End Extractor.

(** ** Objects

    Python passes frames by reference.  The pipeline above only assigns to
    frames it has just created, so it is written on values; the summary
    below assigns to a column of its argument, so it is written on a store
    of frames. *)

Definition loc := nat.
Abbreviation Heap := (gmap loc DataFrame).

Definition load (r : loc) : ST Heap DataFrame :=
  λ h, match h !! r with
       | Some d => (Ok d, h)
       | None => (Raise (TypeError "not a DataFrame"), h)
       end.
Definition store (r : loc) (d : DataFrame) : ST Heap unit :=
  λ h, (Ok tt, <[r := d]> h).
Definition alloc (d : DataFrame) : ST Heap loc :=
  λ h, let r := fresh (dom h) in (Ok r, <[r := d]> h).

(** [df[name] = s] on the object. *)
Definition assign_col (df : loc) (name : string) (s : Series) : ST Heap unit :=
  d ← load df; store df (set_col name s d).

(** Lines 264-279. *)
Definition get_daily_summary `{Library} (df : loc) : ST Heap loc :=
  d ← load df;
  if negb (mem "time" (columns d)) then raise (ValueError "Data must have a 'time' column")
  else
    t ← lift (column "time" d ≫= to_datetime);
    _ ← assign_col df "date" (DateObj (map (fmap date_of) t));
    d ← load df;
    let numeric_cols := labels_except ["time"; "date"] d in
    '(index, daily_summary) ← lift (groupby "date" numeric_cols [Mean; Min; Max; Sum] d);
    daily_summary ← lift (reset_index "date" index daily_summary);
    alloc daily_summary.


(** ** Strings of the command line *)

(** [old in s] *)
Fixpoint contains (old s : string) : bool :=
  String.prefix old s ||
  match s with
  | EmptyString => false
  | String _ s' => contains old s'
  end.

(** [s.replace(old, new)] for a non-empty [old]: the occurrences of [old]
    are replaced from left to right, an occurrence that overlaps a replaced
    one being passed over.  [skip] counts the characters of a replaced
    occurrence that are still to be passed. *)
Fixpoint replace_from (skip : nat) (old new s : string) : string :=
  match s with
  | EmptyString => EmptyString
  | String c s' =>
      match skip with
      | S k => replace_from k old new s'
      | O =>
          if String.prefix old s
          then new +:+ replace_from (String.length old - 1) old new s'
          else String c (replace_from 0 old new s')
      end
  end.
Definition replace (old new s : string) : string := replace_from 0 old new s.

(** [s.upper()] on ASCII text. *)
Definition upper_ascii (c : ascii) : ascii :=
  let n := nat_of_ascii c in
  if (97 <=? n)%nat && (n <=? 122)%nat then ascii_of_nat (n - 32) else c.
Fixpoint upper (s : string) : string :=
  match s with
  | EmptyString => EmptyString
  | String c s' => String (upper_ascii c) (upper s')
  end.

(** The truth value of an optional string: [None] and [''] are false. *)
Definition truthy (s : option string) : bool :=
  match s with
  | Some (String _ _) => true
  | _ => false
  end.

(** ** Files, the terminal and the command line *)

(** The writers of a frame: [to_csv(path, index=False)],
    [to_excel(path, index=False)] and
    [to_json(path, orient='records', indent=2)]. *)
Inductive FileFormat := CsvFile | ExcelFile | JsonFile.

Record WriteCall := mkWrite {
  w_path : string;
  w_format : FileFormat;
  w_frame : DataFrame
}.

(** How a command can end when it does not return: an exception of the
    pipeline, an error of the operating system or of an import, or
    [parser.error], which exits with a status. *)
Inductive crash :=
| Exception (e : exn)
| OSError (msg : string)
| ImportError (msg : string)
| SystemExit (status : Z).

Inductive outcome (A : Type) :=
| Done (a : A)
| Crash (c : crash).
Arguments Done {A} a.
Arguments Crash {A} c.

Definition of_result {A} (r : result A) : outcome A :=
  match r with
  | Ok a => Done a
  | Raise e => Crash (Exception e)
  end.

(** What the methods outside the pipeline and [main] print, next to the
    lines of the pipeline: the confirmation of a saved file; the title, the
    rule of [n] equals signs, the group headings and the variable lines of
    [list_groups]; the banner of [main] with the location and the date
    range; the empty line; the title of the daily summary, the head of the
    summary and the confirmation of its file; the closing line. *)
Inductive Output :=
| Pipeline (l : Line)
| Saved (output_file : string)
| GroupsTitle
| Rule (n : nat)
| GroupHeading (title : string)
| Bullet (var : string)
| Banner
| Location (latitude longitude : Q)
| DateRange (start_date end_date : Date)
| Blank
| DailySummaryTitle
| Frame (df : DataFrame)
| DailySaved (daily_file : string)
| Finished.

(** The requests sent, the lines printed, the writer calls made (in the
    order of the calls, whether or not the writer then raised) and the
    frames that exist as objects. *)
Record Session := mkSession {
  sent_requests : list Request;
  terminal : list Output;
  written : list WriteCall;
  objects : Heap
}.

Definition CLI (A : Type) : Type := Session → outcome A * Session.

#[global] Instance cli_ret : MRet CLI := λ A a s, (Done a, s).
#[global] Instance cli_bind : MBind CLI := λ A B f m s,
  match m s with
  | (Done a, s') => f a s'
  | (Crash c, s') => (Crash c, s')
  end.

Definition crash_with {A} (c : crash) : CLI A := λ s, (Crash c, s).

Definition say (o : Output) : CLI unit :=
  λ s, (Done tt, mkSession (sent_requests s) (terminal s ++ [o]) (written s) (objects s)).

(** A computation of the pipeline: it starts from the requests sent so
    far, and what it prints goes to the terminal. *)
Definition io {A} (m : IO A) : CLI A :=
  λ s, let '(r, w) := m (mkWorld (sent_requests s) []) in
       (of_result r,
        mkSession (sent w) (terminal s ++ (Pipeline <$> console w)) (written s) (objects s)).

(** A computation on the objects. *)
Definition obj {A} (m : ST Heap A) : CLI A :=
  λ s, let '(r, h) := m (objects s) in
       (of_result r, mkSession (sent_requests s) (terminal s) (written s) h).

(** [for x in l: body(x)] *)
Fixpoint for_each {A} (l : list A) (body : A → CLI unit) : CLI unit :=
  match l with
  | [] => mret tt
  | x :: r => _ ← body x; for_each r body
  end.

(** [d[key]] for an entry that a dictionary may lack. *)
Definition item {A} (key : string) (v : option A) : CLI A :=
  match v with
  | Some a => mret a
  | None => crash_with (Exception (KeyError key))
  end.

(** [df.head(n)] *)
Definition head_rows (n : nat) (df : DataFrame) : DataFrame :=
  frame_take (Some <$> seq 0 (n `min` nrows df)) df.

(** The arguments that [argparse] reads. *)
Record Args := mkArgs {
  args_config : option string;
  args_list_groups : bool;
  args_daily : bool
}.

(** The configuration that [json.load] returns, for a file whose entries
    have the documented types: numbers for the coordinates, dates written
    as YYYY-MM-DD, an object of booleans for the groups, strings for the
    resolution and the output file.  An entry that the file lacks is
    [None]. *)
Record Config := mkConfig {
  cfg_latitude : option Q;
  cfg_longitude : option Q;
  cfg_start_date : option Date;
  cfg_end_date : option Date;
  cfg_variable_groups : option (gmap string bool);
  cfg_temporal_resolution : option string;
  cfg_output_file : option string
}.

Section CommandLine.
Context `{Library}.
(** The archive endpoint, the file system as the writers meet it (the
    error that a writer call raises, if any) and the reading of a
    configuration file ([open] followed by [json.load]). *)
Variables (net : Request → Response)
          (fs : WriteCall → option crash)
          (json_load : string → outcome Config).

(** A writer call. *)
Definition write (c : WriteCall) : CLI unit :=
  λ s, (match fs c with None => Done tt | Some e => Crash e end,
        mkSession (sent_requests s) (terminal s) (written s ++ [c]) (objects s)).

(** [extract_weather_data_multi] with its [output_file] argument: lines
    158-163 follow what the function does without one. *)
Definition extract_weather_data_multi_file (latitude longitude : Q)
    (start_date end_date : Date) (active_groups : list (string * bool))
    (temporal_resolution : string) (output_file : option string) : CLI DataFrame :=
  merged_df ← io (extract_weather_data_multi net latitude longitude start_date end_date
                    active_groups temporal_resolution);
  match output_file with
  | Some (String _ _ as output_file) =>
      _ ← write (mkWrite output_file CsvFile merged_df);
      _ ← say (Saved output_file);
      mret merged_df
  | _ => mret merged_df
  end.

(** Lines 218-220. *)
Definition get_available_groups : list (string * list string) := VARIABLE_GROUPS.

(** Lines 222-229. *)
Definition list_groups : CLI unit :=
  _ ← say GroupsTitle;
  _ ← say (Rule 70);
  for_each VARIABLE_GROUPS (λ gv,
    _ ← say (GroupHeading (replace "_" " " (upper gv.1)));
    for_each gv.2 (λ var, say (Bullet var))).

(** Lines 231-262.  The frame is passed by reference; with [daily] the
    name [df] is rebound to the summary. *)
Definition save_with_options (df : loc) (output_file : string) (daily : bool)
    (format : string) : CLI unit :=
  df ← (if daily then obj (get_daily_summary df) else mret df);
  _ ← (if String.eqb format "csv"
       then d ← obj (load df); write (mkWrite output_file CsvFile d)
       else if String.eqb format "excel"
       then d ← obj (load df); write (mkWrite output_file ExcelFile d)
       else if String.eqb format "json"
       then d ← obj (load df); write (mkWrite output_file JsonFile d)
       else crash_with (Exception (ValueError ("Unsupported format: " +:+ format))));
  say (Saved output_file).

(** Lines 321-324: one switch per group of the catalog, in the order of
    the catalog; a group that the configuration does not mention is off. *)
Definition switches (config : Config) : list (string * bool) :=
  let variable_groups := default ∅ (cfg_variable_groups config) in
  map (λ group, (group, default false (variable_groups !! group)))
      get_available_groups.*1.

(** Lines 339-346. *)
Definition daily_part (config : Config) (df : DataFrame) : CLI unit :=
  _ ← say DailySummaryTitle;
  df ← obj (alloc df);
  daily_df ← obj (get_daily_summary df);
  daily_df ← obj (load daily_df);
  _ ← say (Frame (head_rows 5 daily_df));
  match cfg_output_file config with
  | Some (String _ _ as output_file) =>
      let daily_file := replace ".csv" "_daily.csv" output_file in
      _ ← write (mkWrite daily_file CsvFile daily_df);
      say (DailySaved daily_file)
  | _ => mret tt
  end.

(** Lines 300-350, after [parse_args]. *)
Definition main (args : Args) : CLI unit :=
  if args_list_groups args then list_groups
  else
    match args_config args with
    | Some (String _ _ as path) =>
        config ← (λ s, (json_load path, s));
        _ ← say (Rule 70);
        _ ← say Banner;
        _ ← say (Rule 70);
        latitude ← item "latitude" (cfg_latitude config);
        longitude ← item "longitude" (cfg_longitude config);
        _ ← say (Location latitude longitude);
        start_date ← item "start_date" (cfg_start_date config);
        end_date ← item "end_date" (cfg_end_date config);
        _ ← say (DateRange start_date end_date);
        _ ← say Blank;
        let active_groups := switches config in
        let temporal_resolution := default "hourly" (cfg_temporal_resolution config) in
        df ← extract_weather_data_multi_file latitude longitude start_date end_date
               active_groups temporal_resolution (cfg_output_file config);
        _ ← (if args_daily args then daily_part config df else mret tt);
        say Finished
    | _ => crash_with (SystemExit 2)
    end.
End CommandLine.


(** * Vocabulary of the statements *)

(** Strictly before, and not after, in the order of the keys. *)
Definition key_lt {K} `{Key K} (a b : K) : Prop := key_ltb a b = true.
Definition key_le {K} `{Key K} (a b : K) : Prop := key_ltb b a = false.
Definition pair_le {K} `{Key K} (p q : K * nat) : Prop := key_le p.1 q.1.

(** The keys read in the sorted order of row numbers. *)
Definition sorted_keys {K} `{Key K} (ks : list K) : list K :=
  (sort_by (zip ks (seq 0 (length ks)))).*1.

(** The label that a statistic column gets. *)
Definition stat_label (c : string) (s : Stat) : string := c +:+ "_" +:+ stat_name s.

(** Every column has [n] entries. *)
Definition aligned (n : nat) (df : DataFrame) : Prop :=
  Forall (λ cs, series_len cs.2 = n) df.

(** The frame that [merge] builds from the key columns of its arguments. *)
Definition merged_frame (left right : DataFrame)
    (lk rk : list (option Timestamp)) : DataFrame :=
  let right' := drop_cols ["time"] right in
  let to_rename := List.filter (λ c, mem c (columns right')) (columns left) in
  let ji := join_index lk rk in
  set_col "time" (Datetime64 (join_keys ji lk rk)) (frame_take ji.*1 left)
  ++ map (λ cs, (add_suffix to_rename "_dup" cs.1, series_take ji.*2 cs.2)) right'.

(** The labels of the right frame after the suffix is applied. *)
Definition right_labels (left right : DataFrame) : list string :=
  let right' := drop_cols ["time"] right in
  let to_rename := List.filter (λ c, mem c (columns right')) (columns left) in
  map (add_suffix to_rename "_dup") (columns right').

(** The row numbers of a table with distinct keys, in the order of the
    keys. *)
Definition key_order {K} `{Key K} (ks : list K) : list nat :=
  sort_uniq (ks ++ ks) ≫= λ k, positions k ks.

Definition is_float (s : Series) : bool :=
  match s with Float64 _ => true | _ => false end.

(** A table as the merges and the sort leave it: a datetime column
    ['time'] and float columns of variables under distinct labels, all
    columns of one length. *)
Record merged_table (df : DataFrame) (ts : list (option Timestamp)) : Prop := {
  mt_time : get_col "time" df = Some (Datetime64 ts);
  mt_labels : NoDup (columns df);
  mt_aligned : aligned (nrows df) df;
  mt_float : ∀ c s, (c, s) ∈ df → c ≠ "time" → is_float s = true
}.

(** A merged hourly table: a datetime column ['time'] and float columns of
    variables under distinct labels, all of the same length.  No variable
    is called ['date'] or ['year_month'], the labels that the resampling
    uses for its own columns. *)
Record hourly_table (df : DataFrame) (ts : list (option Timestamp)) : Prop := {
  ht_time : get_col "time" df = Some (Datetime64 ts);
  ht_labels : NoDup (columns df);
  ht_aligned : aligned (nrows df) df;
  ht_float : ∀ c s, (c, s) ∈ df → c ≠ "time" → is_float s = true;
  ht_names : ("date" ∉ columns df) ∧ ("year_month" ∉ columns df);
  ht_variable : ∃ c, c ∈ columns df ∧ c ≠ "time"
}.

(** The statistic columns of one variable and of a frame of variables. *)
Definition stat_columns `{Library} {K} `{Key K} (keys : list (option K)) (stats : list Stat)
    (cs : string * Series) : DataFrame :=
  match cs.2 with
  | Float64 xs =>
      map (λ s, (stat_label cs.1 s, Float64 (round_col (agg_column keys s xs)))) stats
  | _ => []
  end.
Definition stat_frame `{Library} {K} `{Key K} (keys : list (option K)) (stats : list Stat)
    (cols : DataFrame) : DataFrame :=
  flat_map (stat_columns keys stats) cols.

(** The values of a column in the rows of one bucket, in row order. *)
Definition bucket {K} `{Key K} (g : K) (keys : list (option K))
    (xs : list (option Q)) : list (option Q) :=
  (List.filter (λ kx, key_eqb kx.1 (Some g)) (zip keys xs)).*2.

(** The calendar date and the calendar month on which a timestamp lies,
    field by field. *)
Definition on_date (d : Date) (t : Timestamp) : bool :=
  ((ts_year t =? d_year d) && (ts_month t =? d_month d) && (ts_day t =? d_day d))%Z.
Definition in_month (m : Month) (t : Timestamp) : bool :=
  ((ts_year t =? m_year m) && (ts_month t =? m_month m))%Z.

(** Whether a row has a timestamp, and one that satisfies [p]. *)
Definition stamped (p : Timestamp → bool) (t : option Timestamp) : bool :=
  match t with
  | Some t => p t
  | None => false
  end.

(** The values of a column in the rows whose timestamp satisfies [p], in
    row order. *)
Definition values_where (p : Timestamp → bool) (ts : list (option Timestamp))
    (xs : list (option Q)) : list (option Q) :=
  (List.filter (λ tx, stamped p tx.1) (zip ts xs)).*2.

(** The entry of a float column in a row, when the table has both. *)
Definition cell (c : string) (j : nat) (df : DataFrame) : option (option Q) :=
  match get_col c df with
  | Some (Float64 ys) => ys !! j
  | _ => None
  end.

(** The variable columns of a table. *)
Definition variables (df : DataFrame) : DataFrame := drop_cols ["time"] df.

(** The table that the resampling builds: the bucket keys as timestamps,
    then the statistic columns of every variable. *)
Definition resampled `{Library} {K} `{Key K} (to_ts : K → Timestamp) (keys : list (option K))
    (stats : list Stat) (df : DataFrame) : DataFrame :=
  ("time", Datetime64 (Some <$> (to_ts <$> group_keys keys)))
  :: stat_frame keys stats (variables df).

(** The least and the greatest of the values of a bucket: one of the
    values, which bounds the others; a bucket without a value has
    neither. *)
Definition is_min (vs : list Q) (r : option Q) : Prop :=
  match r with
  | Some m => m ∈ vs ∧ ∀ y, y ∈ vs → (m <= y)%Q
  | None => vs = []
  end.
Definition is_max (vs : list Q) (r : option Q) : Prop :=
  match r with
  | Some m => m ∈ vs ∧ ∀ y, y ∈ vs → (y <= m)%Q
  | None => vs = []
  end.

(** ** What float64 arithmetic and a sort guarantee

    Whatever the algorithm, float64 arithmetic is exact as long as every
    intermediate result is a whole number of magnitude at most 2^53; so the
    sum of whole numbers whose magnitudes add up to at most 2^53 is their
    sum, their mean is their mean when that is a whole number, and
    [round(2)] returns a whole number [z] unchanged when [100 * z] is
    within that range.  Otherwise every operation rounds with a relative
    error of at most 2^-53, which bounds the error of a sum of [n] values
    by [n * 2^-52] times the sum of their magnitudes, and the distance of
    [round(2)] from its argument by half a hundredth and [2^-51] times the
    magnitude.  The bounds on the magnitudes keep the results finite. *)
Definition z_sum (zs : list Z) : Z := foldr Z.add 0%Z zs.

Class Float64Laws `{Library} : Prop := {
  float_sum_integers (zs : list Z) :
    (z_sum (Z.abs <$> zs) ≤ 2 ^ 53)%Z →
    (float_sum (inject_Z <$> zs) == inject_Z (z_sum zs))%Q;
  float_mean_integers (zs : list Z) (m : Z) :
    zs ≠ [] → (z_sum (Z.abs <$> zs) ≤ 2 ^ 53)%Z →
    z_sum zs = (m * Z.of_nat (length zs))%Z →
    (float_mean (inject_Z <$> zs) == inject_Z m)%Q;
  round2_integer (x : Q) (z : Z) :
    (x == inject_Z z)%Q → (Z.abs z ≤ 2 ^ 46)%Z → round2 x = inject_Z z;
  float_sum_close (xs : list Q) :
    (Z.of_nat (length xs) ≤ 2 ^ 20)%Z →
    (∀ x, x ∈ xs → (Qabs x <= inject_Z (2 ^ 900))%Q) →
    (Qabs (float_sum xs - q_sum xs)
     <= inject_Z (Z.of_nat (length xs)) * (1 # 2 ^ 52) * q_sum (Qabs <$> xs))%Q;
  round2_close (x : Q) :
    (Qabs x <= inject_Z (2 ^ 1000))%Q →
    (Qabs (round2 x - x) <= (1 # 200) + Qabs x * (1 # 2 ^ 51))%Q
}.

(** A sort returns the row numbers, each once, in an order in which the
    keys do not decrease. *)
Class SortLaws `{Library} : Prop := {
  nargsort_perm (ks : list (option Timestamp)) :
    Permutation (nargsort ks) (seq 0 (length ks));
  nargsort_sorted (ks : list (option Timestamp)) :
    StronglySorted key_le (take (Some <$> nargsort ks) ks)
}.

(** The summary table of [get_daily_summary]: the dates, then the four
    statistic columns of every variable. *)
Definition daily_summary `{Library} (df : DataFrame) (ts : list (option Timestamp)) : DataFrame :=
  let dates := map (fmap date_of) ts in
  ("date", DateObj (Some <$> group_keys dates))
  :: stat_frame dates [Mean; Min; Max; Sum] (variables df).

(** The caller's table after [get_daily_summary]. *)
Definition with_date (df : DataFrame) (ts : list (option Timestamp)) : DataFrame :=
  set_col "date" (DateObj (map (fmap date_of) ts)) df.

(** The calendar: the days of a month and its hours, one timestamp each. *)
Definition is_leap (y : Z) : bool :=
  ((y mod 4 =? 0) && (negb (y mod 100 =? 0) || (y mod 400 =? 0)))%Z.
Definition days_in_month (m : Month) : Z :=
  match m_month m with
  | 2 => if is_leap (m_year m) then 29 else 28
  | 4 | 6 | 9 | 11 => 30
  | _ => 31
  end%Z.
Definition hours_of_month (m : Month) : list Timestamp :=
  d ← seqZ 1 (days_in_month m); h ← seqZ 0 24; [mkTs (m_year m) (m_month m) d h 0].

(** ** Vocabulary of the pipeline *)

(** The enabled groups of the mapping that the catalog knows, with their
    variables, in the order of the mapping. *)
Definition planned (active_groups : list (string * bool)) : list (string * list string) :=
  omap (λ gi, if gi.2 : bool
              then (λ vs, (gi.1, vs)) <$> lookup_group gi.1 VARIABLE_GROUPS
              else None) active_groups.

(** The request of a group. *)
Definition request_for (latitude longitude : Q) (start_date end_date : Date)
    (variables : list string) : Request :=
  mkRequest base_url latitude longitude start_date end_date
    (String.concat "," variables) "auto" 60.

(** What a response contributes: the frame that is appended, if any. *)
Definition fetched (r : Response) : option DataFrame :=
  match r with
  | Reply status (Json (Some (Table payload))) =>
      if raise_for_status status then None
      else match frame_of_hourly payload with
           | Ok df => Some df
           | Raise _ => None
           end
  | _ => None
  end.

(** The line that the fetch of a group prints for a response. *)
Definition outcome_line (group_name : string) (r : Response) : Line :=
  match r with
  | ConnectionFailed e => ErrorFailed group_name (Transport e)
  | Reply status body =>
      if raise_for_status status
      then ErrorFailed group_name (HttpStatus status)
      else match body with
           | NotJson e => ErrorFailed group_name (JsonDecode e)
           | Json None => WarningNoData group_name
           | Json (Some (Malformed e)) => ErrorFailed group_name (BadPayload e)
           | Json (Some (Table payload)) =>
               match frame_of_hourly payload with
               | Raise e => ErrorFailed group_name (Pandas e)
               | Ok df => Retrieved (nrows df)
               end
           end
  end.

(** A fetch failure in the words of the description: a transport error, a
    non-success HTTP status (a client or server error, 400 to 599), or a
    response lacking the hourly payload. *)
Definition fetch_failure (r : Response) : Prop :=
  match r with
  | ConnectionFailed _ => True
  | Reply status body => (400 ≤ status ≤ 599)%Z ∨ body = Json None
  end.

(** A line that tells of the failure of a group. *)
Definition warns_of (group_name : string) (l : Line) : Prop :=
  l = WarningNoData group_name ∨ ∃ e, l = ErrorFailed group_name e.

Section Runs.
Variables (net : Request → Response) (latitude longitude : Q)
          (start_date end_date : Date).

(** The frames that a run collects: those of the planned groups whose
    fetch yields one. *)
Definition frames_of (active_groups : list (string * bool)) : list DataFrame :=
  omap (λ gv, fetched (net (request_for latitude longitude start_date end_date gv.2)))
       (planned active_groups).

(** The requests that a run sends. *)
Definition requests_of (active_groups : list (string * bool)) : list Request :=
  map (λ gv, request_for latitude longitude start_date end_date gv.2)
      (planned active_groups).

(** The lines that the loop prints. *)
Definition lines_of (active_groups : list (string * bool)) : list Line :=
  flat_map (λ gv, [ Fetching gv.1; VariableList gv.2;
                    outcome_line gv.1
                      (net (request_for latitude longitude start_date end_date gv.2)) ])
           (planned active_groups).

(** Whether an entry of the mapping is an enabled group of the catalog
    whose fetch yields a frame. *)
Definition succeeded (gi : string * bool) : bool :=
  gi.2 && match lookup_group gi.1 VARIABLE_GROUPS with
          | Some vs =>
              bool_decide (is_Some (fetched
                (net (request_for latitude longitude start_date end_date vs))))
          | None => false
          end.
End Runs.

(** What follows the loop, without the printing: merge, sort, resample. *)
Definition post_process `{Library} (temporal_resolution : string) (first : DataFrame)
    (rest : list DataFrame) : result DataFrame :=
  merged_df ← merge_all first rest;
  merged_df ← sort_values merged_df;
  if String.eqb temporal_resolution "daily" then resample_to_daily merged_df
  else if String.eqb temporal_resolution "monthly" then resample_to_monthly merged_df
  else Ok merged_df.

(** The request order that the description gives: the order of the catalog,
    restricted to the groups that the mapping enables. *)
Definition catalog_order_requests (latitude longitude : Q) (start_date end_date : Date)
    (active_groups : list (string * bool)) : list Request :=
  omap (λ gv, if existsb (λ gi, String.eqb gi.1 gv.1 && gi.2) active_groups
              then Some (request_for latitude longitude start_date end_date gv.2)
              else None) VARIABLE_GROUPS.

(** A fetched table as the archive returns it: an hourly table none of
    whose labels ends with [_dup]. *)
Definition fetched_table (df : DataFrame) : Prop :=
  (∃ ts, hourly_table df ts) ∧ Forall (λ c, endswith c "_dup" = false) (columns df).

(** The two errors that the pipeline raises itself. *)
Definition pipeline_error (e : exn) : Prop := e = InvalidDateRange ∨ e = NoDataRetrieved.

(** A result that is not one of them. *)
Definition other_error {A} (r : result A) : Prop :=
  match r with
  | Raise e => ¬ pipeline_error e
  | Ok _ => True
  end.

(** * Example data *)

Definition hour_of (d h : Z) : option Timestamp := Some (mkTs 2024 1 d h 0).

(** Two hourly tables with distinct timestamps that overlap in one hour. *)
Definition ex_temp : DataFrame :=
  [ ("time", Datetime64 [hour_of 1 0; hour_of 1 1; hour_of 1 2]);
    ("temperature_2m", Float64 [Some 10; Some 20; Some 30]%Q) ].
Definition ex_soil : DataFrame :=
  [ ("time", Datetime64 [hour_of 1 2; hour_of 1 3]);
    ("soil_temperature_0cm", Float64 [Some 4; Some 5]%Q) ].
Definition ex_temp_soil : DataFrame :=
  [ ("time", Datetime64 [hour_of 1 0; hour_of 1 1; hour_of 1 2; hour_of 1 3]);
    ("temperature_2m", Float64 [Some 10; Some 20; Some 30; None]%Q);
    ("soil_temperature_0cm", Float64 [None; None; Some 4; Some 5]%Q) ].

(** A table in which one timestamp occurs twice. *)
Definition ex_repeated : DataFrame :=
  [ ("time", Datetime64 [hour_of 1 0; hour_of 1 0]);
    ("temperature_2m", Float64 [Some 1; Some 2]%Q) ].
Definition ex_single : DataFrame :=
  [ ("time", Datetime64 [hour_of 1 0]);
    ("soil_temperature_0cm", Float64 [Some 5]%Q) ].

(** January 2024, every hour, with half a millimetre of precipitation per
    hour. *)
Definition ex_january : DataFrame :=
  [ ("time", Datetime64 (Some <$> hours_of_month (mkMonth 2024 1)));
    ("precipitation", Float64 (replicate 744 (Some (1 # 2)%Q))) ].

(** Three hours of one day and two of the next; the last hour of a month
    and the first two of the next. *)
Definition ex_two_days : DataFrame :=
  [ ("time", Datetime64 [hour_of 1 0; hour_of 1 1; hour_of 1 2; hour_of 2 0; hour_of 2 1]);
    ("temperature_2m", Float64 [Some 10; Some 20; Some 30; Some 4; Some 6]%Q) ].
Definition ex_two_months : DataFrame :=
  [ ("time", Datetime64 [ Some (mkTs 2024 1 31 23 0); Some (mkTs 2024 2 1 0 0);
                          Some (mkTs 2024 2 1 1 0) ]);
    ("rain", Float64 [Some 1; Some 2; Some 4]%Q) ].

(** A table without a variable, and tables with a variable under a label
    that the resampling uses for a column of its own. *)
Definition ex_time_only : DataFrame :=
  [ ("time", Datetime64 [hour_of 1 0; hour_of 1 1]) ].
Definition ex_date_variable : DataFrame :=
  [ ("time", Datetime64 [hour_of 1 0; hour_of 1 1]);
    ("date", Float64 [Some 1; Some 2]%Q);
    ("rain", Float64 [Some 3; Some 5]%Q) ].
Definition ex_year_month_variable : DataFrame :=
  [ ("time", Datetime64 [hour_of 1 0; hour_of 1 1]);
    ("year_month", Float64 [Some 1; Some 2]%Q);
    ("rain", Float64 [Some 3; Some 5]%Q) ].

(** A day on which the only variable has no value. *)
Definition ex_missing : DataFrame :=
  [ ("time", Datetime64 [hour_of 1 0; hour_of 1 1]);
    ("snowfall", Float64 [None; None]) ].

(** An endpoint that answers every request with a body that has no hourly
    payload, and the world before a run. *)
Definition net_no_hourly (r : Request) : Response := Reply 200 (Json None).
Definition world0 : World := mkWorld [] [].

(** An endpoint that answers with a table without rows, and one that
    answers with a payload without a ['time'] column. *)
Definition ex_no_rows : DataFrame :=
  [ ("time", Datetime64 []); ("soil_temperature_0cm", Float64 []) ].
Definition net_no_rows (r : Request) : Response :=
  Reply 200 (Json (Some (Table ex_no_rows))).
Definition ex_no_time : DataFrame :=
  [ ("soil_temperature_0cm", Float64 [Some 5%Q]) ].
Definition net_no_time (r : Request) : Response :=
  Reply 200 (Json (Some (Table ex_no_time))).

(** An endpoint that answers the soil request with a table and fails on
    every other request. *)
Definition net_soil_only (r : Request) : Response :=
  if String.prefix "soil" (hourly r)
  then Reply 200 (Json (Some (Table ex_soil)))
  else ConnectionFailed "connection refused".

(** An endpoint that answers the soil request with a payload without a
    ['time'] column and fails on every other request. *)
Definition net_soil_no_time (r : Request) : Response :=
  if String.prefix "soil" (hourly r)
  then Reply 200 (Json (Some (Table ex_no_time)))
  else ConnectionFailed "connection refused".

(** An endpoint that answers the soil request with the last hour of one
    day and the first of the next, and the request for basic weather with
    the three hours of [ex_temp]. *)
Definition ex_soil_night : DataFrame :=
  [ ("time", Datetime64 [hour_of 1 23; hour_of 2 0]);
    ("soil_temperature_0cm", Float64 [Some 4; Some 5]%Q) ].
Definition net_two_days (r : Request) : Response :=
  if String.prefix "soil" (hourly r)
  then Reply 200 (Json (Some (Table ex_soil_night)))
  else if String.prefix "temperature" (hourly r)
  then Reply 200 (Json (Some (Table ex_temp)))
  else Reply 503 (NotJson "Service Unavailable").

(** * Vocabulary of the further properties *)


(** The row number at which a key occurs first, if it occurs. *)
Definition index_of {K} `{Key K} (k : K) (l : list K) : option nat :=
  head (positions k l).

(** The three lines of the closing report of a run. *)
Definition is_report (l : Line) : bool :=
  match l with
  | TotalRecords _ | TotalVariables _ | Resolution _ => true
  | _ => false
  end.
Definition reports (o : Output) : bool :=
  match o with
  | Pipeline l => is_report l
  | _ => false
  end.

(** A command that sends no request. *)
Definition offline {A} (m : CLI A) : Prop :=
  ∀ s, sent_requests (m s).2 = sent_requests s.

(** The writer that a format name selects (lines 253-260). *)
Definition writer_of (format : string) : option FileFormat :=
  if String.eqb format "csv" then Some CsvFile
  else if String.eqb format "excel" then Some ExcelFile
  else if String.eqb format "json" then Some JsonFile
  else None.

(** Whether the configuration switches a group on (line 324). *)
Definition enabled (config : Config) (group : string) : bool :=
  default false (default ∅ (cfg_variable_groups config) !! group).

(** The lines that [main] prints before it calls the pipeline. *)
Definition banner (latitude longitude : Q) (start_date end_date : Date) : list Output :=
  [ Rule 70; Banner; Rule 70; Location latitude longitude;
    DateRange start_date end_date; Blank ].

(** The first of the four required entries that a configuration lacks, in
    the order in which [main] reads them. *)
Definition missing_key (config : Config) : option string :=
  match cfg_latitude config, cfg_longitude config,
        cfg_start_date config, cfg_end_date config with
  | None, _, _, _ => Some "latitude"
  | Some _, None, _, _ => Some "longitude"
  | Some _, Some _, None, _ => Some "start_date"
  | Some _, Some _, Some _, None => Some "end_date"
  | Some _, Some _, Some _, Some _ => None
  end.

(** ** Further example data *)

(** A table with a column whose name ends with [_dup]. *)
Definition ex_gust_dup : DataFrame :=
  [ ("time", Datetime64 [hour_of 1 0]);
    ("gust_dup", Float64 [Some 7%Q]) ].

(** A table out of order, with a repeated and a missing timestamp. *)
Definition ex_unsorted : DataFrame :=
  [ ("time", Datetime64 [hour_of 1 2; hour_of 1 0; None; hour_of 1 0]);
    ("rain", Float64 [Some 3; Some 1; Some 4; Some 2]%Q) ].

(** Three configurations: with the four required entries and nothing
    else; with the soil group and a group that the catalog does not have
    switched on, and an output file whose name has no [.csv]; without two
    of the required entries.  And the files that hold them. *)
Definition ex_config : Config :=
  mkConfig (Some 0%Q) (Some 0%Q) (Some (mkDate 2024 1 1)) (Some (mkDate 2024 1 2))
    None None None.
Definition ex_config_soil : Config :=
  mkConfig (Some 0%Q) (Some 0%Q) (Some (mkDate 2024 1 1)) (Some (mkDate 2024 1 2))
    (Some {[ "soil" := true; "wind" := true ]}) None (Some "soil.txt").
Definition ex_config_partial : Config :=
  mkConfig (Some 0%Q) None None (Some (mkDate 2024 1 2)) None None None.
Definition ex_json_load (path : string) : outcome Config :=
  if String.eqb path "config.json" then Done ex_config
  else if String.eqb path "soil.json" then Done ex_config_soil
  else if String.eqb path "partial.json" then Done ex_config_partial
  else Crash (OSError "No such file or directory").

(** The session before anything has happened. *)
Definition session0 : Session := mkSession [] [] [] ∅.

(** * The library without rounding errors

    Exact arithmetic and a stable sort: the sum and the mean are those of
    the rationals, [round(2)] rounds the exact value, half to even, and
    rows with equal keys keep their order.  A statement that does not
    quantify over the library is about this one. *)
#[global] Instance ideal : Library := {|
  float_sum := q_sum;
  float_mean := λ vs, (q_sum vs / inject_Z (Z.of_nat (length vs)))%Q;
  round2 := round_half_even;
  nargsort := argsort
|}.
(** * Properties *)

(** ** The order on keys *)

Class KeyOrder (K : Type) `{Key K} := {
  key_ltb_irrefl : ∀ a : K, key_ltb a a = false;
  key_ltb_trans : ∀ a b c : K, key_ltb a b = true → key_ltb b c = true → key_ltb a c = true;
  key_ltb_total : ∀ a b : K, key_ltb a b = false → key_ltb b a = false → a = b
}.

Lemma lex_ltb_irrefl a : lex_ltb a a = false.
Proof.
  induction a as [|x a IH]; simpl; [done|].
  rewrite Z.ltb_irrefl, Z.eqb_refl, IH. done.
Qed.

Lemma lex_ltb_trans a b c :
  lex_ltb a b = true → lex_ltb b c = true → lex_ltb a c = true.
Proof.
  revert b c. induction a as [|x a IH]; intros [|y b] [|z c]; simpl; try done.
  rewrite !orb_true_iff, !andb_true_iff, !Z.ltb_lt, !Z.eqb_eq.
  intros [H1|[H1 H1']] [H2|[H2 H2']]; try (left; lia).
  right. split; [lia|]. eauto.
Qed.

Lemma lex_ltb_total a b :
  length a = length b → lex_ltb a b = false → lex_ltb b a = false → a = b.
Proof.
  revert b. induction a as [|x a IH]; intros [|y b]; simpl; try done.
  intros Hlen. rewrite !orb_false_iff, !andb_false_iff, !Z.ltb_ge, !Z.eqb_neq.
  intros [H1 H1'] [H2 H2']. assert (x = y) by lia. subst y.
  f_equal. apply IH; [lia| |]; [destruct H1'|destruct H2']; done.
Qed.

#[global] Instance date_order : KeyOrder Date.
Proof.
  split; unfold key_ltb, date_key.
  - intros a. apply lex_ltb_irrefl.
  - intros a b c. apply lex_ltb_trans.
  - intros [] [] H1 H2. apply lex_ltb_total in H1; [|done|done].
    by injection H1 as -> -> ->.
Qed.

#[global] Instance month_order : KeyOrder Month.
Proof.
  split; unfold key_ltb, month_key.
  - intros a. apply lex_ltb_irrefl.
  - intros a b c. apply lex_ltb_trans.
  - intros [] [] H1 H2. apply lex_ltb_total in H1; [|done|done].
    by injection H1 as -> ->.
Qed.

#[global] Instance timestamp_order : KeyOrder Timestamp.
Proof.
  split; unfold key_ltb, timestamp_key.
  - intros a. apply lex_ltb_irrefl.
  - intros a b c. apply lex_ltb_trans.
  - intros [] [] H1 H2. apply lex_ltb_total in H1; [|done|done].
    by injection H1 as -> -> -> -> ->.
Qed.

#[global] Instance option_order {K} `{KeyOrder K} : KeyOrder (option K).
Proof.
  split.
  - intros [a|]; [apply (key_ltb_irrefl a)|done].
  - intros [a|] [b|] [c|]; try done. apply (key_ltb_trans a b c).
  - intros [a|] [b|]; try done. intros H1 H2. f_equal. by apply key_ltb_total.
Qed.
(** ** Sorted keys *)

Section KeyFacts.
Context {K : Type} `{KeyOrder K}.

Lemma key_eqb_eq (a b : K) : key_eqb a b = true ↔ a = b.
Proof.
  unfold key_eqb. rewrite andb_true_iff, !negb_true_iff. split.
  - intros [? ?]. by apply key_ltb_total.
  - intros ->. by rewrite key_ltb_irrefl.
Qed.

Lemma key_eqb_refl (a : K) : key_eqb a a = true.
Proof. by apply key_eqb_eq. Qed.

Lemma key_eqb_neq (a b : K) : key_eqb a b = false ↔ a ≠ b.
Proof. rewrite <- key_eqb_eq. by destruct (key_eqb a b). Qed.

Lemma key_elem_of_dec (k : K) (l : list K) : k ∈ l ∨ k ∉ l.
Proof.
  induction l as [|x l [IH|IH]].
  - right. apply not_elem_of_nil.
  - left. by right.
  - destruct (key_eqb x k) eqn:E.
    + apply key_eqb_eq in E as ->. left. by left.
    + apply key_eqb_neq in E. right. by intros [->|?]%elem_of_cons.
Qed.

Lemma key_ltb_asym (a b : K) : key_ltb a b = true → key_ltb b a = false.
Proof.
  intros Hab. destruct (key_ltb b a) eqn:Hba; [|done].
  pose proof (key_ltb_trans _ _ _ Hab Hba) as E. by rewrite key_ltb_irrefl in E.
Qed.

Lemma elem_of_insert_uniq (x k : K) l : x ∈ insert_uniq k l ↔ x = k ∨ x ∈ l.
Proof.
  induction l as [|y l IH]; simpl.
  - rewrite list_elem_of_singleton, elem_of_nil. tauto.
  - destruct (key_ltb k y) eqn:E1; [by rewrite !elem_of_cons|].
    destruct (key_ltb y k) eqn:E2.
    + rewrite !elem_of_cons, IH. tauto.
    + assert (k = y) as -> by by apply key_ltb_total.
      rewrite elem_of_cons. tauto.
Qed.

Lemma elem_of_sort_uniq (x : K) l : x ∈ sort_uniq l ↔ x ∈ l.
Proof.
  induction l as [|y l IH]; simpl; [done|].
  rewrite elem_of_insert_uniq, elem_of_cons, IH. done.
Qed.

Lemma insert_uniq_sorted (k : K) l :
  StronglySorted key_lt l → StronglySorted key_lt (insert_uniq k l).
Proof.
  induction 1 as [|y l Hs IH Hall]; simpl.
  - repeat constructor.
  - destruct (key_ltb k y) eqn:E1.
    + constructor; [by constructor|]. constructor; [done|].
      eapply Forall_impl; [exact Hall|]. intros z Hz. unfold key_lt in *.
      by eapply key_ltb_trans.
    + destruct (key_ltb y k) eqn:E2; [|by constructor].
      constructor; [done|]. apply Forall_forall. intros z Hz.
      apply elem_of_insert_uniq in Hz as [->|Hz]; [done|].
      rewrite Forall_forall in Hall. by apply Hall.
Qed.

Lemma sort_uniq_sorted (l : list K) : StronglySorted key_lt (sort_uniq l).
Proof.
  induction l as [|y l IH]; simpl; [constructor|]. by apply insert_uniq_sorted.
Qed.

Lemma sorted_NoDup (l : list K) : StronglySorted key_lt l → NoDup l.
Proof.
  induction 1 as [|y l Hs IH Hall]; constructor; [|done].
  intros Hin. rewrite Forall_forall in Hall.
  apply Hall in Hin. unfold key_lt in Hin.
  by rewrite key_ltb_irrefl in Hin.
Qed.

Lemma sort_uniq_NoDup (l : list K) : NoDup (sort_uniq l).
Proof. apply sorted_NoDup, sort_uniq_sorted. Qed.

(** Two strictly ascending lists with the same elements are equal. *)
Lemma sorted_unique (l1 l2 : list K) :
  StronglySorted key_lt l1 → StronglySorted key_lt l2 →
  (∀ x, x ∈ l1 ↔ x ∈ l2) → l1 = l2.
Proof.
  intros H1. revert l2. induction H1 as [|a l1 Hs1 IH Ha]; intros l2 H2 Heq.
  - destruct l2 as [|b l2]; [done|]. specialize (Heq b).
    rewrite elem_of_nil, elem_of_cons in Heq. exfalso. apply Heq. by left.
  - destruct H2 as [|b l2 Hs2 Hb].
    { specialize (Heq a). rewrite elem_of_nil, elem_of_cons in Heq.
      exfalso. apply Heq. by left. }
    rewrite Forall_forall in Ha, Hb.
    assert (a = b) as ->.
    { assert (a ∈ b :: l2) as Hab by (apply Heq; rewrite elem_of_cons; auto).
      assert (b ∈ a :: l1) as Hba by (apply Heq; rewrite elem_of_cons; auto).
      apply elem_of_cons in Hab as [->|Hab]; [done|].
      apply elem_of_cons in Hba as [->|Hba]; [done|].
      apply Hb in Hab. apply Ha in Hba.
      unfold key_lt in *. apply key_ltb_asym in Hab. congruence. }
    f_equal. apply IH; [done|]. intros x. split; intros Hx.
    + assert (x ∈ b :: l2) as Hx' by (apply Heq; rewrite elem_of_cons; auto).
      apply elem_of_cons in Hx' as [->|Hx']; [|done].
      apply Ha in Hx. unfold key_lt in Hx.
      by rewrite key_ltb_irrefl in Hx.
    + assert (x ∈ b :: l1) as Hx' by (apply Heq; rewrite elem_of_cons; auto).
      apply elem_of_cons in Hx' as [->|Hx']; [|done].
      apply Hb in Hx. unfold key_lt in Hx.
      by rewrite key_ltb_irrefl in Hx.
Qed.

(** *** Positions of a key *)

Lemma elem_of_positions_from (k : K) l n i :
  i ∈ positions_from n k l ↔ (n ≤ i)%nat ∧ l !! (i - n)%nat = Some k.
Proof.
  revert n. induction l as [|x l IH]; intros n; simpl.
  - rewrite elem_of_nil, lookup_nil. split; [done|]. by intros [_ ?].
  - destruct (key_eqb x k) eqn:E.
    + apply key_eqb_eq in E as ->. rewrite elem_of_cons, IH. split.
      * intros [->|[Hle Hl]]; [by rewrite Nat.sub_diag|].
        split; [lia|]. by replace (i - n) with (S (i - S n)) by lia.
      * intros [Hle Hl]. destruct (decide (i = n)) as [->|Hne]; [by left|].
        right. split; [lia|]. by replace (i - n) with (S (i - S n)) in Hl by lia.
    + apply key_eqb_neq in E. rewrite IH. split.
      * intros [Hle Hl]. split; [lia|]. by replace (i - n) with (S (i - S n)) by lia.
      * intros [Hle Hl]. destruct (decide (i = n)) as [->|Hne].
        { rewrite Nat.sub_diag in Hl. simpl in Hl. congruence. }
        split; [lia|]. by replace (i - n) with (S (i - S n)) in Hl by lia.
Qed.

Lemma elem_of_positions (k : K) l i : i ∈ positions k l ↔ l !! i = Some k.
Proof.
  unfold positions. rewrite elem_of_positions_from, Nat.sub_0_r.
  split; [by intros [_ ?]|]. intros ?. split; [lia|done].
Qed.

Lemma positions_from_not_in (k : K) l n : k ∉ l → positions_from n k l = [].
Proof.
  revert n. induction l as [|x l IH]; intros n Hk; simpl; [done|].
  apply not_elem_of_cons in Hk as [Hne Hk].
  assert (key_eqb x k = false) as -> by by apply key_eqb_neq.
  by apply IH.
Qed.

Lemma positions_not_in (k : K) l : k ∉ l → positions k l = [].
Proof. apply positions_from_not_in. Qed.

Lemma positions_from_NoDup_in (k : K) l n :
  NoDup l → k ∈ l → ∃ i, positions_from n k l = [i] ∧ l !! (i - n)%nat = Some k ∧ (n ≤ i)%nat.
Proof.
  revert n. induction l as [|x l IH]; intros n Hnd Hk; [by apply elem_of_nil in Hk|].
  apply NoDup_cons in Hnd as [Hx Hnd]. simpl.
  destruct (key_eqb x k) eqn:E.
  - apply key_eqb_eq in E as ->. exists n.
    rewrite (positions_from_not_in _ _ _ Hx), Nat.sub_diag. done.
  - apply key_eqb_neq in E. apply elem_of_cons in Hk as [->|Hk]; [done|].
    destruct (IH (S n) Hnd Hk) as (i & -> & Hl & Hle). exists i.
    split; [done|]. split; [|lia]. by replace (i - n) with (S (i - S n)) by lia.
Qed.

Lemma positions_NoDup_in (k : K) l :
  NoDup l → k ∈ l → ∃ i, positions k l = [i] ∧ l !! i = Some k.
Proof.
  intros Hnd Hk. destruct (positions_from_NoDup_in k l 0 Hnd Hk) as (i & ? & Hl & _).
  exists i. by rewrite Nat.sub_0_r in Hl.
Qed.

Lemma positions_from_nonempty (k : K) l n : k ∈ l → positions_from n k l ≠ [].
Proof.
  revert n. induction l as [|x l IH]; intros n Hk; [by apply elem_of_nil in Hk|].
  simpl. destruct (key_eqb x k) eqn:E; [done|].
  apply key_eqb_neq in E. apply elem_of_cons in Hk as [->|Hk]; [done|]. by apply IH.
Qed.
End KeyFacts.

(** ** The stable sort of row numbers *)

Section SortFacts.
Context {K : Type} `{KeyOrder K}.

Lemma key_le_trans (a b c : K) : key_le a b → key_le b c → key_le a c.
Proof.
  unfold key_le. intros Hab Hbc. destruct (key_ltb c a) eqn:Hca; [|done].
  destruct (key_ltb a b) eqn:Hab'.
  - pose proof (key_ltb_trans _ _ _ Hca Hab'). congruence.
  - assert (a = b) as -> by by apply key_ltb_total. congruence.
Qed.

Lemma key_le_lt (a b : K) : key_le a b → a ≠ b → key_lt a b.
Proof.
  unfold key_le, key_lt. intros Hle Hne.
  destruct (key_ltb a b) eqn:E; [done|]. destruct Hne. by apply key_ltb_total.
Qed.

Lemma insert_by_perm (x : K * nat) l : Permutation (insert_by x l) (x :: l).
Proof.
  induction l as [|y l IH]; simpl; [done|].
  destruct (key_ltb y.1 x.1); [|done].
  rewrite IH. apply perm_swap.
Qed.

Lemma sort_by_perm (l : list (K * nat)) : Permutation (sort_by l) l.
Proof.
  induction l as [|x l IH]; simpl; [done|].
  rewrite insert_by_perm. by constructor.
Qed.

Lemma insert_by_sorted (x : K * nat) l :
  StronglySorted pair_le l → StronglySorted pair_le (insert_by x l).
Proof.
  induction 1 as [|y l Hs IH Hall]; simpl.
  - repeat constructor.
  - destruct (key_ltb y.1 x.1) eqn:E.
    + constructor; [done|]. rewrite (insert_by_perm x l).
      constructor; [|done]. unfold pair_le, key_le. by apply key_ltb_asym.
    + constructor; [by constructor|]. constructor; [done|].
      eapply Forall_impl; [exact Hall|]. intros z Hz.
      unfold pair_le in *. by eapply key_le_trans.
Qed.

Lemma sort_by_sorted (l : list (K * nat)) : StronglySorted pair_le (sort_by l).
Proof.
  induction l as [|x l IH]; simpl; [constructor|]. by apply insert_by_sorted.
Qed.

Lemma argsort_perm (ks : list K) : Permutation (argsort ks) (seq 0 (length ks)).
Proof.
  unfold argsort. rewrite sort_by_perm. by rewrite snd_zip by (rewrite length_seq; lia).
Qed.

Lemma zip_seq_lookup (ks : list K) n :
  Forall (λ p, ks !! (p.2 - n)%nat = Some p.1 ∧ (n ≤ p.2)%nat) (zip ks (seq n (length ks))).
Proof.
  revert n. induction ks as [|k ks IH]; intros n; simpl; [constructor|].
  constructor; simpl.
  - by rewrite Nat.sub_diag.
  - eapply Forall_impl; [apply (IH (S n))|]. intros [k' i] [Hl Hle]; simpl in *.
    split; [|lia]. by replace (i - n)%nat with (S (i - S n)) by lia.
Qed.

Lemma sorted_keys_perm (ks : list K) : Permutation (sorted_keys ks) ks.
Proof.
  unfold sorted_keys. rewrite sort_by_perm. by rewrite fst_zip by (rewrite length_seq; lia).
Qed.

Lemma sorted_keys_sorted (ks : list K) : StronglySorted key_le (sorted_keys ks).
Proof.
  unfold sorted_keys. generalize (sort_by_sorted (zip ks (seq 0 (length ks)))).
  generalize (sort_by (zip ks (seq 0 (length ks)))). intros l.
  induction 1 as [|y l Hs IH Hall]; simpl; constructor; [done|].
  apply Forall_fmap. eapply Forall_impl; [exact Hall|]. done.
Qed.

Lemma argsort_lookup (ks : list K) :
  map (λ i, ks !! i) (argsort ks) = Some <$> sorted_keys ks.
Proof.
  unfold argsort, sorted_keys.
  assert (Forall (λ p : K * nat, ks !! p.2 = Some p.1)
            (sort_by (zip ks (seq 0 (length ks))))) as Hall.
  { rewrite sort_by_perm. eapply Forall_impl; [apply (zip_seq_lookup ks 0)|].
    intros [k i] [Hl _]; simpl in *. by rewrite Nat.sub_0_r in Hl. }
  induction Hall as [|[k i] l Hl _ IH]; [done|]. simpl in Hl.
  change (ks !! i :: map (λ i, ks !! i) l.*2 = Some k :: (Some <$> l.*1)).
  by rewrite Hl, IH.
Qed.

(** Ascending keys without repetition are strictly ascending. *)
Lemma sorted_le_NoDup_lt (l : list K) :
  StronglySorted key_le l → NoDup l → StronglySorted key_lt l.
Proof.
  induction 1 as [|y l Hs IH Hall]; intros Hnd; [constructor|].
  apply NoDup_cons in Hnd as [Hy Hnd]. constructor; [by apply IH|].
  rewrite Forall_forall in Hall |- *. intros z Hz.
  apply key_le_lt; [by apply Hall|]. by intros ->.
Qed.
End SortFacts.

(** ** Labels *)

Lemma append_cons (a : ascii) (s t : string) : String a s +:+ t = String a (s +:+ t).
Proof. reflexivity. Qed.

Lemma append_empty_l (t : string) : "" +:+ t = t.
Proof. reflexivity. Qed.

Lemma append_empty_r (s : string) : s +:+ "" = s.
Proof. induction s as [|a s IH]; [done|]. by rewrite append_cons, IH. Qed.

Lemma length_append (s t : string) :
  String.length (s +:+ t) = (String.length s + String.length t)%nat.
Proof. induction s as [|a s IH]; [done|]. rewrite append_cons. simpl. by rewrite IH. Qed.

Lemma append_inj_l (s1 s2 t : string) : s1 +:+ t = s2 +:+ t → s1 = s2.
Proof.
  revert s2. induction s1 as [|a s1 IH]; intros [|b s2] E;
    rewrite ?append_cons, ?append_empty_l in E.
  - done.
  - exfalso. apply (f_equal String.length) in E.
    simpl in E. rewrite length_append in E. lia.
  - exfalso. apply (f_equal String.length) in E.
    simpl in E. rewrite length_append in E. lia.
  - injection E as -> E. f_equal. by apply IH.
Qed.

Lemma endswith_append (s t : string) : endswith (s +:+ t) t = true.
Proof.
  induction s as [|a s IH].
  - rewrite append_empty_l. destruct t; cbn [endswith]; by rewrite String.eqb_refl.
  - rewrite append_cons. cbn [endswith]. rewrite IH. apply orb_true_r.
Qed.

Lemma endswith_length (s t : string) :
  endswith s t = true → (String.length t ≤ String.length s)%nat.
Proof.
  induction s as [|a s IH].
  - destruct t; simpl; [lia|done].
  - cbn [endswith]. intros [E|E]%orb_true_iff.
    + apply String.eqb_eq in E as <-. lia.
    + apply IH in E. simpl. lia.
Qed.

Lemma mem_elem_of (c : string) (l : list string) : mem c l = true ↔ c ∈ l.
Proof.
  unfold mem. rewrite existsb_exists. split.
  - intros (x & Hin & ->%String.eqb_eq). by apply list_elem_of_In.
  - intros Hin. exists c. rewrite String.eqb_refl. by split; [apply list_elem_of_In|].
Qed.

Lemma mem_not_elem_of (c : string) (l : list string) : mem c l = false ↔ c ∉ l.
Proof. rewrite <- mem_elem_of. by destruct (mem c l). Qed.

Lemma elem_of_filter_bool {A} (f : A → bool) (l : list A) (x : A) :
  x ∈ List.filter f l ↔ x ∈ l ∧ f x = true.
Proof. by rewrite !list_elem_of_In, filter_In. Qed.

Lemma stat_label_length (c : string) (s : Stat) :
  (4 ≤ String.length (stat_label c s))%nat.
Proof.
  unfold stat_label. rewrite !length_append. destruct s; simpl; lia.
Qed.

Lemma stat_label_not_key (c : string) (s : Stat) :
  ¬ stat_label c s ∈ ["time"; "date"; "year_month"].
Proof.
  intros Hin. rewrite !elem_of_cons, elem_of_nil in Hin.
  assert (∀ t, stat_label c s = t →
            endswith t ("_" +:+ stat_name s) = true) as Hend.
  { intros t <-. unfold stat_label. apply endswith_append. }
  destruct Hin as [E|[E|[E|[]]]]; apply Hend in E; by destruct s.
Qed.

(** ** Frames *)

Lemma columns_frame_take idx df : columns (frame_take idx df) = columns df.
Proof. unfold columns, frame_take. rewrite <- list_fmap_compose. done. Qed.

Lemma get_col_frame_take idx c df :
  get_col c (frame_take idx df) = series_take idx <$> get_col c df.
Proof.
  induction df as [|[c' s] df IH]; simpl; [done|].
  destruct (String.eqb c' c); [done|]. apply IH.
Qed.

Lemma get_col_elem_of c s df : get_col c df = Some s → (c, s) ∈ df.
Proof.
  induction df as [|[c' s'] df IH]; simpl; [done|].
  destruct (String.eqb_spec c' c) as [->|Hne].
  - intros [= ->]. left.
  - intros Hg. right. by apply IH.
Qed.

Lemma get_col_is_Some c df : is_Some (get_col c df) ↔ c ∈ columns df.
Proof.
  induction df as [|[c' s'] df IH]; simpl.
  - rewrite elem_of_nil. split; [by intros [? ?]|done].
  - rewrite elem_of_cons. destruct (String.eqb_spec c' c) as [->|Hne].
    + split; [by left|by eexists].
    + rewrite IH. unfold columns. split; [by right|]. by intros [?|?].
Qed.

Lemma get_col_None c df : get_col c df = None ↔ c ∉ columns df.
Proof. rewrite <- get_col_is_Some, eq_None_not_Some. done. Qed.

Lemma get_col_NoDup c s df : NoDup (columns df) → (c, s) ∈ df → get_col c df = Some s.
Proof.
  induction df as [|[c' s'] df IH]; simpl; intros Hnd Hin; [by apply elem_of_nil in Hin|].
  apply NoDup_cons in Hnd as [Hc' Hnd].
  apply elem_of_cons in Hin as [[= -> ->]|Hin]; [by rewrite String.eqb_refl|].
  destruct (String.eqb_spec c' c) as [->|Hne]; [|by apply IH].
  destruct Hc'. change (c ∈ df.*1). apply list_elem_of_fmap. by exists (c, s).
Qed.

Lemma get_col_app c df1 df2 :
  get_col c (df1 ++ df2) = match get_col c df1 with
                           | Some s => Some s
                           | None => get_col c df2
                           end.
Proof.
  induction df1 as [|[c' s'] df1 IH]; simpl; [done|].
  destruct (String.eqb c' c); [done|]. apply IH.
Qed.

Lemma get_col_set_col c s df : get_col c (set_col c s df) = Some s.
Proof.
  induction df as [|[c' s'] df IH]; simpl; [by rewrite String.eqb_refl|].
  destruct (String.eqb c' c) eqn:E; simpl; by rewrite E.
Qed.

Lemma get_col_set_col_ne c c' s df : c ≠ c' → get_col c' (set_col c s df) = get_col c' df.
Proof.
  intros Hne. induction df as [|[c0 s0] df IH]; simpl.
  - by apply String.eqb_neq in Hne as ->.
  - destruct (String.eqb_spec c0 c) as [->|Hne0]; simpl.
    + by apply String.eqb_neq in Hne as ->.
    + destruct (String.eqb c0 c'); [done|]. apply IH.
Qed.

Lemma set_col_present c s df :
  c ∈ columns df → columns (set_col c s df) = columns df.
Proof.
  induction df as [|[c0 s0] df IH]; simpl; [by intros ?%elem_of_nil|].
  destruct (String.eqb_spec c0 c) as [->|Hne]; [done|].
  intros [?|Hin]%elem_of_cons; [congruence|]. unfold columns in *. simpl. f_equal. by apply IH.
Qed.

Lemma set_col_absent c s df : c ∉ columns df → set_col c s df = df ++ [(c, s)].
Proof.
  induction df as [|[c0 s0] df IH]; simpl; [done|].
  intros [Hne Hin]%not_elem_of_cons.
  destruct (String.eqb_spec c0 c) as [->|_]; [done|]. f_equal. by apply IH.
Qed.

Lemma set_col_same c s df : get_col c df = Some s → set_col c s df = df.
Proof.
  induction df as [|[c0 s0] df IH]; simpl; [done|].
  destruct (String.eqb_spec c0 c) as [->|Hne]; [by intros [= ->]|].
  intros Hg. f_equal. by apply IH.
Qed.

Lemma set_col_app_l c s df1 df2 :
  c ∈ columns df1 → set_col c s (df1 ++ df2) = set_col c s df1 ++ df2.
Proof.
  induction df1 as [|[c0 s0] df1 IH]; simpl; [by intros ?%elem_of_nil|].
  destruct (String.eqb_spec c0 c) as [->|Hne]; [done|].
  intros [?|Hin]%elem_of_cons; [congruence|]. simpl. f_equal. by apply IH.
Qed.

Lemma frame_take_set_col idx c s df :
  frame_take idx (set_col c s df) = set_col c (series_take idx s) (frame_take idx df).
Proof.
  induction df as [|[c0 s0] df IH]; simpl; [done|].
  destruct (String.eqb c0 c); simpl; [done|]. by rewrite IH.
Qed.

Lemma drop_cols_app names df1 df2 :
  drop_cols names (df1 ++ df2) = drop_cols names df1 ++ drop_cols names df2.
Proof. apply List.filter_app. Qed.

Lemma get_col_drop_cols c names df :
  mem c names = false → get_col c (drop_cols names df) = get_col c df.
Proof.
  intros Hc. induction df as [|[c0 s0] df IH]; simpl; [done|].
  destruct (String.eqb_spec c0 c) as [->|Hne].
  - rewrite Hc. simpl. by rewrite String.eqb_refl.
  - destruct (mem c0 names); simpl; [done|].
    by apply String.eqb_neq in Hne as ->.
Qed.

Lemma time_keys_frame_take idx df ks :
  time_keys df = Ok ks → time_keys (frame_take idx df) = Ok (take idx ks).
Proof.
  unfold time_keys. rewrite get_col_frame_take.
  destruct (get_col "time" df) as [[]|]; simpl; congruence.
Qed.

Lemma series_len_take idx s : series_len (series_take idx s) = length idx.
Proof. destruct s; simpl; unfold take; by rewrite length_map. Qed.

Lemma aligned_frame_take idx df : aligned (length idx) (frame_take idx df).
Proof.
  unfold aligned, frame_take. apply Forall_fmap, Forall_true.
  intros [c s]. apply series_len_take.
Qed.

Lemma aligned_nrows n df : aligned n df → df ≠ [] → nrows df = n.
Proof. destruct df as [|[c s] df]; [done|]. intros Ha _. by inversion Ha. Qed.

Lemma aligned_filter n f df : aligned n df → aligned n (List.filter f df).
Proof.
  unfold aligned. rewrite !Forall_forall. intros Ha x [Hx _]%elem_of_filter_bool. auto.
Qed.

Lemma aligned_set_col n c s df :
  aligned n df → series_len s = n → aligned n (set_col c s df).
Proof.
  intros Ha Hs. induction Ha as [|[c0 s0] df H0 Ha IH]; simpl.
  - by repeat constructor.
  - destruct (String.eqb c0 c); constructor; auto.
Qed.

(** Lines 143-144 keep exactly the columns whose label does not end with
    [_dup]. *)
Lemma drop_dup_cols_filter df :
  drop_dup_cols df = List.filter (λ cs, negb (endswith cs.1 "_dup")) df.
Proof.
  unfold drop_dup_cols, drop_cols.
  apply filter_ext_in_iff. intros [c s] Hin. simpl. f_equal.
  destruct (endswith c "_dup") eqn:E.
  - apply mem_elem_of, elem_of_filter_bool. split; [|done].
    change (c ∈ df.*1). apply list_elem_of_fmap. exists (c, s). by rewrite list_elem_of_In.
  - apply mem_not_elem_of. intros [_ ?]%elem_of_filter_bool. congruence.
Qed.

Lemma drop_dup_cols_no_dup_label df :
  Forall (λ c, endswith c "_dup" = false) (columns (drop_dup_cols df)).
Proof.
  rewrite drop_dup_cols_filter. unfold columns. apply Forall_fmap, Forall_forall.
  intros [c s] [_ Hc]%elem_of_filter_bool. simpl in *. by apply negb_true_iff.
Qed.

Lemma time_keys_drop_dup_cols df : time_keys (drop_dup_cols df) = time_keys df.
Proof.
  unfold time_keys, drop_dup_cols. rewrite get_col_drop_cols; [done|].
  apply mem_not_elem_of. by intros [_ ?]%elem_of_filter_bool.
Qed.

Lemma frame_take_filter idx (f : string → bool) df :
  frame_take idx (List.filter (λ cs, f cs.1) df)
  = List.filter (λ cs, f cs.1) (frame_take idx df).
Proof.
  induction df as [|[c s] df IH]; simpl; [done|].
  destruct (f c); simpl; by rewrite IH.
Qed.

(** ** The join index *)

Lemma bind_singletons {A} (f : A → list A) (l : list A) :
  (∀ x, x ∈ l → f x = [x]) → l ≫= f = l.
Proof.
  induction l as [|x l IH]; intros Hf; [done|].
  rewrite bind_cons, Hf by left. simpl. f_equal. apply IH. intros y Hy. apply Hf. by right.
Qed.

Lemma bind_length_one {A B} (f : A → list B) (l : list A) :
  (∀ x, x ∈ l → length (f x) = 1%nat) → length (l ≫= f) = length l.
Proof.
  induction l as [|x l IH]; intros Hf; [done|].
  rewrite bind_cons, length_app, Hf by left. simpl. f_equal. apply IH.
  intros y Hy. apply Hf. by right.
Qed.

Section JoinFacts.
Context {A : Type} `{KeyOrder A}.
Implicit Types lk rk : list (option A).

Lemma join_keys_app (j1 j2 : list (option nat * option nat)) lk rk :
  join_keys (j1 ++ j2) lk rk = join_keys j1 lk rk ++ join_keys j2 lk rk.
Proof. unfold join_keys. apply map_app. Qed.

Lemma join_pairs_length (ps qs : list nat) :
  ps ≠ [] ∨ qs ≠ [] → (1 ≤ length (join_pairs ps qs))%nat.
Proof.
  destruct ps as [|i ps], qs as [|j qs]; simpl; intros [?|?]; try done; lia.
Qed.

Lemma join_keys_pairs (ps qs : list nat) lk rk (k : option A) :
  (∀ i, i ∈ ps → lk !! i = Some k) → (∀ j, j ∈ qs → rk !! j = Some k) →
  join_keys (join_pairs ps qs) lk rk = replicate (length (join_pairs ps qs)) k.
Proof.
  intros Hl Hr. apply list_eq_Forall2.
  assert (Forall (λ p, match p.1 with
                       | Some i => mjoin (lk !! i)
                       | None => j ← p.2; mjoin (rk !! j)
                       end = k) (join_pairs ps qs)) as Hall.
  { apply Forall_forall. intros [oi oj] Hin.
    destruct ps as [|i ps], qs as [|j qs]; unfold join_pairs in Hin.
    - by apply elem_of_nil in Hin.
    - apply list_elem_of_In, in_map_iff in Hin as (j' & [= <- <-] & Hj'%list_elem_of_In).
      simpl. by rewrite (Hr j' Hj').
    - apply list_elem_of_In, in_map_iff in Hin as (i' & [= <- <-] & Hi'%list_elem_of_In).
      simpl. by rewrite (Hl i' Hi').
    - apply list_elem_of_bind in Hin as (i' & Hin & Hi').
      apply list_elem_of_bind in Hin as (j' & Hin & Hj').
      apply list_elem_of_singleton in Hin as [= -> ->]. simpl. by rewrite (Hl i' Hi'). }
  unfold join_keys. induction Hall as [|p l Hp _ IH]; simpl; [constructor|].
  constructor; [done|exact IH].
Qed.

(** The keys of the joined rows: every key of either side, ascending, as
    often as it has joined rows. *)
Lemma join_keys_join_index lk rk :
  join_keys (join_index lk rk) lk rk
  = k ← sort_uniq (lk ++ rk);
    replicate (length (join_pairs (positions k lk) (positions k rk))) k.
Proof.
  unfold join_index. induction (sort_uniq (lk ++ rk)) as [|k l IH]; [done|].
  rewrite !bind_cons, join_keys_app, IH. f_equal.
  apply join_keys_pairs; intros i Hi; by apply elem_of_positions in Hi.
Qed.

Lemma positions_nonempty (k : option A) l : k ∈ l → positions k l ≠ [].
Proof. apply positions_from_nonempty. Qed.

(** Every timestamp of either side survives the join, and no other. *)
Lemma elem_of_join_keys lk rk (k : option A) :
  k ∈ join_keys (join_index lk rk) lk rk ↔ k ∈ lk ∨ k ∈ rk.
Proof.
  rewrite join_keys_join_index, list_elem_of_bind. split.
  - intros (k' & Hin & Hk'). apply elem_of_replicate in Hin as [-> _].
    by apply elem_of_sort_uniq, elem_of_app in Hk'.
  - intros Hk. exists k. split; [|by apply elem_of_sort_uniq, elem_of_app].
    apply elem_of_replicate. split; [done|].
    assert (1 ≤ length (join_pairs (positions k lk) (positions k rk)))%nat; [|lia].
    apply join_pairs_length. destruct Hk as [Hk|Hk]; [left|right];
      by apply positions_nonempty.
Qed.

Lemma join_pairs_NoDup lk rk (k : option A) :
  NoDup lk → NoDup rk → k ∈ lk ++ rk →
  length (join_pairs (positions k lk) (positions k rk)) = 1%nat.
Proof.
  intros Hl Hr Hk.
  destruct (key_elem_of_dec k lk) as [Hkl|Hkl], (key_elem_of_dec k rk) as [Hkr|Hkr].
  - destruct (positions_NoDup_in k lk Hl Hkl) as (i & -> & _).
    by destruct (positions_NoDup_in k rk Hr Hkr) as (j & -> & _).
  - destruct (positions_NoDup_in k lk Hl Hkl) as (i & -> & _).
    by rewrite (positions_not_in k rk Hkr).
  - destruct (positions_NoDup_in k rk Hr Hkr) as (j & -> & _).
    by rewrite (positions_not_in k lk Hkl).
  - apply elem_of_app in Hk as [?|?]; done.
Qed.

(** With distinct timestamps on each side, every timestamp of the union
    has exactly one joined row. *)
Lemma join_keys_NoDup lk rk :
  NoDup lk → NoDup rk → join_keys (join_index lk rk) lk rk = sort_uniq (lk ++ rk).
Proof.
  intros Hl Hr. rewrite join_keys_join_index. apply bind_singletons.
  intros k Hk. apply (proj1 (elem_of_sort_uniq _ _)) in Hk.
  by rewrite join_pairs_NoDup.
Qed.

Lemma join_index_length_NoDup lk rk :
  NoDup lk → NoDup rk → length (join_index lk rk) = length (sort_uniq (lk ++ rk)).
Proof.
  intros Hl Hr. unfold join_index. apply bind_length_one.
  intros k Hk. apply (proj1 (elem_of_sort_uniq _ _)) in Hk. by apply join_pairs_NoDup.
Qed.

Lemma join_keys_length (ji : list (option nat * option nat)) lk rk :
  length (join_keys ji lk rk) = length ji.
Proof. unfold join_keys. apply length_map. Qed.
End JoinFacts.

(** ** The merge *)

Lemma duplicated_from_NoDup seen l :
  NoDup l → (∀ x, x ∈ l → x ∉ seen) → Forall (λ b, b = false) (duplicated_from seen l).
Proof.
  revert seen. induction l as [|x l IH]; intros seen Hnd Hs; simpl; [constructor|].
  apply NoDup_cons in Hnd as [Hx Hnd]. constructor.
  - apply mem_not_elem_of, Hs. left.
  - apply IH; [done|]. intros y Hy [->|Hys]%elem_of_cons; [done|].
    by apply (Hs y); [right|].
Qed.

Lemma suffix_dups_NoDup orig renamed : NoDup renamed → suffix_dups orig renamed = [].
Proof.
  intros Hnd. unfold suffix_dups, duplicated.
  pose proof (duplicated_from_NoDup [] renamed Hnd) as Hall.
  specialize (Hall ltac:(by (intros ? _ ?%elem_of_nil))).
  revert Hall. generalize (duplicated_from [] renamed), (duplicated_from [] orig).
  intros ds. revert renamed Hnd. induction ds as [|d ds IH]; intros renamed Hnd os Hall.
  - by destruct renamed.
  - destruct renamed as [|r renamed]; [done|]. destruct os as [|o os]; [done|].
    apply Forall_cons in Hall as [-> Hall]. simpl.
    apply NoDup_cons in Hnd as [_ Hnd]. by apply IH.
Qed.

Lemma suffix_dups_same l : suffix_dups l l = [].
Proof.
  unfold suffix_dups. generalize (duplicated l). intros ds.
  revert l. induction ds as [|d ds IH]; intros l; [by destruct l|].
  destruct l as [|x l]; [done|]. simpl. rewrite andb_negb_r. apply IH.
Qed.

Lemma add_suffix_empty to_rename l : map (add_suffix to_rename "") l = l.
Proof.
  rewrite <- (map_id l) at 2. apply map_ext. intros c. unfold add_suffix.
  rewrite append_empty_r. by destruct (mem c to_rename).
Qed.

Lemma zip_map_columns (f : string → string) (g : Series → Series) (df : DataFrame) :
  zip (map f df.*1) (map g df.*2) = map (λ cs, (f cs.1, g cs.2)) df.
Proof. induction df as [|[c s] df IH]; simpl; [done|]. f_equal. apply IH. Qed.

Lemma bind_ok {A B} (r : result A) (f : A → result B) (b : B) :
  r ≫= f = Ok b → ∃ a, r = Ok a ∧ f a = Ok b.
Proof. destruct r as [a|e]; simpl; [by exists a|done]. Qed.

Lemma merge_unfold left right lk rk :
  time_keys left = Ok lk → time_keys right = Ok rk →
  merge left right =
    match suffix_dups (columns (drop_cols ["time"] right)) (right_labels left right) with
    | [] => Ok (merged_frame left right lk rk)
    | _ :: _ => Raise (MergeError "Passing 'suffixes' which cause duplicate columns")
    end.
Proof.
  intros Hl Hr. unfold merge. rewrite Hl, Hr. cbn [mbind result_bind].
  rewrite add_suffix_empty, suffix_dups_same. cbn [app].
  unfold right_labels. destruct (suffix_dups _ _); [|done].
  unfold merged_frame. do 2 f_equal.
  - rewrite <- (map_id (columns left)). unfold columns. by rewrite zip_map_columns.
  - unfold columns. by rewrite zip_map_columns.
Qed.

Lemma merge_inv left right m :
  merge left right = Ok m →
  ∃ lk rk, time_keys left = Ok lk ∧ time_keys right = Ok rk
           ∧ m = merged_frame left right lk rk.
Proof.
  intros Hm. destruct (time_keys left) as [lk|] eqn:Hl; [|by unfold merge in Hm; rewrite Hl in Hm].
  destruct (time_keys right) as [rk|] eqn:Hr;
    [|by unfold merge in Hm; rewrite Hl, Hr in Hm].
  rewrite (merge_unfold _ _ _ _ Hl Hr) in Hm. exists lk, rk.
  destruct (suffix_dups _ _); [|done]. by injection Hm as <-.
Qed.

Lemma merge_intro left right lk rk :
  time_keys left = Ok lk → time_keys right = Ok rk →
  NoDup (right_labels left right) →
  merge left right = Ok (merged_frame left right lk rk).
Proof.
  intros Hl Hr Hnd. rewrite (merge_unfold _ _ _ _ Hl Hr).
  by rewrite suffix_dups_NoDup.
Qed.

Lemma time_keys_has_time df ks : time_keys df = Ok ks → "time" ∈ columns df.
Proof.
  unfold time_keys. intros Hk. apply get_col_is_Some.
  destruct (get_col "time" df); [by eexists|done].
Qed.

Lemma time_keys_get_col df ks :
  time_keys df = Ok ks ↔ get_col "time" df = Some (Datetime64 ks).
Proof.
  unfold time_keys. destruct (get_col "time" df) as [[]|]; split; congruence.
Qed.

Lemma time_keys_merged left right lk rk :
  time_keys left = Ok lk →
  time_keys (merged_frame left right lk rk)
  = Ok (join_keys (join_index lk rk) lk rk).
Proof.
  intros Hl. apply time_keys_get_col. unfold merged_frame.
  by rewrite get_col_app, get_col_set_col.
Qed.

Lemma aligned_app n df1 df2 : aligned n df1 → aligned n df2 → aligned n (df1 ++ df2).
Proof. apply Forall_app_2. Qed.

Lemma aligned_merged left right lk rk :
  aligned (length (join_index lk rk)) (merged_frame left right lk rk).
Proof.
  unfold merged_frame. apply aligned_app.
  - apply aligned_set_col.
    + rewrite <- (length_fmap fst (join_index lk rk)). apply aligned_frame_take.
    + simpl. apply join_keys_length.
  - unfold aligned. apply Forall_forall. intros cs Hin.
    apply list_elem_of_In, in_map_iff in Hin as ([c s] & <- & _). simpl.
    by rewrite series_len_take, length_fmap.
Qed.

Lemma nrows_merged left right lk rk :
  time_keys left = Ok lk →
  nrows (merged_frame left right lk rk) = length (join_index lk rk).
Proof.
  intros Hl. apply aligned_nrows; [apply aligned_merged|].
  intros E. pose proof (time_keys_merged left right lk rk Hl) as Hk.
  rewrite E in Hk. done.
Qed.

Lemma nrows_drop_dup_cols n df ks :
  aligned n df → time_keys df = Ok ks → nrows (drop_dup_cols df) = n.
Proof.
  intros Ha Hk. apply aligned_nrows.
  - rewrite drop_dup_cols_filter. by apply aligned_filter.
  - intros E. rewrite <- time_keys_drop_dup_cols, E in Hk. done.
Qed.

Lemma aligned_drop_dup_cols n df : aligned n df → aligned n (drop_dup_cols df).
Proof. rewrite drop_dup_cols_filter. apply aligned_filter. Qed.

(** The merge of two frames with distinct timestamps. *)
Lemma merge_keys_NoDup A B m ta tb :
  time_keys A = Ok ta → time_keys B = Ok tb → NoDup ta → NoDup tb →
  merge A B = Ok m →
  time_keys m = Ok (sort_uniq (ta ++ tb))
  ∧ aligned (length (sort_uniq (ta ++ tb))) m.
Proof.
  intros Ha Hb Hna Hnb Hm.
  apply merge_inv in Hm as (lk & rk & Hl & Hr & ->).
  rewrite Ha in Hl. rewrite Hb in Hr. injection Hl as <-. injection Hr as <-.
  split.
  - by rewrite (time_keys_merged _ _ _ _ Ha), join_keys_NoDup.
  - rewrite <- join_index_length_NoDup by done. apply aligned_merged.
Qed.

(** The sort puts the keys in ascending order. *)
Lemma take_lookup {A} (idx : list nat) (ks : list (option A)) (sk : list (option A)) :
  map (λ i, ks !! i) idx = Some <$> sk → take (Some <$> idx) ks = sk.
Proof.
  revert sk. induction idx as [|i idx IH]; intros [|k sk]; simpl; try done.
  intros [= E1 E2]. unfold take in *. simpl. rewrite E1. simpl. f_equal. by apply IH.
Qed.

Lemma take_argsort (ks : list (option Timestamp)) :
  take (Some <$> argsort ks) ks = sorted_keys ks.
Proof. apply take_lookup, argsort_lookup. Qed.

Lemma sort_values_keys df ks :
  time_keys df = Ok ks →
  ∃ s, sort_values df = Ok s ∧ time_keys s = Ok (sorted_keys ks)
       ∧ columns s = columns df ∧ aligned (length ks) s.
Proof.
  intros Hk. unfold sort_values. cbn [nargsort ideal]. rewrite Hk. cbn [mbind result_bind].
  eexists. split; [done|]. split; [|split].
  - by rewrite (time_keys_frame_take _ _ _ Hk), take_argsort.
  - apply columns_frame_take.
  - assert (length (Some <$> argsort ks) = length ks) as <-.
    { by rewrite length_fmap, (Permutation_length (argsort_perm ks)), length_seq. }
    apply aligned_frame_take.
Qed.

(** All merges: with distinct timestamps in every frame, the accumulator
    holds the distinct timestamps of all frames merged so far. *)
Lemma merge_all_keys rest : ∀ first m tf,
  time_keys first = Ok tf → NoDup tf →
  Forall (λ df, ∃ t, time_keys df = Ok t ∧ NoDup t) rest →
  merge_all first rest = Ok m →
  ∃ tm, time_keys m = Ok tm ∧ NoDup tm
        ∧ ∀ t, t ∈ tm ↔ t ∈ tf ∨ ∃ df t', df ∈ rest ∧ time_keys df = Ok t' ∧ t ∈ t'.
Proof.
  induction rest as [|df rest IH]; intros first m tf Hf Hnd Hall Hm; simpl in Hm.
  - injection Hm as <-. exists tf. split; [done|]. split; [done|].
    intros t. split; [by left|]. intros [?|(df & t' & []%elem_of_nil & _)]; done.
  - apply Forall_cons in Hall as [(td & Hd & Hndd) Hall].
    apply bind_ok in Hm as (m1 & Hm1 & Hm).
    destruct (merge_keys_NoDup _ _ _ _ _ Hf Hd Hnd Hndd Hm1) as [Hk1 _].
    rewrite <- time_keys_drop_dup_cols in Hk1.
    destruct (IH _ _ _ Hk1 (sort_uniq_NoDup _) Hall Hm) as (tm & Hkm & Hndm & Hel).
    exists tm. split; [done|]. split; [done|]. intros t. rewrite Hel, elem_of_sort_uniq, elem_of_app.
    split.
    + intros [[?|?]|(df' & t' & Hin & Hk' & Ht')]; [by left| |].
      * right. exists df, td. split; [left|done].
      * right. exists df', t'. split; [by right|done].
    + intros [?|(df' & t' & [->|Hin]%elem_of_cons & Hk' & Ht')]; [by left; left| |].
      * left. right. rewrite Hd in Hk'. by injection Hk' as ->.
      * right. by exists df', t'.
Qed.

(** All merges, whatever the timestamps: the accumulator holds the
    timestamps of all frames merged so far. *)
Lemma merge_all_elems rest : ∀ first m tf,
  time_keys first = Ok tf → merge_all first rest = Ok m →
  ∃ tm, time_keys m = Ok tm
        ∧ ∀ t, t ∈ tm ↔ t ∈ tf ∨ ∃ df t', df ∈ rest ∧ time_keys df = Ok t' ∧ t ∈ t'.
Proof.
  induction rest as [|df rest IH]; intros first m tf Hf Hm; simpl in Hm.
  - injection Hm as <-. exists tf. split; [done|].
    intros t. split; [by left|]. intros [?|(df & t' & []%elem_of_nil & _)]; done.
  - apply bind_ok in Hm as (m1 & Hm1 & Hm).
    apply merge_inv in Hm1 as (lk & td & Hl & Hd & ->).
    rewrite Hf in Hl. injection Hl as <-.
    pose proof (time_keys_merged first df tf td Hf) as Hk1.
    rewrite <- time_keys_drop_dup_cols in Hk1.
    destruct (IH _ _ _ Hk1 Hm) as (tm & Hkm & Hel).
    exists tm. split; [done|]. intros t. rewrite Hel, elem_of_join_keys.
    split.
    + intros [[?|?]|(df' & t' & Hin & Hk' & Ht')]; [by left| |].
      * right. exists df, td. split; [left|done].
      * right. exists df', t'. split; [by right|done].
    + intros [?|(df' & t' & [->|Hin]%elem_of_cons & Hk' & Ht')]; [by left; left| |].
      * left. right. rewrite Hd in Hk'. by injection Hk' as ->.
      * right. by exists df', t'.
Qed.

Ltac solve_NoDup :=
  repeat (apply NoDup_cons_2;
          [rewrite ?elem_of_cons, elem_of_nil; intros ?; intuition discriminate|]);
  apply NoDup_nil_2.

(** ** Timestamps of the merged table *)

(** C3, as stated, fails: a timestamp that occurs twice in a table is
    joined once per occurrence.  The union of the timestamp sets of
    [ex_repeated] and [ex_single] has one element, the joined table has two
    rows, and the sorted table repeats the timestamp. *)
Lemma outer_join_repeated_timestamp :
  ∃ m s,
    merge ex_repeated ex_single = Ok m
    ∧ nrows m = 2%nat
    ∧ (∀ t, t ∈ [hour_of 1 0] ↔ t ∈ [hour_of 1 0; hour_of 1 0] ∨ t ∈ [hour_of 1 0])
    ∧ length [hour_of 1 0] = 1%nat
    ∧ sort_values (drop_dup_cols m) = Ok s
    ∧ time_keys s = Ok [hour_of 1 0; hour_of 1 0].
Proof.
  do 2 eexists. split; [vm_compute; reflexivity|].
  split; [reflexivity|]. split; [|split; [reflexivity|split; vm_compute; reflexivity]].
  intros t. rewrite !elem_of_cons, elem_of_nil. tauto.
Qed.

(** C3 (amended).  For all per-group tables A and B, the outer join on the
    timestamp column has as timestamps exactly those of A and of B, one row
    per timestamp that it lists; when the timestamps are pairwise distinct
    within A and within B, the joined table lists no timestamp twice and
    has as many rows as any duplicate-free enumeration of the union.  After
    all merges (of A, B and further tables) the sorted table has the
    timestamps of all the tables in non-decreasing order; they are unique,
    hence strictly ascending, when the timestamps are pairwise distinct
    within every table. *)
Theorem outer_join_timestamps (A B m : DataFrame) (ta tb : list (option Timestamp)) :
  time_keys A = Ok ta → time_keys B = Ok tb → merge A B = Ok m →
  (∃ tm, time_keys m = Ok tm
     ∧ (∀ t, t ∈ tm ↔ t ∈ ta ∨ t ∈ tb)
     ∧ nrows m = length tm
     ∧ (NoDup ta → NoDup tb →
        NoDup tm
        ∧ ∀ u, NoDup u → (∀ t, t ∈ u ↔ t ∈ ta ∨ t ∈ tb) → nrows m = length u))
  ∧ (∀ rest mm,
       merge_all A (B :: rest) = Ok mm →
       ∃ s ts, sort_values mm = Ok s ∧ time_keys s = Ok ts
         ∧ StronglySorted key_le ts
         ∧ (∀ t, t ∈ ts ↔ t ∈ ta ∨ t ∈ tb
                  ∨ ∃ df t', df ∈ rest ∧ time_keys df = Ok t' ∧ t ∈ t')
         ∧ (NoDup ta → NoDup tb →
            Forall (λ df, ∃ t, time_keys df = Ok t ∧ NoDup t) rest →
            NoDup ts ∧ StronglySorted key_lt ts)).
Proof.
  intros Ha Hb Hm. split.
  - pose proof Hm as Hm'. apply merge_inv in Hm' as (lk & rk & Hl & Hr & ->).
    rewrite Ha in Hl. rewrite Hb in Hr. injection Hl as <-. injection Hr as <-.
    exists (join_keys (join_index ta tb) ta tb).
    split; [by apply time_keys_merged|]. split; [apply elem_of_join_keys|].
    split; [by rewrite nrows_merged, join_keys_length|].
    intros Hna Hnb.
    destruct (merge_keys_NoDup _ _ _ _ _ Ha Hb Hna Hnb Hm) as [Hk Hal].
    rewrite join_keys_NoDup by done. split; [apply sort_uniq_NoDup|].
    intros u Hu Hel. rewrite (aligned_nrows _ _ Hal).
    + apply Permutation_length, NoDup_Permutation; [apply sort_uniq_NoDup|done|].
      intros t. by rewrite Hel, elem_of_sort_uniq, elem_of_app.
    + intros E. by rewrite E in Hk.
  - intros rest mm Hmm.
    destruct (merge_all_elems _ _ _ _ Ha Hmm) as (tm & Hkm & Hel).
    destruct (sort_values_keys _ _ Hkm) as (s & Hs & Hks & _).
    exists s, (sorted_keys tm). split; [done|]. split; [done|].
    split; [apply sorted_keys_sorted|]. split.
    + intros t. rewrite (sorted_keys_perm tm), Hel. split.
      * intros [?|(df & t' & [->|Hin]%elem_of_cons & Hk' & Ht')]; [by left| |].
        -- right. left. rewrite Hb in Hk'. by injection Hk' as ->.
        -- right. right. by exists df, t'.
      * intros [?|[?|(df & t' & Hin & Hk' & Ht')]]; [by left| |].
        -- right. exists B, tb. split; [left|done].
        -- right. exists df, t'. split; [by right|done].
    + intros Hna Hnb Hall.
      assert (Forall (λ df, ∃ t, time_keys df = Ok t ∧ NoDup t) (B :: rest)) as Hall'.
      { constructor; [by exists tb|done]. }
      destruct (merge_all_keys _ _ _ _ Ha Hna Hall' Hmm) as (tm' & Hkm' & Hndm & _).
      rewrite Hkm in Hkm'. injection Hkm' as <-.
      assert (NoDup (sorted_keys tm)) as Hnd by by rewrite sorted_keys_perm.
      split; [done|]. apply sorted_le_NoDup_lt; [apply sorted_keys_sorted|done].
Qed.

Lemma outer_join_timestamps_witness :
  (∃ tm, time_keys ex_temp_soil = Ok tm
     ∧ (∀ t, t ∈ tm ↔ t ∈ [hour_of 1 0; hour_of 1 1; hour_of 1 2]
                     ∨ t ∈ [hour_of 1 2; hour_of 1 3])
     ∧ nrows ex_temp_soil = length tm
     ∧ (NoDup [hour_of 1 0; hour_of 1 1; hour_of 1 2] → NoDup [hour_of 1 2; hour_of 1 3] →
        NoDup tm
        ∧ ∀ u, NoDup u →
            (∀ t, t ∈ u ↔ t ∈ [hour_of 1 0; hour_of 1 1; hour_of 1 2]
                          ∨ t ∈ [hour_of 1 2; hour_of 1 3]) →
            nrows ex_temp_soil = length u))
  ∧ (∀ rest mm,
       merge_all ex_temp (ex_soil :: rest) = Ok mm →
       ∃ s ts, sort_values mm = Ok s ∧ time_keys s = Ok ts
         ∧ StronglySorted key_le ts
         ∧ (∀ t, t ∈ ts ↔ t ∈ [hour_of 1 0; hour_of 1 1; hour_of 1 2]
                  ∨ t ∈ [hour_of 1 2; hour_of 1 3]
                  ∨ ∃ df t', df ∈ rest ∧ time_keys df = Ok t' ∧ t ∈ t')
         ∧ (NoDup [hour_of 1 0; hour_of 1 1; hour_of 1 2] →
            NoDup [hour_of 1 2; hour_of 1 3] →
            Forall (λ df, ∃ t, time_keys df = Ok t ∧ NoDup t) rest →
            NoDup ts ∧ StronglySorted key_lt ts)).
Proof.
  apply (outer_join_timestamps ex_temp ex_soil ex_temp_soil).
  - reflexivity.
  - reflexivity.
  - vm_compute. reflexivity.
Defined.

(** ** Merging a table with itself *)

Section SelfJoin.
Context {K : Type} `{KeyOrder K}.

Lemma bind_positions_from (l : list K) n :
  NoDup l → l ≫= (λ k, positions_from n k l) = seq n (length l).
Proof.
  revert n. induction l as [|x l IH]; intros n Hnd; [done|].
  apply NoDup_cons in Hnd as [Hx Hnd]. rewrite bind_cons. simpl.
  rewrite key_eqb_refl, (positions_from_not_in _ _ _ Hx). simpl. f_equal.
  rewrite <- (IH (S n) Hnd). apply Forall_bind_ext, Forall_forall. intros k Hk.
  assert (key_eqb x k = false) as ->; [|done].
  apply key_eqb_neq. by intros ->.
Qed.

Lemma key_order_perm (ks : list K) :
  NoDup ks → Permutation (key_order ks) (seq 0 (length ks)).
Proof.
  intros Hnd. unfold key_order.
  assert (Permutation (sort_uniq (ks ++ ks)) ks) as ->.
  { apply NoDup_Permutation; [apply sort_uniq_NoDup|done|].
    intros k. rewrite elem_of_sort_uniq, elem_of_app. tauto. }
  by rewrite <- (bind_positions_from ks 0 Hnd).
Qed.

Lemma join_index_self (ks : list K) :
  NoDup ks → join_index ks ks = (λ i, (Some i, Some i)) <$> key_order ks.
Proof.
  intros Hnd. unfold join_index, key_order.
  assert (Forall (λ k, k ∈ ks) (sort_uniq (ks ++ ks))) as Hall.
  { apply Forall_forall. intros k Hk.
    apply (proj1 (elem_of_sort_uniq _ _)), elem_of_app in Hk. tauto. }
  induction Hall as [|k l Hk _ IH]; [done|].
  rewrite !bind_cons, fmap_app, IH. f_equal.
  by destruct (positions_NoDup_in k ks Hnd Hk) as (i & -> & _).
Qed.
End SelfJoin.

Lemma join_keys_self {A} (idx : list nat) (ks : list (option A)) :
  join_keys ((λ i, (Some i, Some i)) <$> idx) ks ks = take (Some <$> idx) ks.
Proof. induction idx as [|i idx IH]; simpl; [done|]. f_equal. apply IH. Qed.

Lemma get_col_filter_label (f : string → bool) c df :
  f c = true → get_col c (List.filter (λ cs, f cs.1) df) = get_col c df.
Proof.
  intros Hc. induction df as [|[c0 s0] df IH]; simpl; [done|].
  destruct (String.eqb_spec c0 c) as [->|Hne].
  - rewrite Hc. simpl. by rewrite String.eqb_refl.
  - destruct (f c0); simpl; [|done]. by apply String.eqb_neq in Hne as ->.
Qed.

Lemma columns_drop_cols names df :
  columns (drop_cols names df) = List.filter (λ c, negb (mem c names)) (columns df).
Proof.
  induction df as [|[c s] df IH]; simpl; [done|].
  destruct (mem c names); simpl; [done|]. f_equal. apply IH.
Qed.

Lemma NoDup_filter_bool {A} (f : A → bool) (l : list A) : NoDup l → NoDup (List.filter f l).
Proof.
  induction 1 as [|x l Hx Hnd IH]; simpl; [constructor|].
  destruct (f x); [|done]. constructor; [|done].
  by intros [? _]%elem_of_filter_bool.
Qed.

Lemma filter_none {A} (f : A → bool) (l : list A) :
  (∀ x, x ∈ l → f x = false) → List.filter f l = [].
Proof.
  induction l as [|x l IH]; intros Hf; simpl; [done|].
  rewrite Hf by left. apply IH. intros y Hy. apply Hf. by right.
Qed.

(** The collision rule of lines 141-144: a label of the accumulator that
    does not end with [_dup] keeps the accumulator's column, read at the
    left row numbers of the joined rows. *)
Lemma merge_first_writer_wins (A B m : DataFrame) ta tb c :
  time_keys A = Ok ta → time_keys B = Ok tb → merge A B = Ok m →
  c ∈ columns A → c ≠ "time" → endswith c "_dup" = false →
  get_col c (drop_dup_cols m) = series_take (join_index ta tb).*1 <$> get_col c A.
Proof.
  intros Ha Hb Hm Hc Hne Hend. apply merge_inv in Hm as (lk & rk & Hl & Hr & ->).
  rewrite Ha in Hl. rewrite Hb in Hr. injection Hl as <-. injection Hr as <-.
  rewrite drop_dup_cols_filter, (get_col_filter_label (λ c, negb (endswith c "_dup")))
    by by rewrite Hend.
  unfold merged_frame. rewrite get_col_app, get_col_set_col_ne by done.
  rewrite get_col_frame_take. apply get_col_is_Some in Hc as [s ->]. done.
Qed.

(** C6, as stated, fails: a table in which a timestamp occurs twice has
    two rows, and merged with itself it has four. *)
Lemma self_merge_repeated_timestamp :
  ∃ m, merge ex_repeated ex_repeated = Ok m
       ∧ nrows (drop_dup_cols m) = 4%nat
       ∧ nrows ex_repeated = 2%nat.
Proof. eexists. split; [vm_compute; reflexivity|]. split; reflexivity. Qed.

(** The labels of the right side when a table is merged with itself:
    every one of them receives the suffix. *)
Lemma right_labels_self (T : DataFrame) :
  right_labels T T = map (λ c, c +:+ "_dup") (columns (drop_cols ["time"] T)).
Proof.
  unfold right_labels. apply map_ext_in. intros c Hc%list_elem_of_In.
  unfold add_suffix.
  assert (mem c (List.filter (λ c0, mem c0 (columns (drop_cols ["time"] T))) (columns T))
          = true) as ->; [|done].
  apply mem_elem_of, elem_of_filter_bool. split; [|by apply mem_elem_of].
  rewrite columns_drop_cols in Hc. by apply elem_of_filter_bool in Hc as [? _].
Qed.

(** C6 (amended).  For every table T, merging T with itself returns a
    table when the labels of T are distinct and none ends with [_dup], and
    whenever it returns one, no label of the output ends with [_dup] and
    every column of T whose label does not end with [_dup] keeps the values
    of T, the incoming duplicate being discarded (as in every merge: a
    label that the accumulator already has keeps the accumulator's values).
    When the timestamps of T are pairwise distinct, the output has the row
    count of T: it is T without its columns ending in [_dup], the rows in
    ascending order of the timestamps. *)
Theorem self_merge_keeps_table (T : DataFrame) (ks : list (option Timestamp)) :
  time_keys T = Ok ks →
  (NoDup (columns T) → Forall (λ c, endswith c "_dup" = false) (columns T) →
   ∃ m, merge T T = Ok m)
  ∧ (∀ m, merge T T = Ok m →
       Forall (λ c, endswith c "_dup" = false) (columns (drop_dup_cols m))
       ∧ (∀ c, c ∈ columns T → c ≠ "time" → endswith c "_dup" = false →
            get_col c (drop_dup_cols m)
            = series_take (join_index ks ks).*1 <$> get_col c T)
       ∧ (NoDup ks → aligned (nrows T) T →
            nrows (drop_dup_cols m) = nrows T
            ∧ time_keys (drop_dup_cols m) = Ok (sort_uniq ks)
            ∧ ∃ π, Permutation π (seq 0 (nrows T))
                   ∧ drop_dup_cols m = frame_take (Some <$> π) (drop_dup_cols T)))
  ∧ (∀ A B m ta tb c,
       time_keys A = Ok ta → time_keys B = Ok tb → merge A B = Ok m →
       c ∈ columns A → c ≠ "time" → endswith c "_dup" = false →
       get_col c (drop_dup_cols m) = series_take (join_index ta tb).*1 <$> get_col c A).
Proof.
  intros Hk. split; [|split; [|apply merge_first_writer_wins]].
  { intros Hcols _. eexists. apply merge_intro; [done..|]. rewrite right_labels_self.
    change (NoDup ((λ c, c +:+ "_dup") <$> columns (drop_cols ["time"] T))).
    apply NoDup_fmap_2.
    - intros c1 c2. apply append_inj_l.
    - rewrite columns_drop_cols. by apply NoDup_filter_bool. }
  intros m Hm. split; [apply drop_dup_cols_no_dup_label|].
  split; [intros c; by apply (merge_first_writer_wins T T m ks ks c)|].
  intros Hnd Hal.
  apply merge_inv in Hm as (lk & rk & Hl & Hr & ->).
  rewrite Hk in Hl. rewrite Hk in Hr. injection Hl as <-. injection Hr as <-.
  assert (length ks = nrows T) as Hlen.
  { apply time_keys_get_col, get_col_elem_of in Hk.
    unfold aligned in Hal. rewrite Forall_forall in Hal. apply (Hal _ Hk). }
  set (T' := drop_cols ["time"] T).
  assert (drop_dup_cols (merged_frame T T ks ks)
          = frame_take (Some <$> key_order ks) (drop_dup_cols T)) as Hdrop.
  { rewrite !drop_dup_cols_filter. unfold merged_frame. fold T'.
    rewrite (join_index_self ks Hnd), join_keys_self.
    rewrite <- !list_fmap_compose.
    change (fst ∘ (λ i : nat, (Some i, Some i))) with (@Some nat).
    change (snd ∘ (λ i : nat, (Some i, Some i))) with (@Some nat).
    rewrite List.filter_app.
    change (Datetime64 (take (Some <$> key_order ks) ks))
      with (series_take (Some <$> key_order ks) (Datetime64 ks)).
    rewrite set_col_same
      by (rewrite get_col_frame_take; apply time_keys_get_col in Hk; by rewrite Hk).
    rewrite (frame_take_filter _ (λ c, negb (endswith c "_dup"))).
    rewrite <- (app_nil_r (List.filter _ (frame_take _ T))) at 2. f_equal.
    apply filter_none. intros cs Hin.
    apply list_elem_of_In, in_map_iff in Hin as ([c s] & <- & Hin%list_elem_of_In). simpl.
    assert (c ∈ columns T') as Hc.
    { change (c ∈ T'.*1). apply list_elem_of_fmap. by exists (c, s). }
    unfold add_suffix.
    assert (mem c (List.filter (λ c0, mem c0 (columns T')) (columns T)) = true) as ->.
    { apply mem_elem_of, elem_of_filter_bool. split; [|by apply mem_elem_of].
      unfold T' in Hc. rewrite columns_drop_cols in Hc.
      by apply elem_of_filter_bool in Hc as [? _]. }
    by rewrite endswith_append. }
  split; [|split].
  - rewrite Hdrop. rewrite <- Hlen.
    assert (length (Some <$> key_order ks) = length ks) as <-.
    { by rewrite length_fmap, (Permutation_length (key_order_perm ks Hnd)), length_seq. }
    apply aligned_nrows; [apply aligned_frame_take|].
    assert (time_keys (drop_dup_cols T) = Ok ks) as Hk' by by rewrite time_keys_drop_dup_cols.
    apply (time_keys_frame_take (Some <$> key_order ks)) in Hk'. intros E. by rewrite E in Hk'.
  - rewrite time_keys_drop_dup_cols, (time_keys_merged _ _ _ _ Hk), join_keys_NoDup by done.
    f_equal. apply sorted_unique; try apply sort_uniq_sorted.
    intros t. rewrite !elem_of_sort_uniq, elem_of_app. tauto.
  - exists (key_order ks). split; [rewrite <- Hlen; by apply key_order_perm|done].
Qed.

Lemma self_merge_keeps_table_witness :
  (NoDup (columns ex_temp) → Forall (λ c, endswith c "_dup" = false) (columns ex_temp) →
   ∃ m, merge ex_temp ex_temp = Ok m)
  ∧ (∀ m, merge ex_temp ex_temp = Ok m →
       Forall (λ c, endswith c "_dup" = false) (columns (drop_dup_cols m))
       ∧ (∀ c, c ∈ columns ex_temp → c ≠ "time" → endswith c "_dup" = false →
            get_col c (drop_dup_cols m)
            = series_take (join_index [hour_of 1 0; hour_of 1 1; hour_of 1 2]
                             [hour_of 1 0; hour_of 1 1; hour_of 1 2]).*1
              <$> get_col c ex_temp)
       ∧ (NoDup [hour_of 1 0; hour_of 1 1; hour_of 1 2] → aligned (nrows ex_temp) ex_temp →
            nrows (drop_dup_cols m) = nrows ex_temp
            ∧ time_keys (drop_dup_cols m)
              = Ok (sort_uniq [hour_of 1 0; hour_of 1 1; hour_of 1 2])
            ∧ ∃ π, Permutation π (seq 0 (nrows ex_temp))
                   ∧ drop_dup_cols m = frame_take (Some <$> π) (drop_dup_cols ex_temp)))
  ∧ (∀ A B m ta tb c,
       time_keys A = Ok ta → time_keys B = Ok tb → merge A B = Ok m →
       c ∈ columns A → c ≠ "time" → endswith c "_dup" = false →
       get_col c (drop_dup_cols m) = series_take (join_index ta tb).*1 <$> get_col c A).
Proof.
  apply (self_merge_keeps_table ex_temp). reflexivity.
Defined.

(** The self-merge of the witness: the three rows and the two columns of
    the table. *)
Example self_merge_of_three_rows :
  merge_all ex_temp [ex_temp] = Ok ex_temp.
Proof. by vm_compute. Qed.

(** ** Statistic labels *)

Lemma append_eq_suffix (s1 s2 t1 t2 : string) :
  s1 +:+ t1 = s2 +:+ t2 → (String.length t1 ≤ String.length t2)%nat →
  endswith t2 t1 = true.
Proof.
  revert s2. induction s1 as [|a s1 IH]; intros [|b s2] E Hlen;
    rewrite ?append_cons, ?append_empty_l in E.
  - subst. rewrite <- (append_empty_l t2). apply endswith_append.
  - exfalso. apply (f_equal String.length) in E. simpl in E.
    rewrite length_append in E. lia.
  - subst t2. cbn [endswith]. rewrite endswith_append. apply orb_true_r.
  - injection E as -> E. by apply (IH s2).
Qed.

Lemma stat_label_inj c1 s1 c2 s2 :
  stat_label c1 s1 = stat_label c2 s2 → c1 = c2 ∧ s1 = s2.
Proof.
  unfold stat_label. intros E.
  assert (s1 = s2) as ->.
  { destruct s1, s2; try done;
      first [ apply append_eq_suffix in E; [by vm_compute in E|simpl; lia]
            | symmetry in E; apply append_eq_suffix in E; [by vm_compute in E|simpl; lia] ]. }
  split; [|done]. by apply append_inj_l in E.
Qed.

(** ** Selecting columns *)

Lemma filter_label_NoDup c s (df : DataFrame) :
  NoDup (columns df) → (c, s) ∈ df →
  List.filter (λ cs, String.eqb cs.1 c) df = [(c, s)].
Proof.
  induction df as [|[c0 s0] df IH]; intros Hnd Hin; [by apply elem_of_nil in Hin|].
  apply NoDup_cons in Hnd as [Hc0 Hnd]. simpl.
  apply elem_of_cons in Hin as [[= -> ->]|Hin].
  - rewrite String.eqb_refl. f_equal. apply filter_none. intros [c1 s1] Hin1. simpl.
    apply String.eqb_neq. intros ->. apply Hc0.
    change (c0 ∈ df.*1). apply list_elem_of_fmap. by exists (c0, s1).
  - destruct (String.eqb_spec c0 c) as [->|Hne]; [|by apply IH].
    destruct Hc0. change (c ∈ df.*1). apply list_elem_of_fmap. by exists (c, s).
Qed.

Lemma select_cols_sub (f : string → bool) (l df : DataFrame) :
  NoDup (columns df) → (∀ cs, cs ∈ l → cs ∈ df) →
  select_cols (List.filter f l.*1) df = List.filter (λ cs, f cs.1) l.
Proof.
  intros Hnd. induction l as [|[c s] l IH]; intros Hsub; [done|]. simpl.
  destruct (f c); simpl.
  - rewrite (filter_label_NoDup c s df Hnd) by (apply Hsub; left). simpl. f_equal.
    apply IH. intros cs Hcs. apply Hsub. by right.
  - apply IH. intros cs Hcs. apply Hsub. by right.
Qed.

Lemma select_cols_filter (f : string → bool) (df : DataFrame) :
  NoDup (columns df) →
  select_cols (List.filter f (columns df)) df = List.filter (λ cs, f cs.1) df.
Proof. intros Hnd. by apply select_cols_sub. Qed.

Lemma filter_all {A} (f : A → bool) (l : list A) :
  (∀ x, x ∈ l → f x = true) → List.filter f l = l.
Proof.
  induction l as [|x l IH]; intros Hf; simpl; [done|].
  rewrite Hf by left. f_equal. apply IH. intros y Hy. apply Hf. by right.
Qed.

Lemma select_cols_all (df : DataFrame) : NoDup (columns df) → select_cols (columns df) df = df.
Proof.
  intros Hnd. rewrite <- (filter_all (λ _, true) (columns df)) by done.
  rewrite (select_cols_filter (λ _, true)) by done. by apply filter_all.
Qed.

Lemma select_cols_app_r (names : list string) (df1 df2 : DataFrame) :
  (∀ c, c ∈ names → c ∉ columns df2) →
  select_cols names (df1 ++ df2) = select_cols names df1.
Proof.
  induction names as [|n names IH]; intros Hn; [done|]. simpl.
  rewrite List.filter_app, IH by (intros c Hc; apply Hn; by right).
  rewrite (filter_none _ df2), app_nil_r; [done|].
  intros [c s] Hin. simpl. apply String.eqb_neq. intros ->.
  apply (Hn n); [left|]. change (n ∈ df2.*1). apply list_elem_of_fmap. by exists (n, s).
Qed.

Lemma columns_app (df1 df2 : DataFrame) : columns (df1 ++ df2) = columns df1 ++ columns df2.
Proof. apply fmap_app. Qed.

Lemma drop_cols_id names (df : DataFrame) :
  (∀ c, c ∈ names → c ∉ columns df) → drop_cols names df = df.
Proof.
  intros Hn. apply filter_all. intros [c s] Hin. simpl. apply negb_true_iff, mem_not_elem_of.
  intros Hc. apply (Hn c Hc). change (c ∈ df.*1). apply list_elem_of_fmap. by exists (c, s).
Qed.

Lemma drop_cols_set_col names c s (df : DataFrame) :
  c ∈ names → drop_cols names (set_col c s df) = drop_cols names df.
Proof.
  intros Hc. apply mem_elem_of in Hc. induction df as [|[c0 s0] df IH]; simpl.
  - by rewrite Hc.
  - destruct (String.eqb_spec c0 c) as [->|Hne]; simpl.
    + by rewrite Hc.
    + by rewrite IH.
Qed.

Lemma NoDup_set_col c s (df : DataFrame) : NoDup (columns df) → NoDup (columns (set_col c s df)).
Proof.
  intros Hnd. destruct (get_col c df) as [s0|] eqn:E.
  - rewrite set_col_present; [done|]. apply get_col_is_Some. by eexists.
  - apply get_col_None in E. rewrite set_col_absent, columns_app by done.
    apply NoDup_app. split; [done|]. split; [|apply NoDup_singleton].
    intros x Hx ->%list_elem_of_singleton. done.
Qed.

(** The last steps of both resamplings: the index becomes a column, the
    ['time'] column is computed from it and moved to the front, the index
    column is dropped. *)
Lemma reorder_time_first (kn : string) (index : Series) T (agg : DataFrame) :
  kn ≠ "time" → NoDup (columns agg) → kn ∉ columns agg → "time" ∉ columns agg →
  let d2 := drop_cols [kn] (set_col "time" (Datetime64 T) ((kn, index) :: agg)) in
  select_cols ("time" :: List.filter (λ c, negb (String.eqb c "time")) (columns d2)) d2
  = ("time", Datetime64 T) :: agg.
Proof.
  intros Hkn Hnd Hk Ht d2. subst d2. cbn [set_col].
  apply String.eqb_neq in Hkn as Hkn'. rewrite Hkn'.
  rewrite (set_col_absent _ _ agg Ht).
  assert (drop_cols [kn] ((kn, index) :: agg ++ [("time", Datetime64 T)])
          = agg ++ [("time", Datetime64 T)]) as ->.
  { unfold drop_cols. cbn [List.filter fst mem existsb]. rewrite String.eqb_refl. simpl.
    apply (drop_cols_id [kn]). intros c ->%list_elem_of_singleton.
    rewrite columns_app. intros [?|?%list_elem_of_singleton]%elem_of_app; done. }
  rewrite columns_app, List.filter_app. simpl.
  rewrite app_nil_r.
  rewrite (filter_all _ (columns agg)).
  2:{ intros c Hc. apply negb_true_iff, String.eqb_neq. by intros ->. }
  rewrite List.filter_app. simpl. rewrite (filter_none _ agg).
  2:{ intros [c s] Hin. simpl. apply String.eqb_neq. intros ->. apply Ht.
      change ("time" ∈ agg.*1). apply list_elem_of_fmap. by exists ("time", s). }
  simpl. f_equal. rewrite select_cols_app_r.
  - by apply select_cols_all.
  - intros c Hc ->%list_elem_of_singleton. done.
Qed.

(** ** The aggregation *)

Lemma agg_columns_float `{Library} {K} `{Key K} (keys : list (option K)) stats (cols : DataFrame) :
  (∀ cs, cs ∈ cols → is_float cs.2 = true) →
  agg_columns keys stats cols = Ok (stat_frame keys stats cols).
Proof.
  induction cols as [|[c s] cols IH]; intros Hf; [done|].
  assert (is_float s = true) as Hs by (apply (Hf (c, s)); left).
  destruct s as [xs| | |]; try done. cbn [agg_columns].
  rewrite IH by (intros cs Hcs; apply Hf; by right). done.
Qed.

Lemma columns_stat_frame `{Library} {K} `{Key K} (keys : list (option K)) stats (cols : DataFrame) :
  (∀ cs, cs ∈ cols → is_float cs.2 = true) →
  columns (stat_frame keys stats cols)
  = flat_map (λ c, map (stat_label c) stats) (columns cols).
Proof.
  induction cols as [|[c s] cols IH]; intros Hf; [done|].
  assert (is_float s = true) as Hs by (apply (Hf (c, s)); left).
  destruct s as [xs| | |]; try done. unfold stat_frame. cbn [flat_map].
  rewrite columns_app. fold (stat_frame keys stats cols).
  rewrite IH by (intros cs Hcs; apply Hf; by right).
  cbn [columns fmap list_fmap flat_map]. f_equal.
  unfold stat_columns. simpl. clear. induction stats as [|s stats IHs]; [done|].
  simpl. f_equal. apply IHs.
Qed.

Lemma elem_of_stat_labels (l : list string) stats x :
  x ∈ flat_map (λ c, map (stat_label c) stats) l ↔ ∃ c s, x = stat_label c s ∧ c ∈ l ∧ s ∈ stats.
Proof.
  rewrite list_elem_of_In, in_flat_map. split.
  - intros (c & Hc & Hx). apply in_map_iff in Hx as (s & <- & Hs).
    exists c, s. by rewrite !list_elem_of_In.
  - intros (c & s & -> & Hc & Hs). exists c. rewrite <- list_elem_of_In. split; [done|].
    apply in_map_iff. exists s. by rewrite <- list_elem_of_In.
Qed.

Lemma NoDup_stat_labels (l : list string) stats :
  NoDup l → NoDup stats → NoDup (flat_map (λ c, map (stat_label c) stats) l).
Proof.
  intros Hl Hs. induction Hl as [|c l Hc Hl IH]; simpl; [constructor|].
  apply NoDup_app. split; [|split; [|done]].
  - change (NoDup (stat_label c <$> stats)). apply NoDup_fmap_2; [|done].
    intros s1 s2 E. by apply stat_label_inj in E as [_ ?].
  - intros x Hx Hx'. apply list_elem_of_In, in_map_iff in Hx as (s & <- & _).
    apply elem_of_stat_labels in Hx' as (c' & s' & E & Hc' & _).
    apply stat_label_inj in E as [-> _]. done.
Qed.

Lemma stat_labels_not_key (l : list string) stats kn :
  kn ∈ ["time"; "date"; "year_month"] →
  kn ∉ flat_map (λ c, map (stat_label c) stats) l.
Proof.
  intros Hkn Hin. apply elem_of_stat_labels in Hin as (c & s & -> & _).
  by apply stat_label_not_key in Hkn.
Qed.

(** ** Buckets *)

Section Buckets.
Context `{Library} {K : Type} `{KeyOrder K}.

Lemma group_keys_sorted (keys : list (option K)) : StronglySorted key_lt (group_keys keys).
Proof. apply sort_uniq_sorted. Qed.

Lemma elem_of_group_keys (keys : list (option K)) g : g ∈ group_keys keys ↔ Some g ∈ keys.
Proof.
  unfold group_keys, dropna. rewrite elem_of_sort_uniq, list_elem_of_omap. split.
  - intros ([x|] & Hx & [= ->]). done.
  - intros Hg. by exists (Some g).
Qed.

Lemma agg_column_lookup (keys : list (option K)) s xs j g :
  group_keys keys !! j = Some g →
  agg_column keys s xs !! j = Some (agg_stat s (rows_at (positions (Some g) keys) xs)).
Proof.
  intros Hg. unfold agg_column.
  change (map ?f ?l) with (f <$> l). by rewrite list_lookup_fmap, Hg.
Qed.

Lemma round_col_lookup (ys : list (option Q)) j y :
  ys !! j = Some y → round_col ys !! j = Some (round2 <$> y).
Proof.
  intros Hy. unfold round_col. change (map ?f ?l) with (f <$> l).
  by rewrite list_lookup_fmap, Hy.
Qed.

Lemma rows_at_positions_from (k : option K) keys (pre xs : list (option Q)) :
  length keys = length xs →
  rows_at (positions_from (length pre) k keys) (pre ++ xs)
  = (List.filter (λ kx, key_eqb kx.1 k) (zip keys xs)).*2.
Proof.
  revert pre xs. induction keys as [|k0 keys IH]; intros pre [|x xs] Hlen; try done.
  simpl in Hlen. injection Hlen as Hlen. cbn [positions_from zip zip_with List.filter fst].
  specialize (IH (pre ++ [x]) xs Hlen).
  rewrite length_app, Nat.add_1_r, <- app_assoc in IH. simpl in IH.
  destruct (key_eqb k0 k); [|exact IH].
  cbn [rows_at map fmap list_fmap snd]. f_equal; [|exact IH].
  by rewrite lookup_app_r, Nat.sub_diag.
Qed.

(** The rows that the aggregation reads for a bucket are the rows of the
    table whose key is that of the bucket. *)
Lemma rows_at_positions (g : K) keys (xs : list (option Q)) :
  length keys = length xs →
  rows_at (positions (Some g) keys) xs = bucket g keys xs.
Proof. intros Hlen. by apply (rows_at_positions_from (Some g) keys []). Qed.
End Buckets.


(** ** The resampled table *)

Section Merged.
Context `{Library}.
Variables (df : DataFrame) (ts : list (option Timestamp)).
Hypothesis Hdf : merged_table df ts.

Lemma merged_column_time : column "time" df = Ok (Datetime64 ts).
Proof. unfold column. by rewrite (mt_time _ _ Hdf). Qed.

Lemma merged_variables_float cs : cs ∈ variables df → is_float cs.2 = true.
Proof.
  destruct cs as [c s]. intros [Hin Hc]%elem_of_filter_bool. simpl in *.
  apply (mt_float _ _ Hdf c s Hin). intros ->. done.
Qed.

Lemma merged_variables_labels : NoDup (columns (variables df)).
Proof.
  unfold variables. rewrite columns_drop_cols. apply NoDup_filter_bool, Hdf.
Qed.

(** The columns that the resampling selects, after it has added its own
    columns [extra], are the variables. *)
Lemma hourly_numeric_cols (extra : list string) (d : DataFrame) :
  NoDup (columns d) →
  drop_cols ("time" :: extra) d = variables df →
  select_cols (labels_except ("time" :: extra) d) d = variables df.
Proof.
  intros Hnd <-. unfold labels_except. by rewrite select_cols_filter.
Qed.

Lemma drop_cols_absent (extra : list string) :
  (∀ c, c ∈ extra → c ∉ columns df) → drop_cols ("time" :: extra) df = variables df.
Proof.
  intros Hex. unfold variables, drop_cols. apply filter_ext_in.
  intros [c s] Hin%list_elem_of_In. simpl. f_equal.
  rewrite orb_false_r. destruct (String.eqb c "time"); [done|]. simpl.
  apply mem_not_elem_of. intros Hc. apply (Hex c Hc).
  change (c ∈ df.*1). apply list_elem_of_fmap. by exists (c, s).
Qed.

Lemma merged_groupby_agg {K} `{Key K} (keys : list (option K)) stats :
  variables df ≠ [] →
  groupby_agg keys stats (variables df) = Ok (stat_frame keys stats (variables df)).
Proof.
  intros Hv. unfold groupby_agg. destruct (variables df) eqn:E; [done|]. rewrite <- E.
  apply agg_columns_float, merged_variables_float.
Qed.

Lemma merged_stat_labels {K} `{Key K} (keys : list (option K)) kn stats :
  NoDup stats → kn ∈ ["time"; "date"; "year_month"] →
  NoDup (columns (stat_frame keys stats (variables df)))
  ∧ kn ∉ columns (stat_frame keys stats (variables df)).
Proof.
  intros Hst Hkn. split.
  - rewrite columns_stat_frame by apply merged_variables_float.
    apply NoDup_stat_labels; [apply merged_variables_labels|done].
  - rewrite columns_stat_frame by apply merged_variables_float.
    by apply stat_labels_not_key.
Qed.

(** Lines 169-189 on a merged table with a variable, none of them
    labelled ['date']. *)
Lemma merged_resample_to_daily :
  variables df ≠ [] → "date" ∉ columns df →
  resample_to_daily df
  = Ok (resampled datetime_of_date (map (fmap date_of) ts) [Mean; Min; Max] df).
Proof.
  intros Hv Hdate.
  unfold resample_to_daily. rewrite merged_column_time. cbn [mbind result_bind to_datetime].
  set (dates := map (fmap date_of) ts).
  set (d := set_col "date" (DateObj dates) df).
  assert (NoDup (columns d)) as Hnd by apply NoDup_set_col, Hdf.
  assert (get_col "date" d = Some (DateObj dates)) as Hg.
  { unfold d. by rewrite get_col_set_col. }
  unfold groupby. rewrite Hg.
  rewrite (hourly_numeric_cols ["date"]); [|done|].
  2:{ unfold d. rewrite drop_cols_set_col by (right; left).
      apply drop_cols_absent. by intros c ->%list_elem_of_singleton. }
  rewrite (merged_groupby_agg dates [Mean; Min; Max] Hv).
  destruct (merged_stat_labels dates "date" [Mean; Min; Max]) as (Hl & Hk).
  { solve_NoDup. } { right; left. }
  cbn [mbind result_bind]. unfold reset_index.
  rewrite (proj2 (mem_not_elem_of _ _) Hk). cbn [mbind result_bind].
  unfold column at 1. cbn [get_col]. rewrite String.eqb_refl.
  cbn [mbind result_bind to_datetime]. f_equal.
  rewrite reorder_time_first; [|done|done|done|].
  - unfold resampled. do 3 f_equal. generalize (group_keys dates). intros l.
    induction l as [|x l IH]; simpl; [done|]. f_equal. apply IH.
  - pose proof (merged_stat_labels dates "time" [Mean; Min; Max]) as (_ & Ht);
      [solve_NoDup|left|done].
Qed.

(** Lines 195-216 on a merged table with a variable, none of them
    labelled ['date'] or ['year_month']. *)
Lemma merged_resample_to_monthly :
  variables df ≠ [] → "date" ∉ columns df → "year_month" ∉ columns df →
  resample_to_monthly df
  = Ok (resampled datetime_of_period (map (fmap period_of) ts) [Mean; Min; Max; Sum] df).
Proof.
  intros Hv Hdate Hym.
  unfold resample_to_monthly. rewrite merged_column_time. cbn [mbind result_bind to_datetime].
  set (d1 := set_col "date" (Datetime64 ts) df).
  assert (column "date" d1 = Ok (Datetime64 ts)) as ->.
  { unfold column, d1. by rewrite get_col_set_col. }
  cbn [mbind result_bind to_period].
  set (months := map (fmap period_of) ts).
  set (d2 := set_col "year_month" (PeriodM months) d1).
  assert (NoDup (columns d2)) as Hnd by apply NoDup_set_col, NoDup_set_col, Hdf.
  assert (get_col "year_month" d2 = Some (PeriodM months)) as Hg.
  { unfold d2. by rewrite get_col_set_col. }
  unfold groupby. rewrite Hg.
  rewrite (hourly_numeric_cols ["date"; "year_month"]); [|done|].
  2:{ unfold d2, d1. rewrite !drop_cols_set_col by (rewrite !elem_of_cons; auto).
      apply drop_cols_absent. intros c. rewrite !elem_of_cons, elem_of_nil.
      by intros [->|[->|[]]]. }
  rewrite (merged_groupby_agg months [Mean; Min; Max; Sum] Hv).
  destruct (merged_stat_labels months "year_month" [Mean; Min; Max; Sum]) as (Hl & Hk).
  { solve_NoDup. } { right; right; left. }
  cbn [mbind result_bind]. unfold reset_index.
  rewrite (proj2 (mem_not_elem_of _ _) Hk). cbn [mbind result_bind].
  unfold column at 1. cbn [get_col]. rewrite String.eqb_refl.
  cbn [mbind result_bind period_to_datetime]. f_equal.
  rewrite reorder_time_first; [|done|done|done|].
  - unfold resampled. do 3 f_equal. generalize (group_keys months). intros l.
    induction l as [|x l IH]; simpl; [done|]. f_equal. apply IH.
  - pose proof (merged_stat_labels months "time" [Mean; Min; Max; Sum]) as (_ & Ht);
      [solve_NoDup|left|done].
Qed.

(** The statistic column of a variable in a table of statistics. *)
Lemma merged_get_col_stat_frame {K} `{Key K} (keys : list (option K)) kn idx stats c xs s :
  NoDup stats → kn ∈ ["time"; "date"; "year_month"] →
  (c, Float64 xs) ∈ df → c ≠ "time" → s ∈ stats →
  get_col (stat_label c s) ((kn, idx) :: stat_frame keys stats (variables df))
  = Some (Float64 (round_col (agg_column keys s xs))).
Proof.
  intros Hst Hkn Hin Hc Hs. apply get_col_NoDup.
  - cbn [columns fmap list_fmap fst].
    destruct (merged_stat_labels keys kn stats Hst Hkn) as (? & ?).
    by apply NoDup_cons.
  - right. unfold stat_frame.
    apply list_elem_of_In, in_flat_map. exists (c, Float64 xs). split.
    + apply list_elem_of_In, elem_of_filter_bool. split; [done|]. simpl.
      apply String.eqb_neq in Hc. by rewrite Hc.
    + unfold stat_columns. simpl. apply in_map_iff. exists s.
      by rewrite <- list_elem_of_In.
Qed.

Lemma merged_length_time : length ts = nrows df.
Proof.
  pose proof (mt_time _ _ Hdf) as Ht. apply get_col_elem_of in Ht.
  pose proof (mt_aligned _ _ Hdf) as Ha. unfold aligned in Ha.
  rewrite Forall_forall in Ha. apply (Ha _ Ht).
Qed.

Lemma merged_length_column c xs : (c, Float64 xs) ∈ df → length xs = length ts.
Proof.
  intros Hin. rewrite merged_length_time.
  pose proof (mt_aligned _ _ Hdf) as Ha. unfold aligned in Ha.
  rewrite Forall_forall in Ha. apply (Ha _ Hin).
Qed.

(** One cell of a statistic column: the rounded statistic of the values
    of the variable in the rows of the bucket. *)
Lemma merged_stat_cell {K} `{KeyOrder K} (f : Timestamp → K) kn idx stats c xs j g s :
  NoDup stats → kn ∈ ["time"; "date"; "year_month"] →
  (c, Float64 xs) ∈ df → c ≠ "time" →
  group_keys (map (fmap f) ts) !! j = Some g → s ∈ stats →
  ∃ ys, get_col (stat_label c s)
          ((kn, idx) :: stat_frame (map (fmap f) ts) stats (variables df))
        = Some (Float64 ys)
    ∧ ys !! j = Some (round2 <$> agg_stat s (bucket g (map (fmap f) ts) xs)).
Proof.
  intros Hst Hkn Hin Hc Hg Hs. eexists. split; [by apply merged_get_col_stat_frame|].
  erewrite round_col_lookup; [|by apply agg_column_lookup].
  rewrite rows_at_positions; [done|].
  by rewrite length_map, (merged_length_column c xs).
Qed.

Lemma merged_columns_resampled {K} `{Key K} (to_ts : K → Timestamp)
    (keys : list (option K)) stats :
  columns (resampled to_ts keys stats df)
  = "time" :: flat_map (λ c, map (stat_label c) stats) (columns (variables df)).
Proof.
  unfold resampled. cbn [columns fmap list_fmap fst]. f_equal.
  apply columns_stat_frame, merged_variables_float.
Qed.
End Merged.

(** The same for an hourly table, which is a merged table with a variable
    and without the labels of the resampling. *)
Section Hourly.
Context `{Library}.
Variables (df : DataFrame) (ts : list (option Timestamp)).
Hypothesis Hdf : hourly_table df ts.

Lemma hourly_merged : merged_table df ts.
Proof. split; apply Hdf. Qed.

Lemma hourly_time_keys : time_keys df = Ok ts.
Proof. apply time_keys_get_col, Hdf. Qed.


Lemma hourly_variables_nonempty : variables df ≠ [].
Proof.
  destruct (ht_variable _ _ Hdf) as (c & Hc & Hne).
  apply get_col_is_Some in Hc as [s Hs]. apply get_col_elem_of in Hs.
  assert ((c, s) ∈ variables df) as Hin; [|by intros E; rewrite E in Hin; apply elem_of_nil in Hin].
  apply elem_of_filter_bool. split; [done|]. simpl.
  apply String.eqb_neq in Hne. by rewrite Hne.
Qed.

Lemma hourly_stat_frame {K} `{Key K} (keys : list (option K)) kn stats :
  NoDup stats → kn ∈ ["time"; "date"; "year_month"] →
  groupby_agg keys stats (variables df) = Ok (stat_frame keys stats (variables df))
  ∧ NoDup (columns (stat_frame keys stats (variables df)))
  ∧ kn ∉ columns (stat_frame keys stats (variables df)).
Proof.
  intros Hst Hkn. split.
  - apply (merged_groupby_agg df ts hourly_merged), hourly_variables_nonempty.
  - by apply (merged_stat_labels df ts hourly_merged).
Qed.

(** Lines 169-189 on an hourly table. *)
Lemma resample_to_daily_eq :
  resample_to_daily df
  = Ok (resampled datetime_of_date (map (fmap date_of) ts) [Mean; Min; Max] df).
Proof.
  apply (merged_resample_to_daily df ts hourly_merged);
    [apply hourly_variables_nonempty|apply Hdf].
Qed.

(** Lines 195-216 on an hourly table. *)
Lemma resample_to_monthly_eq :
  resample_to_monthly df
  = Ok (resampled datetime_of_period (map (fmap period_of) ts) [Mean; Min; Max; Sum] df).
Proof.
  apply (merged_resample_to_monthly df ts hourly_merged);
    [apply hourly_variables_nonempty|apply Hdf..].
Qed.

(** The statistic column of a variable in a table of statistics. *)
Lemma get_col_stat_frame {K} `{Key K} (keys : list (option K)) kn idx stats c xs s :
  NoDup stats → kn ∈ ["time"; "date"; "year_month"] →
  (c, Float64 xs) ∈ df → c ≠ "time" → s ∈ stats →
  get_col (stat_label c s) ((kn, idx) :: stat_frame keys stats (variables df))
  = Some (Float64 (round_col (agg_column keys s xs))).
Proof. apply (merged_get_col_stat_frame df ts hourly_merged). Qed.

Lemma hourly_length_time : length ts = nrows df.
Proof. apply merged_length_time, hourly_merged. Qed.

(** One cell of a statistic column: the rounded statistic of the values
    of the variable in the rows of the bucket. *)
Lemma stat_cell {K} `{KeyOrder K} (f : Timestamp → K) kn idx stats c xs j g s :
  NoDup stats → kn ∈ ["time"; "date"; "year_month"] →
  (c, Float64 xs) ∈ df → c ≠ "time" →
  group_keys (map (fmap f) ts) !! j = Some g → s ∈ stats →
  ∃ ys, get_col (stat_label c s)
          ((kn, idx) :: stat_frame (map (fmap f) ts) stats (variables df))
        = Some (Float64 ys)
    ∧ ys !! j = Some (round2 <$> agg_stat s (bucket g (map (fmap f) ts) xs)).
Proof. apply (merged_stat_cell df ts hourly_merged). Qed.

Lemma columns_resampled {K} `{Key K} (to_ts : K → Timestamp) (keys : list (option K)) stats :
  columns (resampled to_ts keys stats df)
  = "time" :: flat_map (λ c, map (stat_label c) stats) (columns (variables df)).
Proof. apply (merged_columns_resampled df ts hourly_merged). Qed.
End Hourly.


(** ** The statistics *)

Lemma dropna_all_missing {A} (xs : list (option A)) :
  (∀ x, x ∈ xs → x = None) → dropna xs = [].
Proof.
  induction xs as [|x xs IH]; intros Hx; [done|].
  unfold dropna. simpl. rewrite (Hx x) by left. simpl. apply IH.
  intros y Hy. apply Hx. by right.
Qed.

Lemma Qmin_cases (x y : Q) : Qmin x y = x ∨ Qmin x y = y.
Proof. unfold Qmin, GenericMinMax.gmin. destruct (x ?= y)%Q; auto. Qed.

Lemma Qmax_cases (x y : Q) : Qmax x y = x ∨ Qmax x y = y.
Proof. unfold Qmax, GenericMinMax.gmax. destruct (x ?= y)%Q; auto. Qed.

Lemma q_min_spec v vs : q_min v vs ∈ v :: vs ∧ ∀ y, y ∈ v :: vs → (q_min v vs <= y)%Q.
Proof.
  induction vs as [|x vs [IHin IHle]]; simpl.
  - split; [left|]. intros y ->%list_elem_of_singleton. apply Qle_refl.
  - split.
    + destruct (Qmin_cases x (q_min v vs)) as [->| ->].
      * right. left.
      * apply elem_of_cons in IHin as [E|IHin]; [rewrite E; left|]. right. by right.
    + intros y Hy. rewrite !elem_of_cons in Hy.
      destruct Hy as [->|[->|Hy]].
      * eapply Qle_trans; [apply Q.le_min_r|]. apply IHle. left.
      * apply Q.le_min_l.
      * eapply Qle_trans; [apply Q.le_min_r|]. apply IHle. by right.
Qed.

Lemma q_max_spec v vs : q_max v vs ∈ v :: vs ∧ ∀ y, y ∈ v :: vs → (y <= q_max v vs)%Q.
Proof.
  induction vs as [|x vs [IHin IHle]]; simpl.
  - split; [left|]. intros y ->%list_elem_of_singleton. apply Qle_refl.
  - split.
    + destruct (Qmax_cases x (q_max v vs)) as [->| ->].
      * right. left.
      * apply elem_of_cons in IHin as [E|IHin]; [rewrite E; left|]. right. by right.
    + intros y Hy. rewrite !elem_of_cons in Hy.
      destruct Hy as [->|[->|Hy]].
      * eapply Qle_trans; [|apply Q.le_max_r]. apply IHle. left.
      * apply Q.le_max_l.
      * eapply Qle_trans; [|apply Q.le_max_r]. apply IHle. by right.
Qed.

Section Statistics.
Context `{Library}.

(** Minimum and maximum select a value that bounds the others; mean and
    sum are the library's, of the values that are present; a bucket
    without a value has no mean, minimum or maximum. *)
Lemma agg_stat_min (xs : list (option Q)) : is_min (dropna xs) (agg_stat Min xs).
Proof. unfold agg_stat. destruct (dropna xs); [done|apply q_min_spec]. Qed.

Lemma agg_stat_max (xs : list (option Q)) : is_max (dropna xs) (agg_stat Max xs).
Proof. unfold agg_stat. destruct (dropna xs); [done|apply q_max_spec]. Qed.

Lemma agg_stat_mean (xs : list (option Q)) :
  dropna xs ≠ [] → agg_stat Mean xs = Some (float_mean (dropna xs)).
Proof. unfold agg_stat. by destruct (dropna xs). Qed.

Lemma agg_stat_sum (xs : list (option Q)) : agg_stat Sum xs = Some (float_sum (dropna xs)).
Proof. done. Qed.

Lemma agg_stat_missing (s : Stat) (xs : list (option Q)) :
  s ≠ Sum → agg_stat s xs = None ↔ dropna xs = [].
Proof. unfold agg_stat. by destruct s, (dropna xs). Qed.
End Statistics.

(** An all-missing bucket: no mean, minimum or maximum; the sum is 0. *)
Lemma agg_stat_all_missing (s : Stat) (xs : list (option Q)) :
  (∀ x, x ∈ xs → x = None) →
  agg_stat s xs = match s with Sum => Some 0%Q | _ => None end.
Proof.
  intros Hx. unfold agg_stat. rewrite (dropna_all_missing xs Hx). by destruct s.
Qed.

(** ** Exact arithmetic and the stable sort *)

Lemma rint_spec (x : Q) : (x - (1 # 2) <= inject_Z (rint x) <= x + (1 # 2))%Q.
Proof.
  unfold rint. pose proof (Qfloor_le x) as Hlo. pose proof (Qlt_floor x) as Hhi.
  rewrite inject_Z_plus in Hhi. change (inject_Z 1) with 1%Q in Hhi.
  destruct ((x - inject_Z (Qfloor x)) ?= 1 # 2)%Q eqn:E.
  - apply Qeq_alt in E. destruct (Z.even (Qfloor x)); rewrite ?inject_Z_plus;
      change (inject_Z 1) with 1%Q; lra.
  - apply Qlt_alt in E. lra.
  - apply Qgt_alt in E. rewrite inject_Z_plus. change (inject_Z 1) with 1%Q. lra.
Qed.

Lemma rint_proper (x y : Q) : (x == y)%Q → rint x = rint y.
Proof.
  intros E. unfold rint. rewrite (Qfloor_comp _ _ E).
  assert ((x - inject_Z (Qfloor y) ?= 1 # 2) = (y - inject_Z (Qfloor y) ?= 1 # 2))%Q as ->;
    [|done].
  by rewrite E.
Qed.

Lemma rint_integer (z : Z) : rint (inject_Z z) = z.
Proof.
  unfold rint. rewrite Qfloor_Z.
  assert ((inject_Z z - inject_Z z ?= 1 # 2)%Q = Lt) as ->; [|done].
  apply (proj1 (Qlt_alt _ _)). generalize (inject_Z z). intros q. lra.
Qed.

Lemma round2_eq (x : Q) : (round2 x == inject_Z (rint (x * 100)) / 100)%Q.
Proof. apply Qred_correct. Qed.

Lemma round2_half_hundredth (x : Q) : (Qabs (round2 x - x) <= 1 # 200)%Q.
Proof.
  rewrite round2_eq. apply Qabs_Qle_condition.
  pose proof (rint_spec (x * 100)) as H. set (n := inject_Z (rint (x * 100))) in *.
  assert (n / 100 == n * (1 # 100))%Q as -> by (unfold Qdiv; reflexivity).
  lra.
Qed.

Lemma round2_proper (x y : Q) : (x == y)%Q → round2 x = round2 y.
Proof.
  intros E. apply Qred_complete.
  rewrite (rint_proper (x * 100) (y * 100)); [reflexivity|]. by rewrite E.
Qed.

Lemma round2_whole (z : Z) : round2 (inject_Z z) = inject_Z z.
Proof.
  rewrite <- (Qcanon.Qred_identity (inject_Z z)) at 2 by apply Z.gcd_1_r.
  apply Qred_complete.
  rewrite (rint_proper (inject_Z z * 100) (inject_Z (z * 100)))
    by (rewrite inject_Z_mult; reflexivity).
  rewrite rint_integer, inject_Z_mult. change (inject_Z 100) with 100%Q. field.
Qed.

Lemma q_sum_whole (zs : list Z) : (q_sum (inject_Z <$> zs) == inject_Z (z_sum zs))%Q.
Proof.
  induction zs as [|z zs IH]; [reflexivity|].
  cbn [fmap list_fmap q_sum z_sum foldr]. fold (q_sum (inject_Z <$> zs)).
  fold (z_sum zs). by rewrite IH, inject_Z_plus.
Qed.

Lemma q_sum_abs_nonneg (xs : list Q) : (0 <= q_sum (Qabs <$> xs))%Q.
Proof.
  induction xs as [|x xs IH]; [apply Qle_refl|].
  cbn [fmap list_fmap q_sum foldr]. fold (q_sum (Qabs <$> xs)).
  pose proof (Qabs_nonneg x). lra.
Qed.

Lemma q_sum_constant (v : Q) (vs : list Q) :
  (∀ y, y ∈ vs → y = v) → (q_sum vs == inject_Z (Z.of_nat (length vs)) * v)%Q.
Proof.
  induction vs as [|y vs IH]; intros Hv; simpl q_sum.
  - change (inject_Z (Z.of_nat (length []))) with 0%Q. lra.
  - rewrite (Hv y) by left. rewrite IH by (intros z Hz; apply Hv; by right).
    rewrite length_cons, Nat2Z.inj_succ, <- Z.add_1_r, inject_Z_plus.
    change (inject_Z 1) with 1%Q. lra.
Qed.

(** Exact arithmetic has the guarantees of float64, and the stable sort
    those of a sort. *)
#[global] Instance ideal_float64 : @Float64Laws ideal.
Proof.
  split.
  - intros zs _. apply q_sum_whole.
  - intros zs m Hne _ Hsum. cbn [float_mean ideal].
    rewrite q_sum_whole, Hsum, length_fmap, inject_Z_mult.
    assert (~ inject_Z (Z.of_nat (length zs)) == 0)%Q as Hn.
    { destruct zs; [done|]. unfold Qeq. simpl. lia. }
    field. exact Hn.
  - intros x z E _. cbn [round2 ideal].
    change (round_half_even x) with (@round2 ideal x).
    rewrite (round2_proper x (inject_Z z) E). apply round2_whole.
  - intros xs _ _. cbn [float_sum ideal].
    assert (q_sum xs - q_sum xs == 0)%Q as -> by ring. change (Qabs 0) with 0%Q.
    pose proof (q_sum_abs_nonneg xs).
    assert (0 <= inject_Z (Z.of_nat (length xs)))%Q.
    { change 0%Q with (inject_Z 0). rewrite <- Zle_Qle. lia. }
    apply Qmult_le_0_compat; [|done]. apply Qmult_le_0_compat; [done|]. done.
  - intros x _. pose proof (round2_half_hundredth x) as Hr.
    pose proof (Qabs_nonneg x).
    assert (0 <= Qabs x * (1 # 2 ^ 51))%Q by (apply Qmult_le_0_compat; done).
    change (@round2 ideal x) with (round2 x). lra.
Qed.

#[global] Instance ideal_sort : @SortLaws ideal.
Proof.
  split.
  - intros ks. apply argsort_perm.
  - intros ks. cbn [nargsort ideal]. rewrite take_argsort. apply sorted_keys_sorted.
Qed.

(** ** The daily summary *)

Section Summary.
Variables (h : Heap) (r : loc) (df : DataFrame) (ts : list (option Timestamp)).
Hypothesis Hr : h !! r = Some df.
Hypothesis Ht : get_col "time" df = Some (Datetime64 ts).

Lemma has_time : mem "time" (columns df) = true.
Proof. apply mem_elem_of, get_col_is_Some. by eexists. Qed.


(** On an hourly table the summary is returned as a new object. *)
Lemma get_daily_summary_eq :
  hourly_table df ts →
  let h1 := <[r := with_date df ts]> h in
  get_daily_summary r h
  = (Ok (fresh (dom h1)), <[fresh (dom h1) := daily_summary df ts]> h1).
Proof.
  intros Hdf h1.
  unfold get_daily_summary, mbind, st_bind, load at 1. rewrite Hr, has_time.
  cbn [negb]. unfold lift at 1, column. rewrite Ht. cbn [mbind result_bind to_datetime].
  unfold assign_col, mbind, st_bind, load at 1, store. rewrite Hr.
  unfold load. rewrite lookup_insert_eq. fold (with_date df ts). fold h1.
  set (dates := map (fmap date_of) ts).
  assert (NoDup (columns (with_date df ts))) as Hnd by apply NoDup_set_col, Hdf.
  assert (get_col "date" (with_date df ts) = Some (DateObj dates)) as Hg.
  { unfold with_date. by rewrite get_col_set_col. }
  unfold groupby. rewrite Hg.
  rewrite (hourly_numeric_cols df ["date"]); [|done|].
  2:{ unfold with_date. rewrite drop_cols_set_col by (right; left).
      apply (drop_cols_absent df). intros c ->%list_elem_of_singleton. apply Hdf. }
  destruct (hourly_stat_frame df ts Hdf dates "date" [Mean; Min; Max; Sum])
    as (-> & Hl & Hk).
  { solve_NoDup. } { right; left. }
  cbn [mbind result_bind]. unfold lift at 1. unfold reset_index.
  rewrite (proj2 (mem_not_elem_of _ _) Hk). unfold lift, alloc. done.
Qed.
End Summary.

(** ** Calendar dates and months *)

(** The bucket keys of the code are the calendar date and the calendar
    month of the timestamp. *)
Lemma on_date_spec (d : Date) (t : Timestamp) : on_date d t = true ↔ date_of t = d.
Proof.
  destruct d as [y m d], t as [y' m' d' h' n']. unfold on_date, date_of. simpl.
  rewrite !andb_true_iff, !Z.eqb_eq. split; [by intros [[-> ->] ->]|by intros [= -> -> ->]].
Qed.

Lemma in_month_spec (m : Month) (t : Timestamp) : in_month m t = true ↔ period_of t = m.
Proof.
  destruct m as [y m], t as [y' m' d' h' n']. unfold in_month, period_of. simpl.
  rewrite !andb_true_iff, !Z.eqb_eq. split; [by intros [-> ->]|by intros [= -> ->]].
Qed.

Section CalendarBuckets.
Context {K : Type} `{KeyOrder K}.
Variables (f : Timestamp → K) (p : K → Timestamp → bool).
Hypothesis Hp : ∀ g t, p g t = true ↔ f t = g.

Lemma stamped_key (g : K) (t : option Timestamp) :
  key_eqb (f <$> t) (Some g) = stamped (p g) t.
Proof.
  destruct t as [t|]; [|done]. change (key_eqb (f t) g = p g t).
  destruct (key_eqb (f t) g) eqn:E1, (p g t) eqn:E2; try done.
  - apply key_eqb_eq, Hp in E1. congruence.
  - apply Hp, key_eqb_eq in E2. congruence.
Qed.

Lemma bucket_values_where (g : K) (ts : list (option Timestamp)) (xs : list (option Q)) :
  bucket g (map (fmap f) ts) xs = values_where (p g) ts xs.
Proof.
  unfold bucket, values_where. revert xs.
  induction ts as [|t ts IH]; intros [|x xs]; try done.
  cbn [map zip zip_with List.filter fst]. rewrite stamped_key.
  destruct (stamped (p g) t); cbn [fmap list_fmap snd]; by rewrite <- IH.
Qed.

Lemma elem_of_calendar_keys (g : K) (ts : list (option Timestamp)) :
  g ∈ group_keys (map (fmap f) ts) ↔ ∃ t, Some t ∈ ts ∧ p g t = true.
Proof.
  rewrite elem_of_group_keys. change (map ?h ?l) with (h <$> l).
  rewrite list_elem_of_fmap. split.
  - intros ([t|] & E & Hin); [|done]. injection E as E. exists t. split; [done|].
    by apply Hp.
  - intros (t & Hin & Ht). exists (Some t). split; [|done].
    apply Hp in Ht. by rewrite <- Ht.
Qed.

Lemma values_where_length (g : K) (ts : list (option Timestamp)) (xs : list (option Q)) :
  length ts = length xs →
  length (values_where (p g) ts xs) = length (List.filter (stamped (p g)) ts).
Proof.
  unfold values_where. rewrite length_fmap. revert xs.
  induction ts as [|t ts IH]; intros [|x xs] Hlen; try done.
  injection Hlen as Hlen. cbn [zip zip_with List.filter fst].
  destruct (stamped (p g) t); simpl; by rewrite (IH xs Hlen).
Qed.
End CalendarBuckets.

(** ** Daily and monthly resampling *)

Ltac solve_merged_table :=
  split;
  [ reflexivity
  | solve_NoDup
  | repeat constructor
  | intros c s Hin Hc;
    repeat (apply elem_of_cons in Hin as [Hin|Hin]; [by injection Hin as -> ->|]);
    by apply elem_of_nil in Hin ].

Ltac solve_absent :=
  intros Hin;
  repeat (apply elem_of_cons in Hin as [Hin|Hin]; [discriminate Hin|]);
  by apply elem_of_nil in Hin.

Ltac solve_hourly_table :=
  split;
  [ reflexivity
  | solve_NoDup
  | repeat constructor
  | intros c s Hin Hc;
    repeat (apply elem_of_cons in Hin as [Hin|Hin]; [by injection Hin as -> ->|]);
    by apply elem_of_nil in Hin
  | split; solve_absent
  | eexists; split; [right; left|done] ].

Lemma bind_length_const {A B} (f : A → list B) (l : list A) (n : nat) :
  (∀ x, length (f x) = n) → length (l ≫= f) = (n * length l)%nat.
Proof.
  intros Hf. induction l as [|x l IH]; [simpl; lia|].
  rewrite bind_cons, length_app, Hf, IH. simpl. lia.
Qed.

(** A month has 24 hours for each of its days, of which it has at most
    31. *)
Lemma hours_of_month_length (m : Month) :
  Z.of_nat (length (hours_of_month m)) = (24 * Z.max 0 (days_in_month m))%Z.
Proof.
  unfold hours_of_month.
  rewrite (bind_length_const _ _ 24), length_seqZ; [lia|].
  intros d. by rewrite (bind_length_const _ _ 1).
Qed.

Lemma days_in_month_bounds (m : Month) : (0 < days_in_month m ≤ 31)%Z.
Proof.
  unfold days_in_month. destruct (m_month m) as [|[[[[]|[]|]|[[]|[]|]|]|[[[]|[]|]|[[]|[]|]|]|]|];
    try destruct (is_leap _); lia.
Qed.

Lemma dropna_all_present (v : Q) (xs : list (option Q)) :
  (∀ x, x ∈ xs → x = Some v) →
  length (dropna xs) = length xs ∧ ∀ y, y ∈ dropna xs → y = v.
Proof.
  intros Hx. split.
  - induction xs as [|x xs IH]; [done|]. unfold dropna in *. simpl.
    rewrite (Hx x) by left. simpl. f_equal. apply IH. intros y Hy. apply Hx. by right.
  - intros y Hy. unfold dropna in Hy. apply list_elem_of_omap in Hy as (x & Hin & Hx').
    apply Hx in Hin. subst x. by injection Hx' as <-.
Qed.

Lemma all_equal_replicate {A} (v : A) (l : list A) :
  (∀ y, y ∈ l → y = v) → l = replicate (length l) v.
Proof.
  induction l as [|x l IH]; intros Hl; [done|]. simpl.
  rewrite (Hl x) by left. f_equal. apply IH. intros y Hy. apply Hl. by right.
Qed.

Lemma z_sum_replicate (n : nat) (z : Z) : z_sum (replicate n z) = (Z.of_nat n * z)%Z.
Proof.
  induction n as [|n IH]; [done|].
  change (z_sum (replicate (S n) z)) with (z + z_sum (replicate n z))%Z.
  rewrite IH. lia.
Qed.

(** The values of a month whose rows are its hours, each once, all with
    the value [v]: 24 for each day of the month. *)
Lemma full_month_values (ts : list (option Timestamp)) (xs : list (option Q))
    (ym : Month) (v : Q) :
  length xs = length ts →
  Permutation (List.filter (stamped (in_month ym)) ts) (Some <$> hours_of_month ym) →
  (∀ x, x ∈ values_where (in_month ym) ts xs → x = Some v) →
  dropna (values_where (in_month ym) ts xs)
  = replicate (Z.to_nat (24 * days_in_month ym)) v.
Proof.
  intros Hlen Hperm Hv. destruct (dropna_all_present v _ Hv) as [Hl Hall].
  rewrite (all_equal_replicate v _ Hall), Hl. f_equal.
  rewrite (values_where_length in_month) by done.
  rewrite (Permutation_length Hperm), length_fmap.
  pose proof (hours_of_month_length ym). pose proof (days_in_month_bounds ym). lia.
Qed.

Section Float64.
Context `{Library} `{!Float64Laws}.

(** Whole numbers pass through the sum, the mean and the rounding
    unchanged. *)
Lemma round2_float_sum_whole (zs : list Z) :
  (z_sum (Z.abs <$> zs) ≤ 2 ^ 53)%Z → (Z.abs (z_sum zs) ≤ 2 ^ 46)%Z →
  round2 (float_sum (inject_Z <$> zs)) = inject_Z (z_sum zs).
Proof. intros Hs Hr. apply round2_integer; [by apply float_sum_integers|done]. Qed.

Lemma round2_float_mean_whole (zs : list Z) (m : Z) :
  zs ≠ [] → (z_sum (Z.abs <$> zs) ≤ 2 ^ 53)%Z →
  z_sum zs = (m * Z.of_nat (length zs))%Z → (Z.abs m ≤ 2 ^ 46)%Z →
  round2 (float_mean (inject_Z <$> zs)) = inject_Z m.
Proof. intros Hne Hs Hm Hr. apply round2_integer; [by apply float_mean_integers|done]. Qed.

Lemma round2_whole_number (z : Z) : (Z.abs z ≤ 2 ^ 46)%Z → round2 (inject_Z z) = inject_Z z.
Proof. intros Hz. by apply round2_integer. Qed.

(** The rounded sum of [n] copies of a value, for [n] up to the hours of
    a month. *)
Lemma round2_float_sum_replicate_whole (n z : Z) :
  (0 ≤ n)%Z → (Z.abs z * n ≤ 2 ^ 46)%Z →
  round2 (float_sum (replicate (Z.to_nat n) (inject_Z z))) = inject_Z (z * n).
Proof.
  intros Hn Hz. rewrite <- fmap_replicate.
  assert (z_sum (replicate (Z.to_nat n) z) = (z * n)%Z) as Hsum.
  { rewrite z_sum_replicate. lia. }
  rewrite <- Hsum. apply round2_float_sum_whole.
  - rewrite fmap_replicate, z_sum_replicate. lia.
  - rewrite Hsum. lia.
Qed.

Ltac eval_powers :=
  repeat match goal with
         | |- context [Pos.pow ?a ?b] =>
             let v := eval vm_compute in (Pos.pow a b) in change (Pos.pow a b) with v
         | H : context [Pos.pow ?a ?b] |- _ =>
             let v := eval vm_compute in (Pos.pow a b) in change (Pos.pow a b) with v in H
         end.

Lemma round2_float_sum_replicate_close (n : Z) (v : Q) :
  (0 ≤ n ≤ 744)%Z → (Qabs v <= inject_Z (2 ^ 900))%Q →
  (Qabs (round2 (float_sum (replicate (Z.to_nat n) v)) - v * inject_Z n)
   <= (1 # 200) + Qabs (v * inject_Z n) * (1 # 2 ^ 40))%Q.
Proof.
  intros Hn Hv. set (xs := replicate (Z.to_nat n) v).
  assert (Z.of_nat (length xs) = n) as Hlen.
  { unfold xs. rewrite length_replicate. lia. }
  assert (q_sum xs == v * inject_Z n)%Q as Hsum.
  { rewrite (q_sum_constant v xs), Hlen; [ring|].
    intros y Hy. by apply elem_of_replicate in Hy as [-> _]. }
  assert (q_sum (Qabs <$> xs) == Qabs (v * inject_Z n))%Q as Habs.
  { unfold xs. rewrite fmap_replicate.
    rewrite (q_sum_constant (Qabs v)), length_replicate, Z2Nat.id by
      first [lia|intros y Hy; by apply elem_of_replicate in Hy as [-> _]].
    rewrite Qabs_Qmult, (Qabs_pos (inject_Z n)); [ring|].
    change 0%Q with (inject_Z 0). rewrite <- Zle_Qle. lia. }
  pose proof (float_sum_close xs) as Hs. rewrite Hlen, Hsum, Habs in Hs.
  specialize (Hs ltac:(lia)).
  specialize (Hs ltac:(intros x Hx; by apply elem_of_replicate in Hx as [-> _])).
  set (s := float_sum xs) in *. set (e := (v * inject_Z n)%Q) in *.
  pose proof (Qabs_nonneg e) as Hb. set (b := Qabs e) in *.
  assert (inject_Z n * (1 # 2 ^ 52) * b <= 744 * (1 # 2 ^ 52) * b)%Q as Hn'.
  { apply Qmult_le_compat_r; [|done]. apply Qmult_le_compat_r; [|done].
    change 744%Q with (inject_Z 744). rewrite <- Zle_Qle. lia. }
  assert (b == inject_Z n * Qabs v)%Q as Hb'.
  { unfold b, e. rewrite Qabs_Qmult, (Qabs_pos (inject_Z n)); [ring|].
    change 0%Q with (inject_Z 0). rewrite <- Zle_Qle. lia. }
  assert (inject_Z n * Qabs v <= 744 * Qabs v)%Q as Hn''.
  { apply Qmult_le_compat_r; [|apply Qabs_nonneg].
    change 744%Q with (inject_Z 744). rewrite <- Zle_Qle. lia. }
  assert (1488 * inject_Z (2 ^ 900) <= inject_Z (2 ^ 1000))%Q as Hbig.
  { change 1488%Q with (inject_Z 1488). rewrite <- inject_Z_mult, <- Zle_Qle.
    by vm_compute. }
  apply Qabs_Qle_condition in Hs as [Hs1 Hs2].
  assert (- b <= e <= b)%Q as [He1 He2] by (apply Qabs_Qle_condition, Qle_refl).
  assert (Qabs s <= b + 744 * (1 # 2 ^ 52) * b)%Q as Hsb.
  { apply Qabs_Qle_condition. split; lra. }
  pose proof (round2_close s) as Hr.
  assert (Qabs s <= inject_Z (2 ^ 1000))%Q as Hfin.
  { clear Hr Hs1 Hs2 Hn'. revert Hsb Hb' Hn'' Hv Hbig Hb.
    generalize (inject_Z (2 ^ 900)), (inject_Z (2 ^ 1000)), (Qabs s).
    intros X Y t. generalize (inject_Z n * Qabs v)%Q, (Qabs v). intros w a.
    intros. eval_powers. lra. }
  specialize (Hr Hfin).
  apply Qabs_Qle_condition in Hr as [Hr1 Hr2].
  apply Qabs_Qle_condition. clear Hfin Hbig Hv Hn'' Hb'.
  revert Hr1 Hr2 Hsb Hs1 Hs2 Hn'.
  generalize (Qabs s), (inject_Z n * (1 # 2 ^ 52) * b)%Q, (round2 s). intros t u r.
  intros. eval_powers. split; lra.
Qed.

(** C7 (amended).  For every merged hourly table with at least one
    variable column, none of them labelled ['date'], the daily resampling
    returns one row per calendar date on which the table has a timestamp,
    in ascending order of the dates and stamped with midnight of the date,
    with the columns time, v_mean, v_min and v_max for every variable v.
    The cell of a statistic of v on a date is the library's rounding to two
    decimals of that statistic of the values of v in the rows of that date:
    the least or the greatest of the values, or their mean as the library
    computes it; it is missing when the date has no value of v.  With the
    guarantees of float64, the values 10, 20 and 30 on one date give mean
    20, minimum 10 and maximum 30. *)
Theorem daily_resampling (df : DataFrame) (ts : list (option Timestamp)) :
  merged_table df ts → variables df ≠ [] → "date" ∉ columns df →
  ∃ out days,
    resample_to_daily df = Ok out
    ∧ columns out
      = "time" :: flat_map (λ v, [v +:+ "_mean"; v +:+ "_min"; v +:+ "_max"])
                    (columns (variables df))
    ∧ time_keys out
      = Ok (Some <$> ((λ d, mkTs (d_year d) (d_month d) (d_day d) 0 0) <$> days))
    ∧ nrows out = length days
    ∧ StronglySorted key_lt days
    ∧ (∀ d, d ∈ days ↔ ∃ t, Some t ∈ ts ∧ on_date d t = true)
    ∧ (∀ c xs j d s,
         (c, Float64 xs) ∈ df → c ≠ "time" → days !! j = Some d →
         s ∈ [Mean; Min; Max] →
         cell (stat_label c s) j out
         = Some (round2 <$> agg_stat s (values_where (on_date d) ts xs)))
    ∧ (∀ xs,
         is_min (dropna xs) (agg_stat Min xs)
         ∧ is_max (dropna xs) (agg_stat Max xs)
         ∧ (dropna xs ≠ [] → agg_stat Mean xs = Some (float_mean (dropna xs)))
         ∧ (∀ s, s ∈ [Mean; Min; Max] → agg_stat s xs = None ↔ dropna xs = []))
    ∧ (∀ c xs j d,
         (c, Float64 xs) ∈ df → c ≠ "time" → days !! j = Some d →
         dropna (values_where (on_date d) ts xs) = [10; 20; 30]%Q →
         cell (c +:+ "_mean") j out = Some (Some 20%Q)
         ∧ cell (c +:+ "_min") j out = Some (Some 10%Q)
         ∧ cell (c +:+ "_max") j out = Some (Some 30%Q)).
Proof.
  intros Hdf Hv Hdate.
  set (dates := map (fmap date_of) ts).
  exists (resampled datetime_of_date dates [Mean; Min; Max] df), (group_keys dates).
  split; [by apply merged_resample_to_daily|].
  split; [apply (merged_columns_resampled df ts Hdf)|].
  split; [done|]. split; [simpl; by rewrite !length_fmap|].
  split; [apply group_keys_sorted|].
  split; [intros d; apply (elem_of_calendar_keys date_of on_date on_date_spec)|].
  assert (∀ c xs j d s,
            (c, Float64 xs) ∈ df → c ≠ "time" → group_keys dates !! j = Some d →
            s ∈ [Mean; Min; Max] →
            cell (stat_label c s) j (resampled datetime_of_date dates [Mean; Min; Max] df)
            = Some (round2 <$> agg_stat s (values_where (on_date d) ts xs))) as Hcell.
  { intros c xs j d s Hin Hc Hd Hs.
    destruct (merged_stat_cell df ts Hdf date_of "time"
                (Datetime64 (Some <$> (datetime_of_date <$> group_keys dates)))
                [Mean; Min; Max] c xs j d s) as (ys & Hys & Hj); try done.
    { solve_NoDup. } { left. }
    unfold cell, resampled. fold dates in Hys. rewrite Hys, Hj.
    by rewrite (bucket_values_where date_of on_date on_date_spec). }
  split; [exact Hcell|]. split.
  { intros xs. split; [apply agg_stat_min|]. split; [apply agg_stat_max|].
    split; [apply agg_stat_mean|]. intros s Hs. apply agg_stat_missing.
    intros ->. revert Hs. solve_absent. }
  intros c xs j d Hin Hc Hd Hvals.
  pose proof (Hcell c xs j d Mean Hin Hc Hd ltac:(left)) as Hmean.
  pose proof (Hcell c xs j d Min Hin Hc Hd ltac:(right; left)) as Hmin.
  pose proof (Hcell c xs j d Max Hin Hc Hd ltac:(right; right; left)) as Hmax.
  unfold agg_stat in Hmean, Hmin, Hmax. rewrite Hvals in Hmean, Hmin, Hmax.
  split; [|split].
  - etrans; [exact Hmean|]. cbn [fmap option_fmap option_map]. do 2 f_equal.
    apply (round2_float_mean_whole [10; 20; 30]%Z 20); by vm_compute.
  - etrans; [exact Hmin|]. cbn [fmap option_fmap option_map]. do 2 f_equal.
    apply (round2_whole_number 10). by vm_compute.
  - etrans; [exact Hmax|]. cbn [fmap option_fmap option_map]. do 2 f_equal.
    apply (round2_whole_number 30). by vm_compute.
Qed.

(** C8 (amended).  For every merged hourly table with at least one
    variable column, none of them labelled ['date'] or ['year_month'], the
    monthly resampling returns one row per calendar month in which the
    table has a timestamp, in ascending order of the months and stamped
    with the first instant of the month, with the columns time, v_mean,
    v_min, v_max and v_sum for every variable v.  The cell of a statistic
    of v in a month is the library's rounding to two decimals of that
    statistic of the values of v in the rows of that month.  When the rows
    of a month are its hours, each once, all with the value x, the sum of
    the month is the rounded float64 sum of 24 values x for each day of the
    month; with the guarantees of float64 it is x times 24 times the number
    of days, exactly when x is a whole number and within half a hundredth
    and a relative error of 2^-40 otherwise. *)
Theorem monthly_resampling (df : DataFrame) (ts : list (option Timestamp)) :
  merged_table df ts → variables df ≠ [] →
  "date" ∉ columns df → "year_month" ∉ columns df →
  ∃ out months,
    resample_to_monthly df = Ok out
    ∧ columns out
      = "time" :: flat_map (λ v, [v +:+ "_mean"; v +:+ "_min"; v +:+ "_max"; v +:+ "_sum"])
                    (columns (variables df))
    ∧ time_keys out
      = Ok (Some <$> ((λ m, mkTs (m_year m) (m_month m) 1 0 0) <$> months))
    ∧ nrows out = length months
    ∧ StronglySorted key_lt months
    ∧ (∀ m, m ∈ months ↔ ∃ t, Some t ∈ ts ∧ in_month m t = true)
    ∧ (∀ c xs j m s,
         (c, Float64 xs) ∈ df → c ≠ "time" → months !! j = Some m →
         s ∈ [Mean; Min; Max; Sum] →
         cell (stat_label c s) j out
         = Some (round2 <$> agg_stat s (values_where (in_month m) ts xs)))
    ∧ (∀ xs,
         is_min (dropna xs) (agg_stat Min xs)
         ∧ is_max (dropna xs) (agg_stat Max xs)
         ∧ (dropna xs ≠ [] → agg_stat Mean xs = Some (float_mean (dropna xs)))
         ∧ agg_stat Sum xs = Some (float_sum (dropna xs))
         ∧ (∀ s, s ∈ [Mean; Min; Max] → agg_stat s xs = None ↔ dropna xs = []))
    ∧ (∀ c xs j m x,
         (c, Float64 xs) ∈ df → c ≠ "time" → months !! j = Some m →
         Permutation (List.filter (stamped (in_month m)) ts) (Some <$> hours_of_month m) →
         (∀ y, y ∈ values_where (in_month m) ts xs → y = Some x) →
         let n := (24 * days_in_month m)%Z in
         let total := round2 (float_sum (replicate (Z.to_nat n) x)) in
         cell (c +:+ "_sum") j out = Some (Some total)
         ∧ (∀ z, x = inject_Z z → (Z.abs z * n ≤ 2 ^ 46)%Z → total = inject_Z (z * n))
         ∧ ((Qabs x <= inject_Z (2 ^ 900))%Q →
            (Qabs (total - x * inject_Z n)
             <= (1 # 200) + Qabs (x * inject_Z n) * (1 # 2 ^ 40))%Q)).
Proof.
  intros Hdf Hv Hdate Hym.
  set (keys := map (fmap period_of) ts).
  exists (resampled datetime_of_period keys [Mean; Min; Max; Sum] df), (group_keys keys).
  split; [by apply merged_resample_to_monthly|].
  split; [apply (merged_columns_resampled df ts Hdf)|].
  split; [done|]. split; [simpl; by rewrite !length_fmap|].
  split; [apply group_keys_sorted|].
  split; [intros m; apply (elem_of_calendar_keys period_of in_month in_month_spec)|].
  assert (∀ c xs j m s,
            (c, Float64 xs) ∈ df → c ≠ "time" → group_keys keys !! j = Some m →
            s ∈ [Mean; Min; Max; Sum] →
            cell (stat_label c s) j
              (resampled datetime_of_period keys [Mean; Min; Max; Sum] df)
            = Some (round2 <$> agg_stat s (values_where (in_month m) ts xs))) as Hcell.
  { intros c xs j m s Hin Hc Hm Hs.
    destruct (merged_stat_cell df ts Hdf period_of "time"
                (Datetime64 (Some <$> (datetime_of_period <$> group_keys keys)))
                [Mean; Min; Max; Sum] c xs j m s) as (ys & Hys & Hj); try done.
    { solve_NoDup. } { left. }
    unfold cell, resampled. fold keys in Hys. rewrite Hys, Hj.
    by rewrite (bucket_values_where period_of in_month in_month_spec). }
  split; [exact Hcell|]. split.
  { intros xs. split; [apply agg_stat_min|]. split; [apply agg_stat_max|].
    split; [apply agg_stat_mean|]. split; [apply agg_stat_sum|].
    intros s Hs. apply agg_stat_missing. intros ->. revert Hs. solve_absent. }
  intros c xs j m x Hin Hc Hm Hperm Hx n total.
  pose proof (days_in_month_bounds m) as Hdays.
  split; [|split].
  - change (c +:+ "_sum") with (stat_label c Sum).
    rewrite (Hcell c xs j m Sum Hin Hc Hm) by (rewrite !elem_of_cons; auto).
    rewrite agg_stat_sum. cbn [fmap option_fmap option_map]. unfold total, n.
    do 4 f_equal.
    apply full_month_values; [|done..]. by apply (merged_length_column df ts Hdf c).
  - intros z -> Hz. apply round2_float_sum_replicate_whole; [lia|done].
  - intros Hbound. apply round2_float_sum_replicate_close; [lia|done].
Qed.
End Float64.

(** The daily resampling of three hours of one day and two of the next,
    and a run of the amended statement on this table. *)
Example daily_of_two_days :
  resample_to_daily ex_two_days
  = Ok [ ("time", Datetime64 [Some (mkTs 2024 1 1 0 0); Some (mkTs 2024 1 2 0 0)]);
         ("temperature_2m_mean", Float64 [Some 20; Some 5]%Q);
         ("temperature_2m_min", Float64 [Some 10; Some 4]%Q);
         ("temperature_2m_max", Float64 [Some 30; Some 6]%Q) ].
Proof. by vm_compute. Qed.

(** C7, as stated, fails: a merged table can be without a variable, and
    the daily resampling of such a table raises; and a variable labelled
    ['date'] is overwritten by the dates of the rows and gets no
    statistics. *)
Lemma daily_resampling_without_statistics :
  resample_to_daily ex_time_only = Raise (ValueError "No objects to concatenate")
  ∧ ∃ out, resample_to_daily ex_date_variable = Ok out
           ∧ columns out = ["time"; "rain_mean"; "rain_min"; "rain_max"].
Proof. split; [by vm_compute|]. eexists. split; by vm_compute. Qed.

Lemma daily_resampling_witness :
  let ts := [hour_of 1 0; hour_of 1 1; hour_of 1 2; hour_of 2 0; hour_of 2 1] in
  ∃ out days,
    resample_to_daily ex_two_days = Ok out
    ∧ columns out
      = "time" :: flat_map (λ v, [v +:+ "_mean"; v +:+ "_min"; v +:+ "_max"])
                    (columns (variables ex_two_days))
    ∧ time_keys out
      = Ok (Some <$> ((λ d, mkTs (d_year d) (d_month d) (d_day d) 0 0) <$> days))
    ∧ nrows out = length days
    ∧ StronglySorted key_lt days
    ∧ (∀ d, d ∈ days ↔ ∃ t, Some t ∈ ts ∧ on_date d t = true)
    ∧ (∀ c xs j d s,
         (c, Float64 xs) ∈ ex_two_days → c ≠ "time" → days !! j = Some d →
         s ∈ [Mean; Min; Max] →
         cell (stat_label c s) j out
         = Some (round2 <$> agg_stat s (values_where (on_date d) ts xs)))
    ∧ (∀ xs,
         is_min (dropna xs) (agg_stat Min xs)
         ∧ is_max (dropna xs) (agg_stat Max xs)
         ∧ (dropna xs ≠ [] → agg_stat Mean xs = Some (float_mean (dropna xs)))
         ∧ (∀ s, s ∈ [Mean; Min; Max] → agg_stat s xs = None ↔ dropna xs = []))
    ∧ (∀ c xs j d,
         (c, Float64 xs) ∈ ex_two_days → c ≠ "time" → days !! j = Some d →
         dropna (values_where (on_date d) ts xs) = [10; 20; 30]%Q →
         cell (c +:+ "_mean") j out = Some (Some 20%Q)
         ∧ cell (c +:+ "_min") j out = Some (Some 10%Q)
         ∧ cell (c +:+ "_max") j out = Some (Some 30%Q)).
Proof.
  apply (daily_resampling (H := ideal) ex_two_days
           [hour_of 1 0; hour_of 1 1; hour_of 1 2; hour_of 2 0; hour_of 2 1]).
  - solve_merged_table.
  - discriminate.
  - solve_absent.
Defined.

(** A month of whole hours, and the last hour of a month with the first
    two of the next. *)
Example january_sum :
  resample_to_monthly ex_january
  = Ok [ ("time", Datetime64 [Some (mkTs 2024 1 1 0 0)]);
         ("precipitation_mean", Float64 [Some (1 # 2)%Q]);
         ("precipitation_min", Float64 [Some (1 # 2)%Q]);
         ("precipitation_max", Float64 [Some (1 # 2)%Q]);
         ("precipitation_sum", Float64 [Some 372%Q]) ].
Proof. vm_compute. reflexivity. Qed.

Example monthly_of_two_months :
  resample_to_monthly ex_two_months
  = Ok [ ("time", Datetime64 [Some (mkTs 2024 1 1 0 0); Some (mkTs 2024 2 1 0 0)]);
         ("rain_mean", Float64 [Some 1; Some 3]%Q);
         ("rain_min", Float64 [Some 1; Some 2]%Q);
         ("rain_max", Float64 [Some 1; Some 4]%Q);
         ("rain_sum", Float64 [Some 1; Some 6]%Q) ].
Proof. by vm_compute. Qed.

(** C8, as stated, fails: the monthly resampling of a merged table
    without a variable raises, and a variable labelled ['date'] or
    ['year_month'] is overwritten and gets no statistics. *)
Lemma monthly_resampling_without_statistics :
  resample_to_monthly ex_time_only = Raise (ValueError "No objects to concatenate")
  ∧ (∃ out, resample_to_monthly ex_date_variable = Ok out
            ∧ columns out = ["time"; "rain_mean"; "rain_min"; "rain_max"; "rain_sum"])
  ∧ (∃ out, resample_to_monthly ex_year_month_variable = Ok out
            ∧ columns out = ["time"; "rain_mean"; "rain_min"; "rain_max"; "rain_sum"]).
Proof.
  split; [by vm_compute|]. split; eexists; split; by vm_compute.
Qed.

Lemma monthly_resampling_witness :
  let ts := Some <$> hours_of_month (mkMonth 2024 1) in
  ∃ out months,
    resample_to_monthly ex_january = Ok out
    ∧ columns out
      = "time" :: flat_map (λ v, [v +:+ "_mean"; v +:+ "_min"; v +:+ "_max"; v +:+ "_sum"])
                    (columns (variables ex_january))
    ∧ time_keys out
      = Ok (Some <$> ((λ m, mkTs (m_year m) (m_month m) 1 0 0) <$> months))
    ∧ nrows out = length months
    ∧ StronglySorted key_lt months
    ∧ (∀ m, m ∈ months ↔ ∃ t, Some t ∈ ts ∧ in_month m t = true)
    ∧ (∀ c xs j m s,
         (c, Float64 xs) ∈ ex_january → c ≠ "time" → months !! j = Some m →
         s ∈ [Mean; Min; Max; Sum] →
         cell (stat_label c s) j out
         = Some (round2 <$> agg_stat s (values_where (in_month m) ts xs)))
    ∧ (∀ xs,
         is_min (dropna xs) (agg_stat Min xs)
         ∧ is_max (dropna xs) (agg_stat Max xs)
         ∧ (dropna xs ≠ [] → agg_stat Mean xs = Some (float_mean (dropna xs)))
         ∧ agg_stat Sum xs = Some (float_sum (dropna xs))
         ∧ (∀ s, s ∈ [Mean; Min; Max] → agg_stat s xs = None ↔ dropna xs = []))
    ∧ (∀ c xs j m x,
         (c, Float64 xs) ∈ ex_january → c ≠ "time" → months !! j = Some m →
         Permutation (List.filter (stamped (in_month m)) ts) (Some <$> hours_of_month m) →
         (∀ y, y ∈ values_where (in_month m) ts xs → y = Some x) →
         let n := (24 * days_in_month m)%Z in
         let total := round2 (float_sum (replicate (Z.to_nat n) x)) in
         cell (c +:+ "_sum") j out = Some (Some total)
         ∧ (∀ z, x = inject_Z z → (Z.abs z * n ≤ 2 ^ 46)%Z → total = inject_Z (z * n))
         ∧ ((Qabs x <= inject_Z (2 ^ 900))%Q →
            (Qabs (total - x * inject_Z n)
             <= (1 # 200) + Qabs (x * inject_Z n) * (1 # 2 ^ 40))%Q)).
Proof.
  apply (monthly_resampling (H := ideal) ex_january
           (Some <$> hours_of_month (mkMonth 2024 1))).
  - solve_merged_table.
  - discriminate.
  - solve_absent.
  - solve_absent.
Defined.

(** ** Buckets without a value *)

(** C5, as stated, fails for the sum: the only variable of [ex_missing] has
    no value in January 2024, and the monthly sum of that bucket is 0, not
    the missing-value marker. *)
Lemma all_missing_sum_is_zero :
  ∃ out ys,
    resample_to_monthly ex_missing = Ok out
    ∧ bucket (mkMonth 2024 1) (map (fmap period_of) [hour_of 1 0; hour_of 1 1]) [None; None]
      = [None; None]
    ∧ get_col "snowfall_sum" out = Some (Float64 ys)
    ∧ ys !! 0%nat = Some (Some 0%Q).
Proof. do 2 eexists. split; [by vm_compute|]. split; [|split]; reflexivity. Qed.

(** C5 (amended).  For every resampling bucket (calendar date or calendar
    month) and every variable whose values in that bucket are all missing,
    the mean, the minimum and the maximum of that variable in that bucket
    are the missing-value marker; the sum, where the statistic set includes
    it (monthly resampling and the daily summary), is 0. *)
Theorem all_missing_bucket (df : DataFrame) (ts : list (option Timestamp))
    (c : string) (xs : list (option Q)) :
  hourly_table df ts → (c, Float64 xs) ∈ df → c ≠ "time" →
  let dates := map (fmap date_of) ts in
  let months := map (fmap period_of) ts in
  (∀ j d, group_keys dates !! j = Some d →
     (∀ x, x ∈ bucket d dates xs → x = None) →
     ∃ out, resample_to_daily df = Ok out
       ∧ ∀ s, s ∈ [Mean; Min; Max] →
           ∃ ys, get_col (stat_label c s) out = Some (Float64 ys) ∧ ys !! j = Some None)
  ∧ (∀ j m, group_keys months !! j = Some m →
     (∀ x, x ∈ bucket m months xs → x = None) →
     ∃ out, resample_to_monthly df = Ok out
       ∧ (∀ s, s ∈ [Mean; Min; Max] →
            ∃ ys, get_col (stat_label c s) out = Some (Float64 ys) ∧ ys !! j = Some None)
       ∧ ∃ ys, get_col (stat_label c Sum) out = Some (Float64 ys)
               ∧ ys !! j = Some (Some 0%Q))
  ∧ (∀ j d (h : Heap) r, group_keys dates !! j = Some d →
     (∀ x, x ∈ bucket d dates xs → x = None) →
     h !! r = Some df →
     ∃ r' h' out, get_daily_summary r h = (Ok r', h') ∧ h' !! r' = Some out
       ∧ (∀ s, s ∈ [Mean; Min; Max] →
            ∃ ys, get_col (stat_label c s) out = Some (Float64 ys) ∧ ys !! j = Some None)
       ∧ ∃ ys, get_col (stat_label c Sum) out = Some (Float64 ys)
               ∧ ys !! j = Some (Some 0%Q)).
Proof.
  intros Hdf Hin Hc dates months.
  assert (∀ {K} `{KeyOrder K} (f : Timestamp → K) kn idx stats j g s,
            NoDup stats → kn ∈ ["time"; "date"; "year_month"] →
            group_keys (map (fmap f) ts) !! j = Some g →
            (∀ x, x ∈ bucket g (map (fmap f) ts) xs → x = None) →
            s ∈ stats →
            ∃ ys, get_col (stat_label c s)
                    ((kn, idx) :: stat_frame (map (fmap f) ts) stats (variables df))
                  = Some (Float64 ys)
              ∧ ys !! j = Some (match s with Sum => Some 0%Q | _ => None end)) as Hcell.
  { intros K HK HKO f kn idx stats j g s Hst Hkn Hg Hx Hs.
    destruct (stat_cell df ts Hdf f kn idx stats c xs j g s) as (ys & Hys & Hj); try done.
    exists ys. split; [done|]. rewrite Hj, (agg_stat_all_missing s _ Hx). by destruct s. }
  split; [|split].
  - intros j d Hd Hx. eexists. split; [by apply resample_to_daily_eq|].
    intros s Hs. destruct (Hcell _ _ _ date_of "time"
      (Datetime64 (Some <$> (datetime_of_date <$> group_keys dates)))
      [Mean; Min; Max] j d s) as (ys & Hys & Hj); try done; [solve_NoDup|left|].
    exists ys. split; [done|]. rewrite Hj.
    repeat (apply elem_of_cons in Hs as [->|Hs]; [done|]). by apply elem_of_nil in Hs.
  - intros j m Hm Hx. eexists. split; [by apply resample_to_monthly_eq|].
    assert (∀ s, s ∈ [Mean; Min; Max; Sum] →
              ∃ ys, get_col (stat_label c s)
                      (resampled datetime_of_period months [Mean; Min; Max; Sum] df)
                    = Some (Float64 ys)
                ∧ ys !! j = Some (match s with Sum => Some 0%Q | _ => None end)) as Hs'.
    { intros s Hs. apply (Hcell _ _ _ period_of "time" _ _ j m s); try done; [solve_NoDup|left]. }
    split.
    + intros s Hs.
      assert (s ∈ [Mean; Min; Max; Sum] ∧ s ≠ Sum) as [Hs4 Hne].
      { repeat (apply elem_of_cons in Hs as [->|Hs]; [by rewrite !elem_of_cons; auto|]).
        by apply elem_of_nil in Hs. }
      destruct (Hs' s Hs4) as (ys & Hys & Hj).
      exists ys. split; [done|]. rewrite Hj. by destruct s.
    + apply (Hs' Sum). rewrite !elem_of_cons. auto.
  - intros j d h r Hd Hx Hr.
    pose proof (get_daily_summary_eq h r df ts Hr (ht_time _ _ Hdf) Hdf) as Heq.
    cbv zeta in Heq. eexists _, _, _. split; [exact Heq|].
    split; [by rewrite lookup_insert_eq|].
    assert (∀ s, s ∈ [Mean; Min; Max; Sum] →
              ∃ ys, get_col (stat_label c s) (daily_summary df ts) = Some (Float64 ys)
                ∧ ys !! j = Some (match s with Sum => Some 0%Q | _ => None end)) as Hs'.
    { intros s Hs. apply (Hcell _ _ _ date_of "date" _ _ j d s); try done;
        [solve_NoDup|right; left]. }
    split.
    + intros s Hs.
      assert (s ∈ [Mean; Min; Max; Sum] ∧ s ≠ Sum) as [Hs4 Hne].
      { repeat (apply elem_of_cons in Hs as [->|Hs]; [by rewrite !elem_of_cons; auto|]).
        by apply elem_of_nil in Hs. }
      destruct (Hs' s Hs4) as (ys & Hys & Hj).
      exists ys. split; [done|]. rewrite Hj. by destruct s.
    + apply (Hs' Sum). rewrite !elem_of_cons. auto.
Qed.

Lemma all_missing_bucket_witness :
  let ts := [hour_of 1 0; hour_of 1 1] in
  let xs := [None; None] in
  let dates := map (fmap date_of) ts in
  let months := map (fmap period_of) ts in
  (∀ j d, group_keys dates !! j = Some d →
     (∀ x, x ∈ bucket d dates xs → x = None) →
     ∃ out, resample_to_daily ex_missing = Ok out
       ∧ ∀ s, s ∈ [Mean; Min; Max] →
           ∃ ys, get_col (stat_label "snowfall" s) out = Some (Float64 ys)
                 ∧ ys !! j = Some None)
  ∧ (∀ j m, group_keys months !! j = Some m →
     (∀ x, x ∈ bucket m months xs → x = None) →
     ∃ out, resample_to_monthly ex_missing = Ok out
       ∧ (∀ s, s ∈ [Mean; Min; Max] →
            ∃ ys, get_col (stat_label "snowfall" s) out = Some (Float64 ys)
                  ∧ ys !! j = Some None)
       ∧ ∃ ys, get_col (stat_label "snowfall" Sum) out = Some (Float64 ys)
               ∧ ys !! j = Some (Some 0%Q))
  ∧ (∀ j d (h : Heap) r, group_keys dates !! j = Some d →
     (∀ x, x ∈ bucket d dates xs → x = None) →
     h !! r = Some ex_missing →
     ∃ r' h' out, get_daily_summary r h = (Ok r', h') ∧ h' !! r' = Some out
       ∧ (∀ s, s ∈ [Mean; Min; Max] →
            ∃ ys, get_col (stat_label "snowfall" s) out = Some (Float64 ys)
                  ∧ ys !! j = Some None)
       ∧ ∃ ys, get_col (stat_label "snowfall" Sum) out = Some (Float64 ys)
               ∧ ys !! j = Some (Some 0%Q)).
Proof.
  apply (all_missing_bucket ex_missing [hour_of 1 0; hour_of 1 1] "snowfall" [None; None]).
  - solve_hourly_table.
  - right. left.
  - discriminate.
Defined.

(** ** The daily summary and the caller's table *)



(** ** The loop over the groups *)

Section Loop.
Variables (net : Request → Response) (latitude longitude : Q)
          (start_date end_date : Date).

(** One fetch: the request is sent, one line is printed, and the frame, if
    any, is returned; nothing is raised. *)
Lemma fetch_spec (group_name : string) (variables : list string) (w : World) :
  fetch net latitude longitude start_date end_date group_name variables w
  = (Ok (fetched (net (request_for latitude longitude start_date end_date variables))),
     mkWorld (sent w ++ [request_for latitude longitude start_date end_date variables])
             (console w ++ [outcome_line group_name
                              (net (request_for latitude longitude start_date end_date
                                      variables))])).
Proof.
  unfold fetch, mbind, st_bind, requests_get, print, mret, st_ret.
  fold (request_for latitude longitude start_date end_date variables).
  generalize (net (request_for latitude longitude start_date end_date variables)).
  intros [e|status body]; [reflexivity|]. unfold fetched, outcome_line.
  destruct body as [e|[[e|payload]|]], (raise_for_status status); try done.
  by destruct (frame_of_hourly payload).
Qed.

(** The loop: every planned group is requested once, in the order of the
    mapping; the frames of the groups whose fetch yields one are
    appended; nothing is raised. *)
Lemma fetch_groups_spec (active_groups : list (string * bool)) :
  ∀ (all_dataframes : list DataFrame) (w : World),
  fetch_groups net latitude longitude start_date end_date active_groups all_dataframes w
  = (Ok (all_dataframes ++ frames_of net latitude longitude start_date end_date active_groups),
     mkWorld (sent w ++ requests_of latitude longitude start_date end_date active_groups)
             (console w ++ lines_of net latitude longitude start_date end_date active_groups)).
Proof.
  induction active_groups as [|[g inc] l IH]; intros acc w.
  - simpl. unfold frames_of, requests_of, lines_of. simpl. rewrite !app_nil_r. by destruct w.
  - cbn [fetch_groups]. unfold frames_of, requests_of, lines_of, planned in *.
    cbn [omap list_omap snd fst].
    destruct inc; [|apply IH].
    destruct (lookup_group g VARIABLE_GROUPS) as [vs|]; [|apply IH].
    cbn [fmap option_fmap option_map omap list_omap map flat_map snd fst].
    unfold mbind at 1, st_bind at 1, print at 1. unfold mbind at 1, st_bind at 1, print at 1.
    unfold mbind at 1, st_bind at 1. rewrite fetch_spec. rewrite IH. cbn [sent console].
    destruct (fetched _); cbn [from_option omap list_omap]; rewrite <- !app_assoc; done.
Qed.
End Loop.

(** ** The pipeline *)

Section Pipeline.
Variables (net : Request → Response) (latitude longitude : Q)
          (start_date end_date : Date).

(** The run as a whole: the date check, then the loop, then the
    post-processing of the collected frames.  Only the loop sends
    requests. *)
Lemma extract_spec (active_groups : list (string * bool))
    (temporal_resolution : string) (w : World) :
  ∃ tail,
    extract_weather_data_multi net latitude longitude start_date end_date
      active_groups temporal_resolution w
    = if key_ltb (datetime_of_date end_date) (datetime_of_date start_date)
      then (Raise InvalidDateRange, w)
      else
        (match frames_of net latitude longitude start_date end_date active_groups with
         | [] => Raise NoDataRetrieved
         | first :: rest => post_process temporal_resolution first rest
         end,
         mkWorld
           (sent w ++ requests_of latitude longitude start_date end_date active_groups)
           (console w
            ++ lines_of net latitude longitude start_date end_date active_groups
            ++ tail)).
Proof.
  unfold extract_weather_data_multi.
  destruct (key_ltb _ _); [by exists []|].
  unfold mbind at 1, st_bind at 1. rewrite fetch_groups_spec. cbn [app].
  destruct (frames_of _ _ _ _ _ _) as [|first rest].
  { exists []. unfold raise. by rewrite app_nil_r. }
  unfold post_process, _resample_to_daily, _resample_to_monthly,
    mbind, st_bind, result_bind, print, lift, mret, st_ret.
  cbn [sent console].
  destruct (merge_all first rest) as [m|e]; [|by eexists [_]; rewrite <- app_assoc].
  destruct (sort_values m) as [s|e]; [|by eexists [_]; rewrite <- app_assoc].
  destruct (String.eqb temporal_resolution "daily").
  { cbn [sent console]. destruct (resample_to_daily s);
      [eexists [_; _; _; _; _]|eexists [_; _]]; by rewrite <- !app_assoc. }
  destruct (String.eqb temporal_resolution "monthly").
  { cbn [sent console]. destruct (resample_to_monthly s);
      [eexists [_; _; _; _; _]|eexists [_; _]]; by rewrite <- !app_assoc. }
  cbn [sent console]. eexists [_; _; _; _]. by rewrite <- !app_assoc.
Qed.
End Pipeline.

(** ** Errors of the post-processing *)

Lemma other_error_bind {A B} (m : result A) (f : A → result B) :
  other_error m → (∀ a, other_error (f a)) → other_error (m ≫= f).
Proof. destruct m as [a|e]; simpl; auto. Qed.

Ltac other_error_raise :=
  simpl; intros [E|E]; discriminate E.

Lemma other_error_time_keys df : other_error (time_keys df).
Proof. unfold time_keys. destruct (get_col "time" df) as [[]|]; try done; other_error_raise. Qed.

Lemma other_error_merge left right : other_error (merge left right).
Proof.
  unfold merge. apply other_error_bind; [apply other_error_time_keys|]. intros lk.
  apply other_error_bind; [apply other_error_time_keys|]. intros rk.
  destruct (_ ++ _); [done|other_error_raise].
Qed.

Lemma other_error_merge_all rest : ∀ first, other_error (merge_all first rest).
Proof.
  induction rest as [|df rest IH]; intros first; [done|]. simpl.
  apply other_error_bind; [apply other_error_merge|]. intros m. apply IH.
Qed.

Lemma other_error_sort_values df : other_error (sort_values df).
Proof.
  unfold sort_values. apply other_error_bind; [apply other_error_time_keys|]. done.
Qed.

Lemma other_error_column c df : other_error (column c df).
Proof. unfold column. destruct (get_col c df); [done|other_error_raise]. Qed.

Lemma other_error_to_datetime s : other_error (to_datetime s).
Proof. destruct s; try done; other_error_raise. Qed.

Lemma other_error_agg_columns {K} `{Key K} (keys : list (option K)) stats cols :
  other_error (agg_columns keys stats cols).
Proof.
  induction cols as [|[c s] cols IH]; [done|]. destruct s; try other_error_raise.
  cbn [agg_columns]. apply other_error_bind; [done|]. done.
Qed.

Lemma other_error_groupby key cols stats df : other_error (groupby key cols stats df).
Proof.
  unfold groupby, groupby_agg.
  destruct (get_col key df) as [[]|]; try other_error_raise;
    (apply other_error_bind; [|done]);
    (destruct (select_cols cols df); [other_error_raise|apply other_error_agg_columns]).
Qed.

Lemma other_error_reset_index name index df : other_error (reset_index name index df).
Proof.
  unfold reset_index. destruct (mem name (columns df)); [|done].
  simpl. intros [E|E]; by injection E.
Qed.

Lemma other_error_resample_to_daily df : other_error (resample_to_daily df).
Proof.
  unfold resample_to_daily.
  apply other_error_bind.
  { apply other_error_bind; [apply other_error_column|apply other_error_to_datetime]. }
  intros t. apply other_error_bind; [apply other_error_groupby|]. intros [index d].
  apply other_error_bind; [apply other_error_reset_index|]. intros d'.
  apply other_error_bind; [|done].
  apply other_error_bind; [apply other_error_column|apply other_error_to_datetime].
Qed.

Lemma other_error_resample_to_monthly df : other_error (resample_to_monthly df).
Proof.
  unfold resample_to_monthly.
  apply other_error_bind.
  { apply other_error_bind; [apply other_error_column|apply other_error_to_datetime]. }
  intros t. apply other_error_bind.
  { apply other_error_bind; [apply other_error_column|].
    intros []; try done; other_error_raise. }
  intros ym. apply other_error_bind; [apply other_error_groupby|]. intros [index d].
  apply other_error_bind; [apply other_error_reset_index|]. intros d'.
  apply other_error_bind; [|done].
  apply other_error_bind; [apply other_error_column|].
  intros []; try done; other_error_raise.
Qed.

(** The post-processing raises neither of the errors of the pipeline. *)
Lemma other_error_post_process temporal_resolution first rest :
  other_error (post_process temporal_resolution first rest).
Proof.
  unfold post_process.
  apply other_error_bind; [apply other_error_merge_all|]. intros m.
  apply other_error_bind; [apply other_error_sort_values|]. intros s.
  destruct (String.eqb _ _); [apply other_error_resample_to_daily|].
  destruct (String.eqb _ _); [apply other_error_resample_to_monthly|done].
Qed.

Lemma datetime_of_date_ltb (a b : Date) :
  key_ltb (datetime_of_date a) (datetime_of_date b) = key_ltb a b.
Proof.
  destruct a, b. unfold key_ltb, timestamp_key, date_key. simpl.
  by rewrite !andb_false_r, !orb_false_r.
Qed.

(** ** The date range *)

(** C9.  For every pair of calendar dates given as start and end of the
    requested range, the pipeline raises InvalidDateRange if and only if the
    start date is strictly after the end date, and when it does, no request
    has been sent and nothing has been printed. *)
Theorem invalid_date_range (net : Request → Response) (latitude longitude : Q)
    (start_date end_date : Date) (active_groups : list (string * bool))
    (temporal_resolution : string) (w : World) :
  let run := extract_weather_data_multi net latitude longitude start_date end_date
               active_groups temporal_resolution w in
  (run.1 = Raise InvalidDateRange ↔ key_ltb end_date start_date = true)
  ∧ (key_ltb end_date start_date = true → run.2 = w).
Proof.
  intros run. unfold run.
  destruct (extract_spec net latitude longitude start_date end_date active_groups
              temporal_resolution w) as [tail ->].
  rewrite datetime_of_date_ltb. destruct (key_ltb end_date start_date); [done|].
  split; [|done]. split; [|done]. cbn [fst]. intros E.
  destruct (frames_of _ _ _ _ _ _) as [|first rest]; [discriminate E|].
  pose proof (other_error_post_process temporal_resolution first rest) as Hp.
  rewrite E in Hp. destruct Hp. by left.
Qed.

(** ** The order of the requests *)

(** C4, as stated, fails: the requests follow the order of the mapping.
    With soil before basic_weather in the mapping, soil is requested first,
    while the catalog lists basic_weather first; and the same two groups in
    the other order are requested in the other order. *)
Lemma soil_first_is_requested_first :
  let run groups :=
    extract_weather_data_multi net_no_hourly 0 0 (mkDate 2024 1 1) (mkDate 2024 1 2)
      groups "hourly" world0 in
  let soil_first := [("soil", true); ("basic_weather", true)] in
  let basic_first := [("basic_weather", true); ("soil", true)] in
  hourly <$> sent (run soil_first).2
  = [ "soil_temperature_0cm,soil_temperature_6cm,soil_moisture_0_1cm";
      "temperature_2m,apparent_temperature,relative_humidity_2m,dewpoint_2m,precipitation,rain,snowfall,wind_speed_10m,wind_direction_10m,pressure_msl,surface_pressure,cloud_cover,cloud_cover_low,cloud_cover_mid,cloud_cover_high" ]
  ∧ sent (run soil_first).2
    ≠ catalog_order_requests 0 0 (mkDate 2024 1 1) (mkDate 2024 1 2) soil_first
  ∧ sent (run soil_first).2 ≠ sent (run basic_first).2.
Proof.
  intros run soil_first basic_first. split; [by vm_compute|].
  split; intros E; apply (f_equal (fmap hourly)) in E; vm_compute in E; discriminate E.
Qed.

(** C4 (amended).  For every enabled-group mapping, the sequence of fetch
    requests issued follows the iteration order of the mapping: one request
    for every entry that is enabled and names a group of the catalog, in the
    order of the entries, so two runs with the same mapping issue requests
    in identical order; entries with unknown group identifiers are silently
    ignored. *)
Theorem requests_follow_mapping (net : Request → Response) (latitude longitude : Q)
    (start_date end_date : Date) (temporal_resolution : string) (w : World) :
  let run groups := extract_weather_data_multi net latitude longitude start_date end_date
                      groups temporal_resolution w in
  let requests := requests_of latitude longitude start_date end_date in
  (∀ groups,
     sent (run groups).2
     = sent w ++ if key_ltb end_date start_date then [] else requests groups)
  ∧ (∀ l1 l2, requests (l1 ++ l2) = requests l1 ++ requests l2)
  ∧ (∀ g vs, lookup_group g VARIABLE_GROUPS = Some vs →
       requests [(g, true)] = [request_for latitude longitude start_date end_date vs])
  ∧ (∀ g, requests [(g, false)] = [])
  ∧ (∀ g b l1 l2, lookup_group g VARIABLE_GROUPS = None →
       requests [(g, b)] = [] ∧ run (l1 ++ (g, b) :: l2) = run (l1 ++ l2)).
Proof.
  intros run requests. split; [|split; [|split; [|split]]].
  - intros groups. unfold run.
    destruct (extract_spec net latitude longitude start_date end_date groups
                temporal_resolution w) as [tail ->].
    rewrite datetime_of_date_ltb.
    destruct (key_ltb end_date start_date); [by rewrite app_nil_r|done].
  - intros l1 l2. unfold requests, requests_of, planned. by rewrite omap_app, map_app.
  - intros g vs Hg. unfold requests, requests_of, planned.
    cbn [omap list_omap fst snd]. by rewrite Hg.
  - done.
  - intros g b l1 l2 Hg.
    assert (∀ l, planned (l1 ++ (g, b) :: l) = planned (l1 ++ l)) as Hp.
    { intros l. unfold planned. rewrite !omap_app. f_equal.
      cbn [omap list_omap fst snd]. rewrite Hg. by destruct b. }
    split.
    + unfold requests, requests_of, planned. cbn [omap list_omap fst snd].
      rewrite Hg. by destruct b.
    + unfold run, extract_weather_data_multi.
      destruct (key_ltb _ _); [done|]. unfold mbind, st_bind.
      rewrite !fetch_groups_spec. unfold frames_of, requests_of, lines_of.
      by rewrite !Hp.
Qed.

(** ** Well-formed tables through the post-processing *)

Lemma is_float_take idx s : is_float (series_take idx s) = is_float s.
Proof. by destruct s. Qed.

Lemma elem_of_set_col c s n x (df : DataFrame) :
  (c, s) ∈ set_col n x df → (c = n ∧ s = x) ∨ (c, s) ∈ df.
Proof.
  induction df as [|[c0 s0] df IH]; simpl.
  - intros [= -> ->]%list_elem_of_singleton. by left.
  - destruct (String.eqb_spec c0 n) as [->|Hne].
    + intros [[= -> ->]|Hin]%elem_of_cons; [by left|]. right. by right.
    + intros [[= -> ->]|Hin]%elem_of_cons; [right; left|].
      destruct (IH Hin) as [?|?]; [by left|]. right. by right.
Qed.

Lemma elem_of_frame_take idx c s (df : DataFrame) :
  (c, s) ∈ frame_take idx df → ∃ s0, s = series_take idx s0 ∧ (c, s0) ∈ df.
Proof.
  unfold frame_take. intros Hin.
  apply list_elem_of_In, in_map_iff in Hin as ([c0 s0] & [= <- <-] & Hin).
  exists s0. by rewrite list_elem_of_In.
Qed.

Lemma hourly_table_frame_take idx df ts :
  hourly_table df ts → hourly_table (frame_take idx df) (take idx ts).
Proof.
  intros Hdf. split.
  - by rewrite get_col_frame_take, (ht_time _ _ Hdf).
  - rewrite columns_frame_take. apply Hdf.
  - rewrite (aligned_nrows (length idx)); [apply aligned_frame_take..|].
    intros E. pose proof (ht_time _ _ Hdf) as Ht. destruct df; [done|]. done.
  - intros c s Hin Hc. apply elem_of_frame_take in Hin as (s0 & -> & Hin).
    rewrite is_float_take. by apply (ht_float _ _ Hdf c).
  - rewrite columns_frame_take. apply Hdf.
  - rewrite columns_frame_take. apply Hdf.
Qed.

Lemma sort_values_hourly df ts :
  hourly_table df ts → ∃ s, sort_values df = Ok s ∧ hourly_table s (sorted_keys ts).
Proof.
  intros Hdf. unfold sort_values. cbn [nargsort ideal]. rewrite (hourly_time_keys df ts Hdf).
  cbn [mbind result_bind]. eexists. split; [done|].
  rewrite <- take_argsort. by apply hourly_table_frame_take.
Qed.

Lemma columns_map_labels (f : string → string) (g : Series → Series) (l : DataFrame) :
  columns (map (λ cs, (f cs.1, g cs.2)) l) = map f (columns l).
Proof. induction l as [|[c s] l IH]; [done|]. simpl. f_equal. apply IH. Qed.

Lemma columns_filter_label (f : string → bool) (l : DataFrame) :
  columns (List.filter (λ cs, f cs.1) l) = List.filter f (columns l).
Proof.
  induction l as [|[c0 s0] l IH]; [done|]. simpl.
  destruct (f c0); simpl; [|done]. f_equal. apply IH.
Qed.

Lemma columns_merged_frame A B ta tb :
  "time" ∈ columns A →
  columns (merged_frame A B ta tb) = columns A ++ right_labels A B.
Proof.
  intros Ht. unfold merged_frame, right_labels. rewrite columns_app. f_equal.
  - rewrite set_col_present; [apply columns_frame_take|]. by rewrite columns_frame_take.
  - apply columns_map_labels.
Qed.

Section MergeHourly.
Variables (A B : DataFrame) (ta tb : list (option Timestamp)).
Hypothesis HA : hourly_table A ta.
Hypothesis HB : hourly_table B tb.
Hypothesis HdA : Forall (λ c, endswith c "_dup" = false) (columns A).
Hypothesis HdB : Forall (λ c, endswith c "_dup" = false) (columns B).

Let B' := drop_cols ["time"] B.
Let to_rename := List.filter (λ c, mem c (columns B')) (columns A).

Lemma columns_B' c : c ∈ columns B' → c ∈ columns B ∧ endswith c "_dup" = false.
Proof.
  unfold B'. rewrite columns_drop_cols. intros [Hc _]%elem_of_filter_bool.
  split; [done|]. rewrite Forall_forall in HdB. by apply HdB.
Qed.

Lemma NoDup_columns_B' : NoDup (columns B').
Proof. unfold B'. rewrite columns_drop_cols. apply NoDup_filter_bool, HB. Qed.

Lemma add_suffix_cases c :
  c ∈ columns B' →
  (c ∈ columns A ∧ add_suffix to_rename "_dup" c = c +:+ "_dup")
  ∨ ((c ∉ columns A) ∧ add_suffix to_rename "_dup" c = c).
Proof.
  intros Hc. unfold add_suffix. destruct (mem c to_rename) eqn:E.
  - apply mem_elem_of, elem_of_filter_bool in E as [? _]. by left.
  - right. split; [|done]. intros HcA. apply mem_not_elem_of in E. apply E.
    apply elem_of_filter_bool. split; [done|]. by apply mem_elem_of.
Qed.

Lemma NoDup_right_labels : NoDup (right_labels A B).
Proof.
  unfold right_labels. fold B'. fold to_rename.
  change (NoDup (add_suffix to_rename "_dup" <$> columns B')).
  apply NoDup_fmap_2_strong; [|apply NoDup_columns_B'].
  intros c1 c2 H1 H2 E.
  destruct (add_suffix_cases c1 H1) as [[_ E1]|[_ E1]],
           (add_suffix_cases c2 H2) as [[_ E2]|[_ E2]]; rewrite E1, E2 in E.
  - by apply append_inj_l in E.
  - apply columns_B' in H2 as [_ H2]. rewrite <- E, endswith_append in H2. done.
  - apply columns_B' in H1 as [_ H1]. rewrite E, endswith_append in H1. done.
  - done.
Qed.

Lemma merge_hourly_ok : merge A B = Ok (merged_frame A B ta tb).
Proof.
  apply merge_intro; [by apply hourly_time_keys..|apply NoDup_right_labels].
Qed.

Lemma elem_of_kept_labels c :
  c ∈ columns (drop_dup_cols (merged_frame A B ta tb)) ↔
  (c ∈ columns A ∨ (c ∈ columns B' ∧ c ∉ columns A)) ∧ endswith c "_dup" = false.
Proof.
  rewrite drop_dup_cols_filter.
  rewrite (columns_filter_label (λ c, negb (endswith c "_dup"))).
  rewrite elem_of_filter_bool, negb_true_iff.
  rewrite columns_merged_frame by (apply get_col_is_Some; rewrite (ht_time _ _ HA); by eexists).
  rewrite elem_of_app. unfold right_labels. fold B'. fold to_rename.
  split; intros [Hc Hend]; (split; [|done]).
  - destruct Hc as [?|Hc]; [by left|].
    apply list_elem_of_In, in_map_iff in Hc as (c0 & <- & Hc0%list_elem_of_In).
    destruct (add_suffix_cases c0 Hc0) as [[_ E]|[? E]]; rewrite E in *.
    + by rewrite endswith_append in Hend.
    + right. done.
  - destruct Hc as [?|[Hc HcA]]; [by left|]. right.
    apply list_elem_of_In, in_map_iff. exists c. rewrite <- list_elem_of_In. split; [|done].
    by destruct (add_suffix_cases c Hc) as [[? _]|[_ ?]].
Qed.

(** The accumulator after one merge and the drop is again an hourly
    table without a label ending in [_dup]. *)
Lemma merge_hourly :
  hourly_table (drop_dup_cols (merged_frame A B ta tb))
               (join_keys (join_index ta tb) ta tb).
Proof.
  pose proof (hourly_time_keys A ta HA) as HkA.
  split.
  - apply time_keys_get_col. by rewrite time_keys_drop_dup_cols, (time_keys_merged _ _ _ _ HkA).
  - rewrite drop_dup_cols_filter.
    rewrite (columns_filter_label (λ c, negb (endswith c "_dup"))).
    rewrite columns_merged_frame by by eapply time_keys_has_time.
    rewrite List.filter_app. apply NoDup_app. split; [apply NoDup_filter_bool, HA|].
    split; [|apply NoDup_filter_bool, NoDup_right_labels].
    intros c [HcA _]%elem_of_filter_bool [Hc Hend]%elem_of_filter_bool.
    unfold right_labels in Hc. fold B' in Hc. fold to_rename in Hc.
    apply list_elem_of_In, in_map_iff in Hc as (c0 & <- & Hc0%list_elem_of_In).
    destruct (add_suffix_cases c0 Hc0) as [[_ E]|[? E]]; rewrite E in *.
    + by rewrite endswith_append in Hend.
    + done.
  - rewrite (nrows_drop_dup_cols (length (join_index ta tb)) _ (join_keys (join_index ta tb) ta tb)).
    + apply aligned_drop_dup_cols, aligned_merged.
    + apply aligned_merged.
    + by apply time_keys_merged.
  - intros c s Hin Hc. rewrite drop_dup_cols_filter in Hin.
    apply elem_of_filter_bool in Hin as [Hin _]. unfold merged_frame in Hin.
    apply elem_of_app in Hin as [Hin|Hin].
    + apply elem_of_set_col in Hin as [[-> _]|Hin]; [done|].
      apply elem_of_frame_take in Hin as (s0 & -> & Hin).
      rewrite is_float_take. by apply (ht_float _ _ HA c).
    + apply list_elem_of_In, in_map_iff in Hin as ([c0 s0] & [= <- <-] & Hin%list_elem_of_In).
      rewrite is_float_take. apply elem_of_filter_bool in Hin as [Hin Hc0]. simpl in Hc0.
      apply (ht_float _ _ HB c0 s0 Hin). intros ->. done.
  - pose proof (ht_names _ _ HA) as [HA1 HA2]. pose proof (ht_names _ _ HB) as [HB1 HB2].
    split; intros [[?|[[? _]%columns_B' _]] _]%elem_of_kept_labels; done.
  - destruct (ht_variable _ _ HA) as (c & Hc & Hne). exists c. split; [|done].
    apply elem_of_kept_labels. split; [by left|].
    rewrite Forall_forall in HdA. by apply HdA.
Qed.
End MergeHourly.

Lemma fetched_table_hourly df :
  fetched_table df ↔ ∃ ts, hourly_table df ts ∧ Forall (λ c, endswith c "_dup" = false) (columns df).
Proof. unfold fetched_table. split; [intros [[ts ?] ?]|intros (ts & ? & ?)]; eauto. Qed.

Lemma merge_all_hourly rest : ∀ first,
  fetched_table first → Forall fetched_table rest →
  ∃ m tm, merge_all first rest = Ok m ∧ hourly_table m tm.
Proof.
  induction rest as [|df rest IH]; intros first Hf Hall.
  - destruct Hf as [[ts Hf] _]. by exists first, ts.
  - apply Forall_cons in Hall as [Hd Hall].
    destruct Hf as [[ta Hf] Hfd]. destruct Hd as [[tb Hd] Hdd].
    cbn [merge_all]. rewrite (merge_hourly_ok first df ta tb) by done.
    cbn [mbind result_bind]. apply IH; [|done]. split.
    + eexists. by apply merge_hourly.
    + apply drop_dup_cols_no_dup_label.
Qed.

(** On well-formed fetched tables the post-processing returns a table. *)
Lemma post_process_ok temporal_resolution first rest :
  fetched_table first → Forall fetched_table rest →
  ∃ out, post_process temporal_resolution first rest = Ok out.
Proof.
  intros Hf Hall. destruct (merge_all_hourly rest first Hf Hall) as (m & tm & Hm & Hht).
  destruct (sort_values_hourly m tm Hht) as (s & Hs & Hhs).
  unfold post_process. rewrite Hm. cbn [mbind result_bind]. rewrite Hs. cbn [mbind result_bind].
  destruct (String.eqb _ _); [eexists; by apply resample_to_daily_eq|].
  destruct (String.eqb _ _); [eexists; by apply resample_to_monthly_eq|].
  by eexists.
Qed.

(** ** Failures of single groups and of all groups *)

Lemma elem_of_planned (active_groups : list (string * bool)) g vs :
  (g, vs) ∈ planned active_groups ↔
  (g, true) ∈ active_groups ∧ lookup_group g VARIABLE_GROUPS = Some vs.
Proof.
  unfold planned. rewrite list_elem_of_omap. split.
  - intros ([g' b] & Hin & Hx). cbn [fst snd] in Hx. destruct b; [|done].
    destruct (lookup_group g' VARIABLE_GROUPS) as [vs'|] eqn:E; [|done].
    by injection Hx as -> ->.
  - intros [Hin Hg]. exists (g, true). split; [done|]. cbn [fst snd]. by rewrite Hg.
Qed.

Lemma omap_nil {A B} (f : A → option B) (l : list A) :
  omap f l = [] ↔ ∀ x, x ∈ l → f x = None.
Proof.
  induction l as [|a l IH]; cbn [omap list_omap].
  - split; [intros _ x Hx; by apply elem_of_nil in Hx|reflexivity].
  - destruct (f a) eqn:E.
    + split; [done|]. intros Hf. specialize (Hf a). rewrite E in Hf.
      discriminate Hf. left.
    + rewrite IH. split.
      * intros Hf x [->|Hx]%elem_of_cons; auto.
      * intros Hf x Hx. apply Hf. by right.
Qed.

Lemma omap_omap {A B C} (P : A → option B) (F : B → option C) (l : list A) :
  omap F (omap P l) = omap (λ x, P x ≫= F) l.
Proof.
  induction l as [|a l IH]; [done|]. cbn [omap list_omap].
  destruct (P a) as [b|]; cbn [omap list_omap mbind option_bind]; [|done].
  destruct (F b); by rewrite IH.
Qed.

Lemma omap_filter {A B} (G : A → option B) (p : A → bool) (l : list A) :
  (∀ x, p x = false → G x = None) → omap G (List.filter p l) = omap G l.
Proof.
  intros Hp. induction l as [|a l IH]; [done|]. cbn [List.filter omap list_omap].
  destruct (p a) eqn:E; cbn [omap list_omap].
  - destruct (G a); by rewrite IH.
  - by rewrite (Hp a E).
Qed.

(** A transport error, a status from 400 to 599 and a body without the
    hourly payload each leave the group without a frame. *)
Lemma fetch_failure_fetched r : fetch_failure r → fetched r = None.
Proof.
  destruct r as [e|status body]; [done|]. intros [Hs| ->]; [|done].
  unfold fetched. destruct body as [e|[[e|payload]|]]; try done.
  unfold raise_for_status.
  assert ((400 <=? status)%Z = true) as -> by lia.
  assert ((status <? 600)%Z = true) as -> by lia. done.
Qed.

Lemma outcome_line_warns g r : fetched r = None → warns_of g (outcome_line g r).
Proof.
  unfold warns_of. destruct r as [e|status [e|[[e|payload]|]]]; simpl;
    try destruct (raise_for_status status); try (right; by eexists); try by left.
  destruct (frame_of_hourly payload); [done|]. right. by eexists.
Qed.

Section Failures.
Variables (net : Request → Response) (latitude longitude : Q)
          (start_date end_date : Date).

Lemma frames_of_succeeded (active_groups : list (string * bool)) :
  frames_of net latitude longitude start_date end_date
    (List.filter (succeeded net latitude longitude start_date end_date) active_groups)
  = frames_of net latitude longitude start_date end_date active_groups.
Proof.
  unfold frames_of, planned. rewrite !omap_omap. apply omap_filter.
  intros [g b]. unfold succeeded. cbn [fst snd]. destruct b; [|done]. cbn [andb].
  destruct (lookup_group g VARIABLE_GROUPS) as [vs|]; [|done].
  cbn [fmap option_fmap option_map mbind option_bind snd].
  intros Hd. apply bool_decide_eq_false_1 in Hd.
  destruct (fetched _); [|done]. destruct Hd. by eexists.
Qed.

Lemma frames_of_nil (active_groups : list (string * bool)) :
  frames_of net latitude longitude start_date end_date active_groups = [] ↔
  ∀ g vs, (g, true) ∈ active_groups → lookup_group g VARIABLE_GROUPS = Some vs →
          fetched (net (request_for latitude longitude start_date end_date vs)) = None.
Proof.
  unfold frames_of. rewrite omap_nil. split.
  - intros Hf g vs Hin Hg. apply (Hf (g, vs)). by apply elem_of_planned.
  - intros Hf [g vs] [Hin Hg]%elem_of_planned. by apply (Hf g vs).
Qed.
End Failures.

Lemma classic_nil {A} (l : list A) : l = [] ∨ l ≠ [].
Proof. destruct l; [by left|by right]. Qed.

(** The outcome of a run with a valid date range, by the frames it
    collects. *)
Lemma run_outcome (net : Request → Response) (latitude longitude : Q)
    (start_date end_date : Date) (active_groups : list (string * bool))
    (temporal_resolution : string) (w : World) :
  key_ltb end_date start_date = false →
  let run := extract_weather_data_multi net latitude longitude start_date end_date
               active_groups temporal_resolution w in
  let frames := frames_of net latitude longitude start_date end_date active_groups in
  (run.1 = Raise NoDataRetrieved ↔ frames = [])
  ∧ (Forall fetched_table frames → frames ≠ [] → ∃ out, run.1 = Ok out).
Proof.
  intros Hdates run frames. unfold run.
  destruct (extract_spec net latitude longitude start_date end_date active_groups
              temporal_resolution w) as [tail ->].
  rewrite datetime_of_date_ltb, Hdates. cbn [fst]. fold frames. split.
  - destruct frames as [|first rest]; [done|]. split; [|done]. intros E.
    pose proof (other_error_post_process temporal_resolution first rest) as Hp.
    rewrite E in Hp. destruct Hp. by right.
  - intros Hall Hne. destruct frames as [|first rest]; [done|].
    apply Forall_cons in Hall as [Hf Hall]. by apply post_process_ok.
Qed.

Lemma post_process_other (temporal_resolution : string) first rest :
  temporal_resolution ≠ "daily" → temporal_resolution ≠ "monthly" →
  post_process temporal_resolution first rest = merge_all first rest ≫= sort_values.
Proof.
  intros Hd%String.eqb_neq Hm%String.eqb_neq. unfold post_process. rewrite Hd, Hm.
  destruct (merge_all first rest) as [m|e]; [|done]. cbn [mbind result_bind].
  by destruct (sort_values m).
Qed.

(** The labels after all merges of well-formed tables are those of all the
    tables. *)
Lemma merge_all_columns rest : ∀ first m,
  fetched_table first → Forall fetched_table rest →
  merge_all first rest = Ok m →
  ∀ c, c ∈ columns m ↔ c ∈ columns first ∨ ∃ df, df ∈ rest ∧ c ∈ columns df.
Proof.
  induction rest as [|df rest IH]; intros first m Hf Hall Hm c.
  - injection Hm as <-. split; [by left|]. intros [?|(df & []%elem_of_nil & _)]. done.
  - apply Forall_cons in Hall as [Hd Hall].
    destruct Hf as [[ta Hf] Hfd]. destruct Hd as [[tb Hd] Hdd].
    cbn [merge_all] in Hm. rewrite (merge_hourly_ok first df ta tb) in Hm by done.
    cbn [mbind result_bind] in Hm.
    assert (fetched_table (drop_dup_cols (merged_frame first df ta tb))) as Hacc.
    { split; [eexists; by apply merge_hourly|apply drop_dup_cols_no_dup_label]. }
    rewrite (IH _ _ Hacc Hall Hm c), (elem_of_kept_labels first df ta tb) by done.
    rewrite columns_drop_cols, elem_of_filter_bool.
    rewrite Forall_forall in Hfd. rewrite Forall_forall in Hdd.
    assert ("time" ∈ columns first) as Ht.
    { apply get_col_is_Some. rewrite (ht_time _ _ Hf). by eexists. }
    split.
    + intros [[[?|[[? _] _]] _]|(df' & Hin & Hc)].
      * by left.
      * right. exists df. split; [left|done].
      * right. exists df'. split; [by right|done].
    + intros [Hc|(df' & [->|Hin]%elem_of_cons & Hc)].
      * left. split; [by left|by apply Hfd].
      * left. split; [|by apply Hdd].
        destruct (mem c (columns first)) eqn:E; [left; by apply mem_elem_of|].
        apply mem_not_elem_of in E. right. split; [|done]. split; [done|].
        cbn [mem existsb]. rewrite orb_false_r. apply negb_true_iff, String.eqb_neq.
        by intros ->.
      * right. by exists df'.
Qed.

(** With the hourly resolution, the table that a run returns on
    well-formed tables has the labels and the timestamps of all of them,
    the timestamps in non-decreasing order. *)
Lemma post_process_hourly temporal_resolution first rest :
  temporal_resolution ≠ "daily" → temporal_resolution ≠ "monthly" →
  fetched_table first → Forall fetched_table rest →
  ∃ out ts,
    post_process temporal_resolution first rest = Ok out
    ∧ (∀ c, c ∈ columns out ↔ ∃ df, df ∈ first :: rest ∧ c ∈ columns df)
    ∧ time_keys out = Ok ts ∧ StronglySorted key_le ts
    ∧ ∀ t, t ∈ ts ↔ ∃ df tf, df ∈ first :: rest ∧ time_keys df = Ok tf ∧ t ∈ tf.
Proof.
  intros Hd Hmo Hf Hall. rewrite post_process_other by done.
  destruct (merge_all_hourly rest first Hf Hall) as (m & tm & Hm & Hhm).
  pose proof (hourly_time_keys m tm Hhm) as Hkm.
  destruct (sort_values_keys m tm Hkm) as (s & Hs & Hks & Hcols & _).
  exists s, (sorted_keys tm). rewrite Hm. cbn [mbind result_bind].
  split; [done|]. split; [|split; [done|split; [apply sorted_keys_sorted|]]].
  - intros c. rewrite Hcols, (merge_all_columns rest first m Hf Hall Hm c). split.
    + intros [?|(df & Hin & Hc)]; [exists first; split; [left|done]|].
      exists df. split; [by right|done].
    + intros (df & [->|Hin]%elem_of_cons & Hc); [by left|]. right. by exists df.
  - destruct Hf as [[tf Hf] _]. pose proof (hourly_time_keys first tf Hf) as Hkf.
    destruct (merge_all_elems rest first m tf Hkf Hm) as (tm' & Hkm' & Hel).
    rewrite Hkm in Hkm'. injection Hkm' as <-.
    intros t. rewrite (sorted_keys_perm tm), Hel. split.
    + intros [?|(df & t' & Hin & Hk & Ht)]; [exists first, tf; split; [left|done]|].
      exists df, t'. split; [by right|done].
    + intros (df & t' & [->|Hin]%elem_of_cons & Hk & Ht).
      * left. rewrite Hkf in Hk. by injection Hk as ->.
      * right. by exists df, t'.
Qed.

(** C2, as stated, fails twice.  A fetch that yields a table without rows
    is kept: the only enabled group yields no non-empty table, and the
    pipeline returns the empty table.  And a payload without a ['time']
    column is kept too: the pipeline then fails with a [KeyError] when it
    sorts, an error other than NoDataRetrieved. *)
Lemma empty_table_and_missing_time :
  let run net :=
    extract_weather_data_multi net 0 0 (mkDate 2024 1 1) (mkDate 2024 1 2)
      [("soil", true)] "hourly" world0 in
  frames_of net_no_rows 0 0 (mkDate 2024 1 1) (mkDate 2024 1 2) [("soil", true)]
  = [ex_no_rows]
  ∧ nrows ex_no_rows = 0%nat
  ∧ (run net_no_rows).1 = Ok ex_no_rows
  ∧ (run net_no_time).1 = Raise (KeyError "time").
Proof. by vm_compute. Qed.

(** C2 (amended).  For every run with a valid date range, the pipeline
    fails with NoDataRetrieved, returning no table, if and only if the
    fetch of no enabled group of the catalog yields a table (every such
    fetch fails, or there is no such group); a fetched table without rows
    counts as retrieved.  When every fetched table is well formed (a
    datetime column ['time'], at least one variable column, the variable
    columns float columns under distinct labels, none of them ['date'] or
    ['year_month'] and none ending with [_dup], all columns of one length),
    the run returns a table, so this is the only error raised after the
    date validation. *)
Theorem no_data_retrieved (net : Request → Response) (latitude longitude : Q)
    (start_date end_date : Date) (active_groups : list (string * bool))
    (temporal_resolution : string) (w : World) :
  key_ltb end_date start_date = false →
  let run := extract_weather_data_multi net latitude longitude start_date end_date
               active_groups temporal_resolution w in
  let frames := frames_of net latitude longitude start_date end_date active_groups in
  (run.1 = Raise NoDataRetrieved ↔ frames = [])
  ∧ (frames = [] ↔
     ∀ g vs, (g, true) ∈ active_groups → lookup_group g VARIABLE_GROUPS = Some vs →
             fetched (net (request_for latitude longitude start_date end_date vs)) = None)
  ∧ (Forall fetched_table frames → frames ≠ [] → ∃ out, run.1 = Ok out)
  ∧ (Forall fetched_table frames → ∀ e, run.1 = Raise e → e = NoDataRetrieved).
Proof.
  intros Hdates run frames.
  destruct (run_outcome net latitude longitude start_date end_date active_groups
              temporal_resolution w Hdates) as [Hnd Hok].
  split; [done|]. split; [apply frames_of_nil|]. split; [done|].
  intros Hall e E. destruct (classic_nil frames) as [Hnil|Hne].
  - apply Hnd in Hnil. fold run in Hnil. rewrite Hnil in E. by injection E.
  - destruct (Hok Hall Hne) as [out Hout]. fold run in Hout. rewrite Hout in E. done.
Qed.

Lemma no_data_retrieved_witness :
  let run := extract_weather_data_multi net_no_hourly 0 0 (mkDate 2024 1 1) (mkDate 2024 1 2)
               [("soil", true)] "hourly" world0 in
  let frames := frames_of net_no_hourly 0 0 (mkDate 2024 1 1) (mkDate 2024 1 2)
                  [("soil", true)] in
  (run.1 = Raise NoDataRetrieved ↔ frames = [])
  ∧ (frames = [] ↔
     ∀ g vs, (g, true) ∈ [("soil", true)] → lookup_group g VARIABLE_GROUPS = Some vs →
             fetched (net_no_hourly
                        (request_for 0 0 (mkDate 2024 1 1) (mkDate 2024 1 2) vs)) = None)
  ∧ (Forall fetched_table frames → frames ≠ [] → ∃ out, run.1 = Ok out)
  ∧ (Forall fetched_table frames → ∀ e, run.1 = Raise e → e = NoDataRetrieved).
Proof.
  apply (no_data_retrieved net_no_hourly 0 0 (mkDate 2024 1 1) (mkDate 2024 1 2)
           [("soil", true)] "hourly" world0).
  reflexivity.
Defined.

(** C1, as stated, fails: the request for basic_weather meets a transport
    error and the soil group is fetched, with a payload that has no
    ['time'] column; the table is kept, and the run raises the [KeyError]
    of the sort instead of returning a table. *)
Lemma failure_beside_table_without_time :
  let run :=
    extract_weather_data_multi net_soil_no_time 0 0 (mkDate 2024 1 1) (mkDate 2024 1 2)
      [("basic_weather", true); ("soil", true)] "hourly" world0 in
  (∀ vs, lookup_group "basic_weather" VARIABLE_GROUPS = Some vs →
         fetch_failure (net_soil_no_time
                          (request_for 0 0 (mkDate 2024 1 1) (mkDate 2024 1 2) vs)))
  ∧ frames_of net_soil_no_time 0 0 (mkDate 2024 1 1) (mkDate 2024 1 2)
      [("basic_weather", true); ("soil", true)] = [ex_no_time]
  ∧ Retrieved 1 ∈ console run.2
  ∧ run.1 = Raise (KeyError "time").
Proof.
  split; [by intros vs [= <-]|]. split; [by vm_compute|]. split; [|by vm_compute].
  apply list_elem_of_In. vm_compute. auto 10.
Qed.

(** C1 (amended).  For every run with a valid date range in which the
    fetch of at least one enabled group yields a table, a group whose fetch
    fails (a transport error, an HTTP status from 400 to 599, or a response
    without the hourly payload) contributes nothing and a line naming the
    group is printed; the failure is not raised to the caller: the run
    returns what it returns on the succeeded groups alone, never
    NoDataRetrieved.  When the fetched tables are well formed (a datetime
    column ['time'], at least one variable column, the variable columns
    float columns under distinct labels, none of them ['date'] or
    ['year_month'] and none ending with [_dup], all columns of one length),
    the run returns a table; with the hourly resolution its labels and its
    timestamps are those of the tables of the succeeded groups, the
    timestamps in non-decreasing order. *)
Theorem partial_failure_tolerated (net : Request → Response) (latitude longitude : Q)
    (start_date end_date : Date) (active_groups : list (string * bool))
    (temporal_resolution : string) (w : World) (g : string) (vs : list string) :
  key_ltb end_date start_date = false →
  (g, true) ∈ active_groups → lookup_group g VARIABLE_GROUPS = Some vs →
  fetch_failure (net (request_for latitude longitude start_date end_date vs)) →
  frames_of net latitude longitude start_date end_date active_groups ≠ [] →
  let run groups := extract_weather_data_multi net latitude longitude start_date end_date
                      groups temporal_resolution w in
  let frames := frames_of net latitude longitude start_date end_date in
  let succeeded_groups :=
    List.filter (succeeded net latitude longitude start_date end_date) active_groups in
  (∃ l, l ∈ console (run active_groups).2 ∧ warns_of g l)
  ∧ fetched (net (request_for latitude longitude start_date end_date vs)) = None
  ∧ ((g, true) ∉ succeeded_groups)
  ∧ frames active_groups = frames succeeded_groups
  ∧ (run active_groups).1 = (run succeeded_groups).1
  ∧ (run active_groups).1 ≠ Raise NoDataRetrieved
  ∧ (Forall fetched_table (frames active_groups) →
     ∃ out, (run active_groups).1 = Ok out
       ∧ (temporal_resolution ≠ "daily" → temporal_resolution ≠ "monthly" →
          (∀ c, c ∈ columns out ↔ ∃ df, df ∈ frames succeeded_groups ∧ c ∈ columns df)
          ∧ ∃ ts, time_keys out = Ok ts ∧ StronglySorted key_le ts
              ∧ ∀ t, t ∈ ts ↔ ∃ df tf, df ∈ frames succeeded_groups
                                       ∧ time_keys df = Ok tf ∧ t ∈ tf)).
Proof.
  intros Hdates Hin Hg Hfailure Hsome run frames succeeded_groups.
  pose proof (fetch_failure_fetched _ Hfailure) as Hfail.
  pose proof (run_outcome net latitude longitude start_date end_date active_groups
                temporal_resolution w Hdates) as (Hnd & Hok).
  assert (frames active_groups = frames succeeded_groups) as Hsame.
  { unfold frames, succeeded_groups. by rewrite frames_of_succeeded. }
  split; [|split; [done|split; [|split; [done|split; [|split]]]]].
  - unfold run.
    destruct (extract_spec net latitude longitude start_date end_date active_groups
                temporal_resolution w) as [tail ->].
    rewrite datetime_of_date_ltb, Hdates. cbn [snd console].
    exists (outcome_line g (net (request_for latitude longitude start_date end_date vs))).
    split; [|by apply outcome_line_warns].
    apply elem_of_app. right. apply elem_of_app. left. unfold lines_of.
    apply list_elem_of_In, in_flat_map. exists (g, vs). split.
    + by apply list_elem_of_In, elem_of_planned.
    + simpl. auto.
  - intros [_ Hs]%elem_of_filter_bool. unfold succeeded in Hs. cbn [fst snd andb] in Hs.
    rewrite Hg, Hfail in Hs. apply bool_decide_eq_true_1 in Hs. by destruct Hs.
  - unfold run.
    destruct (extract_spec net latitude longitude start_date end_date active_groups
                temporal_resolution w) as [tail ->].
    destruct (extract_spec net latitude longitude start_date end_date succeeded_groups
                temporal_resolution w) as [tail' ->].
    rewrite datetime_of_date_ltb, Hdates. cbn [fst].
    unfold succeeded_groups. by rewrite frames_of_succeeded.
  - intros E. by apply Hnd in E.
  - intros Hall. rewrite <- Hsame. unfold run.
    destruct (extract_spec net latitude longitude start_date end_date active_groups
                temporal_resolution w) as [tail ->].
    rewrite datetime_of_date_ltb, Hdates. cbn [fst].
    unfold frames in *. 
    destruct (frames_of net latitude longitude start_date end_date active_groups)
      as [|first rest]; [done|].
    apply Forall_cons in Hall as [Hf Hall].
    destruct (post_process_ok temporal_resolution first rest Hf Hall) as [out Hout].
    exists out. split; [done|]. intros Hd Hm.
    destruct (post_process_hourly temporal_resolution first rest Hd Hm Hf Hall)
      as (out' & ts & Hout' & Hcols & Hk & Hsorted & Hel).
    rewrite Hout in Hout'. injection Hout' as <-.
    split; [done|]. by exists ts.
Qed.

Lemma partial_failure_tolerated_witness :
  let groups := [("basic_weather", true); ("soil", true)] in
  let run groups := extract_weather_data_multi net_soil_only 0 0 (mkDate 2024 1 1)
                      (mkDate 2024 1 2) groups "hourly" world0 in
  let frames := frames_of net_soil_only 0 0 (mkDate 2024 1 1) (mkDate 2024 1 2) in
  let succeeded_groups :=
    List.filter (succeeded net_soil_only 0 0 (mkDate 2024 1 1) (mkDate 2024 1 2)) groups in
  (∃ l, l ∈ console (run groups).2 ∧ warns_of "basic_weather" l)
  ∧ fetched (net_soil_only
               (request_for 0 0 (mkDate 2024 1 1) (mkDate 2024 1 2)
                  [ "temperature_2m"; "apparent_temperature"; "relative_humidity_2m";
                    "dewpoint_2m"; "precipitation"; "rain"; "snowfall"; "wind_speed_10m";
                    "wind_direction_10m"; "pressure_msl"; "surface_pressure";
                    "cloud_cover"; "cloud_cover_low"; "cloud_cover_mid";
                    "cloud_cover_high" ])) = None
  ∧ (("basic_weather", true) ∉ succeeded_groups)
  ∧ frames groups = frames succeeded_groups
  ∧ (run groups).1 = (run succeeded_groups).1
  ∧ (run groups).1 ≠ Raise NoDataRetrieved
  ∧ (Forall fetched_table (frames groups) →
     ∃ out, (run groups).1 = Ok out
       ∧ ("hourly" ≠ "daily" → "hourly" ≠ "monthly" →
          (∀ c, c ∈ columns out ↔ ∃ df, df ∈ frames succeeded_groups ∧ c ∈ columns df)
          ∧ ∃ ts, time_keys out = Ok ts ∧ StronglySorted key_le ts
              ∧ ∀ t, t ∈ ts ↔ ∃ df tf, df ∈ frames succeeded_groups
                                       ∧ time_keys df = Ok tf ∧ t ∈ tf)).
Proof.
  apply (partial_failure_tolerated net_soil_only 0 0 (mkDate 2024 1 1) (mkDate 2024 1 2)
           [("basic_weather", true); ("soil", true)] "hourly" world0 "basic_weather"
           [ "temperature_2m"; "apparent_temperature"; "relative_humidity_2m";
             "dewpoint_2m"; "precipitation"; "rain"; "snowfall"; "wind_speed_10m";
             "wind_direction_10m"; "pressure_msl"; "surface_pressure"; "cloud_cover";
             "cloud_cover_low"; "cloud_cover_mid"; "cloud_cover_high" ]).
  - reflexivity.
  - left.
  - reflexivity.
  - exact I.
  - vm_compute. discriminate.
Defined.

(** The run of the witness: the soil table is returned although the
    request for basic_weather failed; and a run in which two groups
    succeed and the third answers with a server error returns the table
    of the two. *)
Example soil_survives_basic_weather_failure :
  (extract_weather_data_multi net_soil_only 0 0 (mkDate 2024 1 1) (mkDate 2024 1 2)
     [("basic_weather", true); ("soil", true)] "hourly" world0).1
  = Ok ex_soil.
Proof. by vm_compute. Qed.

Example two_groups_survive_server_error :
  (extract_weather_data_multi net_two_days 0 0 (mkDate 2024 1 1) (mkDate 2024 1 2)
     [("basic_weather", true); ("solar_radiation", true); ("soil", true)] "hourly"
     world0).1
  = Ok [ ("time", Datetime64 [hour_of 1 0; hour_of 1 1; hour_of 1 2; hour_of 1 23;
                              hour_of 2 0]);
         ("temperature_2m", Float64 [Some 10; Some 20; Some 30; None; None]%Q);
         ("soil_temperature_0cm", Float64 [None; None; None; Some 4; Some 5]%Q) ].
Proof. by vm_compute. Qed.

(** * Further properties of the pipeline *)

(** ** The resolution argument *)

(** X1.  The resolution is compared with 'daily' and 'monthly' only: any
    other value (a misspelt or differently capitalised one included) is
    treated as 'hourly'.  The run returns what the hourly run returns, the
    merged table sorted by time without resampling, and sends the same
    requests. *)
Theorem unknown_resolution_is_hourly (net : Request → Response) (latitude longitude : Q)
    (start_date end_date : Date) (active_groups : list (string * bool))
    (temporal_resolution : string) (w : World) :
  temporal_resolution ≠ "daily" → temporal_resolution ≠ "monthly" →
  let run r := extract_weather_data_multi net latitude longitude start_date end_date
                 active_groups r w in
  (run temporal_resolution).1 = (run "hourly").1
  ∧ sent (run temporal_resolution).2 = sent (run "hourly").2
  ∧ (key_ltb end_date start_date = false →
     (run temporal_resolution).1
     = match frames_of net latitude longitude start_date end_date active_groups with
       | [] => Raise NoDataRetrieved
       | first :: rest => merge_all first rest ≫= sort_values
       end).
Proof.
  intros Hd Hm run. unfold run.
  destruct (extract_spec net latitude longitude start_date end_date active_groups
              temporal_resolution w) as [t1 ->].
  destruct (extract_spec net latitude longitude start_date end_date active_groups
              "hourly" w) as [t2 ->].
  rewrite datetime_of_date_ltb.
  destruct (key_ltb end_date start_date); [done|]. cbn [fst snd sent].
  destruct (frames_of _ _ _ _ _ _) as [|first rest]; [done|].
  by rewrite !post_process_other.
Qed.

Lemma unknown_resolution_is_hourly_witness :
  let run r := extract_weather_data_multi net_soil_only 0 0 (mkDate 2024 1 1)
                 (mkDate 2024 1 2) [("soil", true)] r world0 in
  (run "Daily").1 = (run "hourly").1
  ∧ sent (run "Daily").2 = sent (run "hourly").2
  ∧ (key_ltb (mkDate 2024 1 2) (mkDate 2024 1 1) = false →
     (run "Daily").1
     = match frames_of net_soil_only 0 0 (mkDate 2024 1 1) (mkDate 2024 1 2)
               [("soil", true)] with
       | [] => Raise NoDataRetrieved
       | first :: rest => merge_all first rest ≫= sort_values
       end).
Proof.
  apply (unknown_resolution_is_hourly net_soil_only 0 0 (mkDate 2024 1 1)
           (mkDate 2024 1 2) [("soil", true)] "Daily" world0); discriminate.
Defined.

(** ** Labels with the duplicate suffix *)

Lemma merge_all_no_dup_label rest : ∀ acc m,
  Forall (λ c, endswith c "_dup" = false) (columns acc) →
  merge_all acc rest = Ok m →
  Forall (λ c, endswith c "_dup" = false) (columns m).
Proof.
  induction rest as [|df rest IH]; intros acc m Hacc Hm; simpl in Hm.
  - by injection Hm as <-.
  - apply bind_ok in Hm as (m1 & _ & Hm).
    apply (IH _ _ (drop_dup_cols_no_dup_label m1) Hm).
Qed.

(** X2.  Once a second frame has been merged, no label of the merged table
    ends with [_dup]: the filter of lines 143-144 goes by the name alone, so
    it also removes a column that came from the archive under such a name.
    A run that collects a single frame merges nothing and keeps it. *)
Theorem merged_labels_never_end_in_dup (first df : DataFrame) (rest : list DataFrame)
    (m : DataFrame) :
  merge_all first (df :: rest) = Ok m →
  Forall (λ c, endswith c "_dup" = false) (columns m)
  ∧ merge_all first [] = Ok first.
Proof.
  intros Hm. split; [|done]. simpl in Hm.
  apply bind_ok in Hm as (m1 & _ & Hm).
  apply (merge_all_no_dup_label _ _ _ (drop_dup_cols_no_dup_label m1) Hm).
Qed.

Lemma merged_labels_never_end_in_dup_witness :
  Forall (λ c, endswith c "_dup" = false)
    (columns [ ("time", Datetime64 [hour_of 1 0; hour_of 1 2; hour_of 1 3]);
               ("soil_temperature_0cm", Float64 [None; Some 4; Some 5]%Q) ])
  ∧ merge_all ex_gust_dup [] = Ok ex_gust_dup.
Proof.
  apply (merged_labels_never_end_in_dup ex_gust_dup ex_soil []). by vm_compute.
Defined.

(** ** The summary of a table without a time column *)

(** X3.  [get_daily_summary] checks for the ['time'] column before it
    touches its argument: on a table without one it raises the
    [ValueError] of line 267 and the caller's table is left as it was. *)
Theorem daily_summary_requires_time (h : Heap) (r : loc) (df : DataFrame) :
  h !! r = Some df → "time" ∉ columns df →
  get_daily_summary r h = (Raise (ValueError "Data must have a 'time' column"), h).
Proof.
  intros Hr Ht%mem_not_elem_of.
  unfold get_daily_summary, mbind, st_bind, load at 1. by rewrite Hr, Ht.
Qed.

Lemma daily_summary_requires_time_witness :
  get_daily_summary 0%nat {[ 0%nat := ex_no_time ]}
  = (Raise (ValueError "Data must have a 'time' column"), {[ 0%nat := ex_no_time ]}).
Proof.
  apply (daily_summary_requires_time {[ 0%nat := ex_no_time ]} 0%nat ex_no_time).
  - reflexivity.
  - intros Hin. repeat (apply elem_of_cons in Hin as [Hin|Hin]; [discriminate Hin|]).
    by apply elem_of_nil in Hin.
Defined.

(** ** Sorting, whatever the sort does with equal keys *)

Section SortedLists.
Context {K : Type} `{KeyOrder K}.

(** A list has one arrangement in non-decreasing order. *)
Lemma sorted_le_perm_eq (l1 l2 : list K) :
  StronglySorted key_le l1 → StronglySorted key_le l2 → Permutation l1 l2 → l1 = l2.
Proof.
  intros H1. revert l2. induction H1 as [|a l1 Hs1 IH Ha]; intros l2 H2 Hp.
  - by apply Permutation_nil_l in Hp.
  - destruct H2 as [|b l2 Hs2 Hb].
    { by apply Permutation_sym, Permutation_nil_l in Hp. }
    assert (a = b) as <-.
    { rewrite Forall_forall in Ha. rewrite Forall_forall in Hb.
      assert (a ∈ b :: l2) as Hin by (rewrite <- Hp; left).
      assert (b ∈ a :: l1) as Hin' by (rewrite Hp; left).
      apply elem_of_cons in Hin as [?|Hin]; [done|].
      apply elem_of_cons in Hin' as [?|Hin']; [done|].
      apply Hb in Hin. apply Ha in Hin'. unfold key_le in *. by apply key_ltb_total. }
    f_equal. apply IH; [done|]. by apply Permutation_cons_inv in Hp.
Qed.
End SortedLists.

Lemma take_seq_id {A} (l pre : list (option A)) :
  take (Some <$> seq (length pre) (length l)) (pre ++ l) = l.
Proof.
  revert pre. induction l as [|x l IH]; intros pre; [done|].
  cbn [length seq fmap list_fmap]. unfold take in *. cbn [map mbind option_bind].
  rewrite lookup_app_r, Nat.sub_diag by done. cbn [lookup list_lookup mjoin option_join].
  f_equal. specialize (IH (pre ++ [x])).
  rewrite length_app, Nat.add_1_r, <- app_assoc in IH. exact IH.
Qed.

Lemma series_take_seq_id (s : Series) :
  series_take (Some <$> seq 0 (series_len s)) s = s.
Proof. destruct s; simpl; f_equal; apply (take_seq_id _ []). Qed.

Lemma frame_take_seq_id (n : nat) (df : DataFrame) :
  aligned n df → frame_take (Some <$> seq 0 n) df = df.
Proof.
  induction 1 as [|[c s] df Hs _ IH]; [done|].
  cbn [frame_take map fst snd] in *. fold (frame_take (Some <$> seq 0 n) df).
  rewrite IH. f_equal. f_equal. rewrite <- Hs. apply series_take_seq_id.
Qed.

(** Reading a list through a permutation of its row numbers permutes it;
    and a list without repetitions is read by one list of row numbers
    only. *)
Lemma take_perm {A} (p : list nat) (ks : list (option A)) :
  Permutation p (seq 0 (length ks)) → Permutation (take (Some <$> p) ks) ks.
Proof.
  intros Hp. rewrite <- (take_seq_id ks []) at 2. cbn [length].
  unfold take. change (map ?f ?l) with (f <$> l). by rewrite Hp.
Qed.

Lemma take_inj {A} (ks : list (option A)) (p q : list nat) :
  NoDup ks → Forall (λ i, i < length ks)%nat p → Forall (λ i, i < length ks)%nat q →
  take (Some <$> p) ks = take (Some <$> q) ks → p = q.
Proof.
  intros Hnd Hp. revert q. induction Hp as [|i p Hi Hp IH]; intros q Hq E.
  - destruct q; [done|]. discriminate E.
  - destruct Hq as [|j q Hj Hq]; [discriminate E|].
    cbn [fmap list_fmap] in E. unfold take in E. cbn [map mbind option_bind] in E.
    injection E as E1 E2.
    apply lookup_lt_is_Some in Hi as [a Ha]. apply lookup_lt_is_Some in Hj as [b Hb].
    rewrite Ha, Hb in E1. cbn [mjoin option_join] in E1. subst b.
    f_equal; [by apply (NoDup_lookup ks i j a)|]. by apply IH.
Qed.

Section Sorting.
Context `{Library} `{!SortLaws}.

(** The sorted table and its timestamps. *)
Lemma sort_values_rows df ks :
  time_keys df = Ok ks →
  sort_values df = Ok (frame_take (Some <$> nargsort ks) df)
  ∧ time_keys (frame_take (Some <$> nargsort ks) df) = Ok (take (Some <$> nargsort ks) ks)
  ∧ aligned (length ks) (frame_take (Some <$> nargsort ks) df).
Proof.
  intros Hk. unfold sort_values. rewrite Hk. cbn [mbind result_bind].
  split; [done|]. split; [by apply time_keys_frame_take|].
  assert (length (Some <$> nargsort ks) = length ks) as <-.
  { by rewrite length_fmap, (Permutation_length (nargsort_perm ks)), length_seq. }
  apply aligned_frame_take.
Qed.

(** X4.  [sort_values('time')] reorders whole rows, whatever the sort does
    with rows of equal timestamps: every column is read through one and
    the same permutation of the row numbers.  The timestamps of the result
    are those of the table in non-decreasing order, missing ones last; the
    labels are unchanged.  Sorting the result again leaves its timestamps
    and labels as they are, and returns the very same table when the
    timestamps are pairwise distinct. *)
Theorem sort_values_sorts (df : DataFrame) (ks : list (option Timestamp)) :
  time_keys df = Ok ks →
  ∃ out sk p,
    sort_values df = Ok out
    ∧ Permutation p (seq 0 (length ks))
    ∧ out = frame_take (Some <$> p) df
    ∧ time_keys out = Ok sk
    ∧ sk = take (Some <$> p) ks
    ∧ StronglySorted key_le sk
    ∧ Permutation sk ks
    ∧ columns out = columns df
    ∧ (∃ again, sort_values out = Ok again
         ∧ time_keys again = Ok sk ∧ columns again = columns df)
    ∧ (NoDup ks → sort_values out = Ok out).
Proof.
  intros Hk. destruct (sort_values_rows df ks Hk) as (Hout & Hsk & Hal).
  set (out := frame_take (Some <$> nargsort ks) df) in *.
  set (sk := take (Some <$> nargsort ks) ks) in *.
  assert (Permutation sk ks) as Hperm by apply take_perm, nargsort_perm.
  assert (StronglySorted key_le sk) as Hsorted by apply nargsort_sorted.
  destruct (sort_values_rows out sk Hsk) as (Hout2 & Hsk2 & Hal2).
  assert (take (Some <$> nargsort sk) sk = sk) as Hfix.
  { apply sorted_le_perm_eq; [apply nargsort_sorted|done|].
    apply take_perm, nargsort_perm. }
  exists out, sk, (nargsort ks).
  split; [done|]. split; [apply nargsort_perm|]. split; [done|]. split; [done|].
  split; [done|]. split; [done|]. split; [done|].
  split; [apply columns_frame_take|]. split.
  - eexists. split; [exact Hout2|]. split; [by rewrite Hsk2, Hfix|].
    unfold out. by rewrite !columns_frame_take.
  - intros Hnd. rewrite Hout2. f_equal.
    assert (nargsort sk = seq 0 (length sk)) as ->.
    { assert (∀ q, Permutation q (seq 0 (length sk)) →
                   Forall (λ i, i < length sk)%nat q) as Hrange.
      { intros q Hq. rewrite Hq. apply Forall_forall. intros i Hi%elem_of_seq. lia. }
      apply (take_inj sk); [by rewrite Hperm|apply Hrange, nargsort_perm|by apply Hrange|].
      rewrite Hfix. symmetry. apply (take_seq_id sk []). }
    apply frame_take_seq_id. by rewrite (Permutation_length Hperm).
Qed.
End Sorting.

Lemma sort_values_sorts_witness :
  let ks := [hour_of 1 2; hour_of 1 0; None; hour_of 1 0] in
  ∃ out sk p,
    sort_values ex_unsorted = Ok out
    ∧ Permutation p (seq 0 (length ks))
    ∧ out = frame_take (Some <$> p) ex_unsorted
    ∧ time_keys out = Ok sk
    ∧ sk = take (Some <$> p) ks
    ∧ StronglySorted key_le sk
    ∧ Permutation sk ks
    ∧ columns out = columns ex_unsorted
    ∧ (∃ again, sort_values out = Ok again
         ∧ time_keys again = Ok sk ∧ columns again = columns ex_unsorted)
    ∧ (NoDup ks → sort_values out = Ok out).
Proof.
  apply (sort_values_sorts (H := ideal) ex_unsorted
           [hour_of 1 2; hour_of 1 0; None; hour_of 1 0]).
  reflexivity.
Defined.

(** The timestamps of the table of the witness after the sort: the
    repeated one twice, the missing one last. *)
Example sorted_with_repeated_and_missing :
  sort_values ex_unsorted ≫= time_keys
  = Ok [hour_of 1 0; hour_of 1 0; hour_of 1 2; None].
Proof. by vm_compute. Qed.

(** ** The rows of a resampled table *)

Section ResampledRows.
Context {K : Type} `{KeyOrder K}.
Variables (df : DataFrame) (ts : list (option Timestamp)).
Hypothesis Hdf : hourly_table df ts.

Lemma resampled_nrows (to_ts : K → Timestamp) (keys : list (option K)) stats :
  nrows (resampled to_ts keys stats df) = length (group_keys keys).
Proof. simpl. by rewrite !length_fmap. Qed.
End ResampledRows.


(** ** The number of rows *)

Lemma dropna_length {A} (xs : list (option A)) : (length (dropna xs) ≤ length xs)%nat.
Proof.
  unfold dropna. induction xs as [|[x|] xs IH]; simpl; unfold omap in *; lia.
Qed.

Lemma group_keys_length {K} `{KeyOrder K} (keys : list (option K)) :
  (length (group_keys keys) ≤ length keys)%nat.
Proof.
  unfold group_keys. etrans; [|apply dropna_length].
  apply submseteq_length, NoDup_submseteq; [apply sort_uniq_NoDup|].
  intros x. by rewrite elem_of_sort_uniq.
Qed.

Lemma months_le_days (ts : list (option Timestamp)) :
  (length (group_keys (map (fmap period_of) ts))
   ≤ length (group_keys (map (fmap date_of) ts)))%nat.
Proof.
  set (g := λ d : Date, mkMonth (d_year d) (d_month d)).
  rewrite <- (length_fmap g (group_keys (map (fmap date_of) ts))).
  apply submseteq_length, NoDup_submseteq; [apply sort_uniq_NoDup|].
  intros m Hm. apply elem_of_group_keys in Hm.
  change (map ?f ?l) with (f <$> l) in Hm.
  apply list_elem_of_fmap in Hm as ([t|] & E & Ht); [|done].
  injection E as ->. apply list_elem_of_fmap. exists (date_of t). split; [done|].
  apply elem_of_group_keys. change (map ?f ?l) with (f <$> l).
  apply list_elem_of_fmap. by exists (Some t).
Qed.

(** X6.  Resampling never adds rows: the monthly table has at most as many
    rows as the daily one, which has at most as many as the hourly table. *)
Theorem resampling_never_adds_rows (df : DataFrame) (ts : list (option Timestamp)) :
  hourly_table df ts →
  ∃ daily monthly,
    resample_to_daily df = Ok daily
    ∧ resample_to_monthly df = Ok monthly
    ∧ (nrows monthly ≤ nrows daily)%nat
    ∧ (nrows daily ≤ nrows df)%nat.
Proof.
  intros Hdf. eexists _, _.
  split; [by apply resample_to_daily_eq|]. split; [by apply resample_to_monthly_eq|].
  rewrite !resampled_nrows. split; [apply months_le_days|].
  rewrite <- (hourly_length_time df ts Hdf).
  etrans; [apply group_keys_length|]. by rewrite length_map.
Qed.

Lemma resampling_never_adds_rows_witness :
  ∃ daily monthly,
    resample_to_daily ex_temp = Ok daily
    ∧ resample_to_monthly ex_temp = Ok monthly
    ∧ (nrows monthly ≤ nrows daily)%nat
    ∧ (nrows daily ≤ nrows ex_temp)%nat.
Proof.
  apply (resampling_never_adds_rows ex_temp [hour_of 1 0; hour_of 1 1; hour_of 1 2]).
  solve_hourly_table.
Defined.

(** ** The daily summary, again *)

Lemma fresh_not_in (h : Heap) (r : loc) : is_Some (h !! r) → fresh (dom h) ≠ r.
Proof.
  intros Hr E. pose proof (is_fresh (dom h)) as Hf. rewrite E in Hf.
  by apply Hf, elem_of_dom.
Qed.






(** X8.  On an hourly table the summary and the daily resampling agree:
    they have the same number of rows, one per calendar date, the dates of
    the summary being the timestamps of the resampled table, and the
    columns v_mean, v_min and v_max of every variable v are the same in
    both.  The summary has the four columns v_sum in addition. *)
Theorem summary_agrees_with_daily_resampling (h : Heap) (r : loc) (df : DataFrame)
    (ts : list (option Timestamp)) :
  h !! r = Some df → hourly_table df ts →
  ∃ r' h' s out days,
    get_daily_summary r h = (Ok r', h')
    ∧ h' !! r' = Some s
    ∧ resample_to_daily df = Ok out
    ∧ get_col "date" s = Some (DateObj (Some <$> days))
    ∧ get_col "time" out = Some (Datetime64 (Some <$> (datetime_of_date <$> days)))
    ∧ nrows s = nrows out
    ∧ ∀ c xs stat,
        (c, Float64 xs) ∈ df → c ≠ "time" →
        (stat ∈ [Mean; Min; Max] →
           is_Some (get_col (stat_label c stat) s)
           ∧ get_col (stat_label c stat) s = get_col (stat_label c stat) out)
        ∧ is_Some (get_col (stat_label c Sum) s)
        ∧ get_col (stat_label c Sum) out = None.
Proof.
  intros Hr Hdf. pose proof (ht_time _ _ Hdf) as Ht.
  pose proof (get_daily_summary_eq h r df ts Hr Ht Hdf) as Hs. cbv zeta in Hs.
  set (dates := map (fmap date_of) ts).
  eexists _, _, _, _, (group_keys dates). split; [exact Hs|].
  split; [apply lookup_insert_eq|]. split; [by apply resample_to_daily_eq|].
  split; [done|]. split; [done|].
  split; [simpl; by rewrite !length_fmap|].
  intros c xs stat Hin Hc.
  assert (NoDup [Mean; Min; Max; Sum]) as Hnd4 by solve_NoDup.
  assert (NoDup [Mean; Min; Max]) as Hnd3 by solve_NoDup.
  split; [|split].
  - intros Hstat.
    assert (stat ∈ [Mean; Min; Max; Sum]) as Hstat4 by (rewrite !elem_of_cons in *; tauto).
    pose proof (get_col_stat_frame df ts Hdf dates "date"
                  (DateObj (Some <$> group_keys dates)) [Mean; Min; Max; Sum] c xs stat
                  Hnd4 ltac:(right; left) Hin Hc Hstat4) as E1.
    pose proof (get_col_stat_frame df ts Hdf dates "time"
                  (Datetime64 (Some <$> (datetime_of_date <$> group_keys dates)))
                  [Mean; Min; Max] c xs stat Hnd3 ltac:(left) Hin Hc Hstat) as E2.
    unfold daily_summary, resampled. fold dates. rewrite E1, E2. split; [by eexists|done].
  - pose proof (get_col_stat_frame df ts Hdf dates "date"
                  (DateObj (Some <$> group_keys dates)) [Mean; Min; Max; Sum] c xs Sum
                  Hnd4 ltac:(right; left) Hin Hc ltac:(do 3 right; left)) as E1.
    unfold daily_summary. fold dates. rewrite E1. by eexists.
  - apply get_col_None. rewrite (columns_resampled df ts Hdf).
    intros Hx%elem_of_cons. destruct Hx as [Hx|Hx].
    + apply (stat_label_not_key c Sum). rewrite <- Hx. left.
    + apply elem_of_stat_labels in Hx as (c' & s' & E & _ & Hs').
      apply stat_label_inj in E as [_ <-].
      repeat (apply elem_of_cons in Hs' as [Hs'|Hs']; [discriminate Hs'|]).
      by apply elem_of_nil in Hs'.
Qed.

Lemma summary_agrees_with_daily_resampling_witness :
  ∃ r' h' s out days,
    get_daily_summary 0%nat {[ 0%nat := ex_temp ]} = (Ok r', h')
    ∧ h' !! r' = Some s
    ∧ resample_to_daily ex_temp = Ok out
    ∧ get_col "date" s = Some (DateObj (Some <$> days))
    ∧ get_col "time" out = Some (Datetime64 (Some <$> (datetime_of_date <$> days)))
    ∧ nrows s = nrows out
    ∧ ∀ c xs stat,
        (c, Float64 xs) ∈ ex_temp → c ≠ "time" →
        (stat ∈ [Mean; Min; Max] →
           is_Some (get_col (stat_label c stat) s)
           ∧ get_col (stat_label c stat) s = get_col (stat_label c stat) out)
        ∧ is_Some (get_col (stat_label c Sum) s)
        ∧ get_col (stat_label c Sum) out = None.
Proof.
  apply (summary_agrees_with_daily_resampling {[ 0%nat := ex_temp ]} 0%nat ex_temp
           [hour_of 1 0; hour_of 1 1; hour_of 1 2]); [reflexivity|solve_hourly_table].
Defined.

(** ** The values of the joined rows *)

Section JoinRows.
Context {K : Type} `{KeyOrder K}.

Lemma index_of_lookup (k : K) (l : list K) (i : nat) :
  NoDup l → l !! i = Some k → index_of k l = Some i.
Proof.
  intros Hnd Hi. unfold index_of.
  destruct (positions_NoDup_in k l Hnd) as (i' & -> & Hi').
  { by eapply list_elem_of_lookup_2. }
  simpl. f_equal. by apply (NoDup_lookup l i' i k).
Qed.

Lemma index_of_not_in (k : K) (l : list K) : k ∉ l → index_of k l = None.
Proof. intros Hk. unfold index_of. by rewrite positions_not_in. Qed.

(** With distinct keys on each side, the joined rows are the keys of the
    union in ascending order, each with its row on either side. *)
Lemma join_index_rows (lk rk : list K) :
  NoDup lk → NoDup rk →
  join_index lk rk = (λ k, (index_of k lk, index_of k rk)) <$> sort_uniq (lk ++ rk).
Proof.
  intros Hl Hr. unfold join_index.
  assert (Forall (λ k, k ∈ lk ++ rk) (sort_uniq (lk ++ rk))) as Hall.
  { apply Forall_forall. intros k Hk. by apply (proj1 (elem_of_sort_uniq _ _)) in Hk. }
  induction Hall as [|k l Hk _ IH]; [done|].
  rewrite bind_cons, fmap_cons, IH. change (?x :: ?l) with ([x] ++ l). f_equal.
  unfold index_of.
  destruct (key_elem_of_dec k lk) as [Hkl|Hkl], (key_elem_of_dec k rk) as [Hkr|Hkr].
  - destruct (positions_NoDup_in k lk Hl Hkl) as (i & -> & _).
    by destruct (positions_NoDup_in k rk Hr Hkr) as (j & -> & _).
  - destruct (positions_NoDup_in k lk Hl Hkl) as (i & -> & _).
    by rewrite (positions_not_in k rk Hkr).
  - destruct (positions_NoDup_in k rk Hr Hkr) as (j & -> & _).
    by rewrite (positions_not_in k lk Hkl).
  - apply elem_of_app in Hk as [?|?]; done.
Qed.
End JoinRows.

Lemma take_lookup_row {A} (idx : list (option nat)) (xs : list (option A)) j oi :
  idx !! j = Some oi → take idx xs !! j = Some (oi ≫= λ i, mjoin (xs !! i)).
Proof.
  intros Hj. unfold take. change (map ?f ?l) with (f <$> l).
  by rewrite list_lookup_fmap, Hj.
Qed.

Lemma get_col_suffixed (to_rename : list string) (g : Series → Series) c (R : DataFrame) :
  c ∉ to_rename → endswith c "_dup" = false →
  get_col c (map (λ cs, (add_suffix to_rename "_dup" cs.1, g cs.2)) R) = g <$> get_col c R.
Proof.
  intros Hc Hend. induction R as [|[c0 s0] R IH]; [done|].
  cbn [map get_col fst snd]. unfold add_suffix at 1.
  destruct (mem c0 to_rename) eqn:E.
  - apply mem_elem_of in E.
    assert (String.eqb (c0 +:+ "_dup") c = false) as ->.
    { apply String.eqb_neq. intros <-. by rewrite endswith_append in Hend. }
    assert (String.eqb c0 c = false) as ->; [|exact IH].
    apply String.eqb_neq. by intros ->.
  - destruct (String.eqb c0 c); [done|exact IH].
Qed.

(** A column that only the incoming frame has is read at the right row
    numbers of the joined rows. *)
Lemma merge_new_column (A B m : DataFrame) ta tb c :
  time_keys A = Ok ta → time_keys B = Ok tb → merge A B = Ok m →
  c ∉ columns A → endswith c "_dup" = false →
  get_col c (drop_dup_cols m) = series_take (join_index ta tb).*2 <$> get_col c B.
Proof.
  intros Ha Hb Hm Hc Hend. apply merge_inv in Hm as (lk & rk & Hl & Hr & ->).
  rewrite Ha in Hl. rewrite Hb in Hr. injection Hl as <-. injection Hr as <-.
  assert (c ≠ "time") as Hne.
  { intros ->. by apply Hc, (time_keys_has_time A ta). }
  rewrite drop_dup_cols_filter, (get_col_filter_label (λ c, negb (endswith c "_dup")))
    by by rewrite Hend.
  unfold merged_frame. rewrite get_col_app.
  assert (get_col c (set_col "time" (Datetime64 (join_keys (join_index ta tb) ta tb))
                       (frame_take (join_index ta tb).*1 A)) = None) as ->.
  { apply get_col_None. rewrite set_col_present; rewrite columns_frame_take; [done|].
    by apply (time_keys_has_time A ta). }
  rewrite get_col_suffixed; [| |done].
  - rewrite get_col_drop_cols; [done|]. apply mem_not_elem_of.
    by intros ->%list_elem_of_singleton.
  - by intros [? _]%elem_of_filter_bool.
Qed.

(** X9.  The outer join keeps every value.  For frames with distinct
    timestamps, row j of the merged table carries the j-th timestamp of the
    union in ascending order; a column of the accumulator holds there the
    value of the accumulator's row with that timestamp, a column that only
    the incoming frame has holds the value of the incoming row with that
    timestamp, and either is missing where its frame has no such row. *)
Theorem outer_join_keeps_values (A B m : DataFrame) (ta tb : list (option Timestamp)) :
  time_keys A = Ok ta → time_keys B = Ok tb → NoDup ta → NoDup tb →
  merge A B = Ok m →
  let out := drop_dup_cols m in
  time_keys out = Ok (sort_uniq (ta ++ tb))
  ∧ ∀ j k, sort_uniq (ta ++ tb) !! j = Some k →
      (∀ c xs, get_col c A = Some (Float64 xs) → endswith c "_dup" = false →
         (∀ i, ta !! i = Some k → cell c j out = Some (mjoin (xs !! i)))
         ∧ (k ∉ ta → cell c j out = Some None))
      ∧ (∀ c ys, get_col c B = Some (Float64 ys) → c ∉ columns A →
           endswith c "_dup" = false →
           (∀ i, tb !! i = Some k → cell c j out = Some (mjoin (ys !! i)))
           ∧ (k ∉ tb → cell c j out = Some None)).
Proof.
  intros Ha Hb Hna Hnb Hm out.
  destruct (merge_keys_NoDup A B m ta tb Ha Hb Hna Hnb Hm) as [Hk _].
  split; [unfold out; by rewrite time_keys_drop_dup_cols|].
  intros j k Hj.
  assert ((join_index ta tb).*1 !! j = Some (index_of k ta)) as Hj1.
  { by rewrite (join_index_rows ta tb Hna Hnb), <- list_fmap_compose, list_lookup_fmap, Hj. }
  assert ((join_index ta tb).*2 !! j = Some (index_of k tb)) as Hj2.
  { by rewrite (join_index_rows ta tb Hna Hnb), <- list_fmap_compose, list_lookup_fmap, Hj. }
  split.
  - intros c xs Hc Hend.
    assert (cell c j out = Some (index_of k ta ≫= λ i, mjoin (xs !! i))) as ->.
    { unfold cell, out.
      assert (c ≠ "time") as Hne.
      { intros ->. apply time_keys_get_col in Ha. congruence. }
      rewrite (merge_first_writer_wins A B m ta tb c Ha Hb Hm); [| |done|done].
      - rewrite Hc. simpl. by apply take_lookup_row.
      - apply get_col_is_Some. by eexists. }
    split.
    + intros i Hi. by rewrite (index_of_lookup k ta i Hna Hi).
    + intros Hnk. by rewrite (index_of_not_in k ta Hnk).
  - intros c ys Hc HcA Hend.
    assert (cell c j out = Some (index_of k tb ≫= λ i, mjoin (ys !! i))) as ->.
    { unfold cell, out.
      rewrite (merge_new_column A B m ta tb c Ha Hb Hm HcA Hend), Hc. simpl.
      by apply take_lookup_row. }
    split.
    + intros i Hi. by rewrite (index_of_lookup k tb i Hnb Hi).
    + intros Hnk. by rewrite (index_of_not_in k tb Hnk).
Qed.

Lemma outer_join_keeps_values_witness :
  let out := drop_dup_cols ex_temp_soil in
  let ta := [hour_of 1 0; hour_of 1 1; hour_of 1 2] in
  let tb := [hour_of 1 2; hour_of 1 3] in
  time_keys out = Ok (sort_uniq (ta ++ tb))
  ∧ ∀ j k, sort_uniq (ta ++ tb) !! j = Some k →
      (∀ c xs, get_col c ex_temp = Some (Float64 xs) → endswith c "_dup" = false →
         (∀ i, ta !! i = Some k → cell c j out = Some (mjoin (xs !! i)))
         ∧ (k ∉ ta → cell c j out = Some None))
      ∧ (∀ c ys, get_col c ex_soil = Some (Float64 ys) → c ∉ columns ex_temp →
           endswith c "_dup" = false →
           (∀ i, tb !! i = Some k → cell c j out = Some (mjoin (ys !! i)))
           ∧ (k ∉ tb → cell c j out = Some None)).
Proof.
  apply (outer_join_keeps_values ex_temp ex_soil ex_temp_soil
           [hour_of 1 0; hour_of 1 1; hour_of 1 2] [hour_of 1 2; hour_of 1 3]);
    try reflexivity.
  - solve_NoDup.
  - solve_NoDup.
Defined.

(** ** The requests of a run *)

Lemma omap_length_le {A B} (f : A → option B) (l : list A) :
  (length (omap f l) ≤ length l)%nat.
Proof.
  induction l as [|a l IH]; [done|]. cbn [omap list_omap length].
  unfold omap in *. destruct (f a); simpl; lia.
Qed.

(** X10.  What a run sends, whatever the resolution: the requests sent
    before are kept; every new request goes to the archive URL with the
    coordinates and dates of the call, the time zone 'auto' and a timeout
    of 60 seconds, and asks for the variables of one whole catalog group
    that the mapping enables, joined with commas; there is at most one
    request per entry of the mapping; and the requests do not depend on
    what the endpoint answers, so a failed group never stops the groups
    after it. *)
Theorem requests_are_catalog_groups (net : Request → Response) (latitude longitude : Q)
    (start_date end_date : Date) (active_groups : list (string * bool))
    (temporal_resolution : string) (w : World) :
  let run net := extract_weather_data_multi net latitude longitude start_date end_date
                   active_groups temporal_resolution w in
  ∃ new,
    sent (run net).2 = sent w ++ new
    ∧ (length new ≤ length active_groups)%nat
    ∧ (∀ r, r ∈ new →
         r = mkRequest base_url latitude longitude start_date end_date (hourly r) "auto" 60
         ∧ ∃ g vs, (g, true) ∈ active_groups ∧ (g, vs) ∈ VARIABLE_GROUPS
                   ∧ hourly r = String.concat "," vs)
    ∧ (∀ net', sent (run net').2 = sent (run net).2).
Proof.
  intros run.
  assert (∀ n, sent (run n).2
               = sent w ++ if key_ltb end_date start_date then []
                           else requests_of latitude longitude start_date end_date
                                  active_groups) as Hsent.
  { intros n. unfold run.
    destruct (extract_spec n latitude longitude start_date end_date active_groups
                temporal_resolution w) as [tail ->].
    rewrite datetime_of_date_ltb.
    destruct (key_ltb end_date start_date); [by rewrite app_nil_r|done]. }
  eexists. split; [apply Hsent|]. split; [|split].
  - destruct (key_ltb end_date start_date); [simpl; lia|].
    unfold requests_of. rewrite length_map. apply omap_length_le.
  - intros r Hr. destruct (key_ltb end_date start_date); [by apply elem_of_nil in Hr|].
    unfold requests_of in Hr.
    apply list_elem_of_In, in_map_iff in Hr as ([g vs] & <- & Hin%list_elem_of_In).
    split; [done|]. apply elem_of_planned in Hin as [Hin Hg]. exists g, vs.
    split; [done|]. split; [|done].
    clear -Hg. induction VARIABLE_GROUPS as [|[g' vs'] l IH]; [done|].
    simpl in Hg. destruct (String.eqb_spec g' g) as [->|_].
    + injection Hg as ->. left.
    + right. by apply IH.
  - intros n. by rewrite !Hsent.
Qed.

(** ** The daily run from end to end *)

Lemma sorted_keys_elem_of {K} `{KeyOrder K} (ks : list K) (k : K) :
  k ∈ sorted_keys ks ↔ k ∈ ks.
Proof. by rewrite (sorted_keys_perm ks). Qed.

(** The days of the tables that a run has merged and sorted. *)
Lemma post_process_daily (first : DataFrame) (rest : list DataFrame) :
  fetched_table first → Forall fetched_table rest →
  ∃ out days,
    post_process "daily" first rest = Ok out
    ∧ time_keys out
      = Ok (Some <$> ((λ d, mkTs (d_year d) (d_month d) (d_day d) 0 0) <$> days))
    ∧ nrows out = length days
    ∧ StronglySorted key_lt days
    ∧ ∀ d, d ∈ days ↔
        ∃ df ts t, df ∈ first :: rest ∧ time_keys df = Ok ts ∧ Some t ∈ ts
                   ∧ on_date d t = true.
Proof.
  intros Hf Hrest.
  destruct (merge_all_hourly rest first Hf Hrest) as (m & tm & Hm & Hhm).
  destruct Hf as [[tf Hf] Hfd]. pose proof (hourly_time_keys first tf Hf) as Hkf.
  destruct (merge_all_elems rest first m tf Hkf Hm) as (tm' & Hkm & Hel).
  rewrite (hourly_time_keys m tm Hhm) in Hkm. injection Hkm as <-.
  destruct (sort_values_hourly m tm Hhm) as (s & Hs & Hhs).
  set (dates := map (fmap date_of) (sorted_keys tm)).
  exists (resampled datetime_of_date dates [Mean; Min; Max] s), (group_keys dates).
  split.
  { unfold post_process. rewrite Hm. cbn [mbind result_bind]. rewrite Hs.
    cbn [mbind result_bind String.eqb Ascii.eqb Bool.eqb].
    by apply resample_to_daily_eq. }
  split; [done|]. split; [simpl; by rewrite !length_fmap|].
  split; [apply group_keys_sorted|].
  intros d. unfold dates.
  rewrite (elem_of_calendar_keys date_of on_date on_date_spec). split.
  - intros (t & Ht & Hd).
    apply sorted_keys_elem_of, Hel in Ht as [Ht|(df & t' & Hin & Hk' & Ht')].
    + exists first, tf, t. split; [left|done].
    + exists df, t', t. split; [by right|done].
  - intros (df & ts & t & Hin & Hk & Ht & Hd). exists t. split; [|done].
    apply sorted_keys_elem_of, Hel. apply elem_of_cons in Hin as [->|Hin].
    + left. rewrite Hkf in Hk. by injection Hk as ->.
    + right. by exists df, ts.
Qed.

(** X20.  The daily run from end to end.  When the date range is valid,
    at least one group yields a table and the tables fetched are well
    formed, the run with resolution 'daily' returns a table with exactly
    one row for every calendar date on which some fetched table has a
    timestamp, in strictly ascending order of the dates, stamped with
    midnight of the date. *)
Theorem daily_run_end_to_end (net : Request → Response) (latitude longitude : Q)
    (start_date end_date : Date) (active_groups : list (string * bool)) (w : World) :
  let frames := frames_of net latitude longitude start_date end_date active_groups in
  key_ltb end_date start_date = false → frames ≠ [] →
  Forall fetched_table frames →
  ∃ out days,
    (extract_weather_data_multi net latitude longitude start_date end_date
       active_groups "daily" w).1 = Ok out
    ∧ time_keys out
      = Ok (Some <$> ((λ d, mkTs (d_year d) (d_month d) (d_day d) 0 0) <$> days))
    ∧ nrows out = length days
    ∧ StronglySorted key_lt days
    ∧ ∀ d, d ∈ days ↔
        ∃ df ts t, df ∈ frames ∧ time_keys df = Ok ts ∧ Some t ∈ ts
                   ∧ on_date d t = true.
Proof.
  intros frames Hd Hne Hwf.
  destruct (extract_spec net latitude longitude start_date end_date active_groups
              "daily" w) as [tail ->].
  rewrite datetime_of_date_ltb, Hd. cbn [fst]. fold frames.
  destruct frames as [|first rest]; [done|].
  apply Forall_cons in Hwf as [Hf Hrest].
  by apply post_process_daily.
Qed.

Lemma daily_run_end_to_end_witness :
  let groups := [("basic_weather", true); ("solar_radiation", true); ("soil", true)] in
  ∃ out days,
    (extract_weather_data_multi net_two_days 0 0 (mkDate 2024 1 1) (mkDate 2024 1 2)
       groups "daily" world0).1 = Ok out
    ∧ time_keys out
      = Ok (Some <$> ((λ d, mkTs (d_year d) (d_month d) (d_day d) 0 0) <$> days))
    ∧ nrows out = length days
    ∧ StronglySorted key_lt days
    ∧ ∀ d, d ∈ days ↔
        ∃ df ts t,
          df ∈ frames_of net_two_days 0 0 (mkDate 2024 1 1) (mkDate 2024 1 2) groups
          ∧ time_keys df = Ok ts ∧ Some t ∈ ts ∧ on_date d t = true.
Proof.
  apply (daily_run_end_to_end net_two_days 0 0 (mkDate 2024 1 1) (mkDate 2024 1 2)
           [("basic_weather", true); ("solar_radiation", true); ("soil", true)] world0).
  - reflexivity.
  - by vm_compute.
  - change (Forall fetched_table [ex_temp; ex_soil_night]).
    repeat (constructor;
            [split; [eexists; solve_hourly_table|];
             by repeat (constructor; [reflexivity|])|]).
    constructor.
Defined.

(** The run of the witness: three hours of the first day from one group,
    its last hour and the first hour of the second day from another. *)
Example daily_run_of_two_days :
  (extract_weather_data_multi net_two_days 0 0 (mkDate 2024 1 1) (mkDate 2024 1 2)
     [("basic_weather", true); ("solar_radiation", true); ("soil", true)] "daily"
     world0).1
  = Ok [ ("time", Datetime64 [Some (mkTs 2024 1 1 0 0); Some (mkTs 2024 1 2 0 0)]);
         ("temperature_2m_mean", Float64 [Some 20%Q; None]);
         ("temperature_2m_min", Float64 [Some 10%Q; None]);
         ("temperature_2m_max", Float64 [Some 30%Q; None]);
         ("soil_temperature_0cm_mean", Float64 [Some 4; Some 5]%Q);
         ("soil_temperature_0cm_min", Float64 [Some 4; Some 5]%Q);
         ("soil_temperature_0cm_max", Float64 [Some 4; Some 5]%Q) ].
Proof. by vm_compute. Qed.

(** * The command line *)

(** ** Commands that send nothing *)

Lemma offline_ret {A} (a : A) : offline (mret a : CLI A).
Proof. done. Qed.

Lemma offline_crash {A} (c : crash) : offline (crash_with c : CLI A).
Proof. done. Qed.

Lemma offline_say (o : Output) : offline (say o).
Proof. done. Qed.

Lemma offline_obj {A} (m : ST Heap A) : offline (obj m).
Proof. intros s. unfold obj. by destruct (m (objects s)). Qed.

Lemma offline_write fs (c : WriteCall) : offline (write fs c).
Proof. done. Qed.

Lemma offline_item {A} (key : string) (v : option A) : offline (item key v).
Proof. by destruct v. Qed.

Lemma bind_offline {A B} (m : CLI A) (f : A → CLI B) (s : Session) :
  (∀ a, offline (f a)) → sent_requests ((m ≫= f) s).2 = sent_requests (m s).2.
Proof.
  intros Hf. unfold mbind, cli_bind. destruct (m s) as [[a|c] s']; [apply Hf|done].
Qed.

Lemma offline_bind {A B} (m : CLI A) (f : A → CLI B) :
  offline m → (∀ a, offline (f a)) → offline (m ≫= f).
Proof. intros Hm Hf s. by rewrite bind_offline, Hm. Qed.

Lemma offline_for_each {A} (l : list A) (body : A → CLI unit) :
  (∀ x, offline (body x)) → offline (for_each l body).
Proof.
  intros Hb. induction l as [|x l IH]; [done|].
  apply offline_bind; [apply Hb|]. intros _. apply IH.
Qed.

Lemma offline_list_groups : offline list_groups.
Proof.
  unfold list_groups. generalize VARIABLE_GROUPS. intros groups.
  apply offline_bind; [apply offline_say|]. intros _.
  apply offline_bind; [apply offline_say|]. intros _.
  apply offline_for_each. intros gv. apply offline_bind; [apply offline_say|].
  intros _. apply offline_for_each. intros var. apply offline_say.
Qed.

Lemma offline_daily_part fs (config : Config) (df : DataFrame) :
  offline (daily_part fs config df).
Proof.
  unfold daily_part.
  apply offline_bind; [apply offline_say|]. intros _.
  apply offline_bind; [apply offline_obj|]. intros r.
  apply offline_bind; [apply offline_obj|]. intros r'.
  apply offline_bind; [apply offline_obj|]. intros d.
  apply offline_bind; [apply offline_say|]. intros _.
  destruct (cfg_output_file config) as [[|a p]|]; try apply offline_ret.
  apply offline_bind; [apply offline_write|]. intros _. apply offline_say.
Qed.

(** ** The output file of the pipeline *)

Section OutputFile.
Variables (net : Request → Response) (fs : WriteCall → option crash).
Variables (latitude longitude : Q) (start_date end_date : Date)
          (active_groups : list (string * bool)) (temporal_resolution : string).

(** The run with an output file, by the run without one. *)
Lemma extract_file_spec (output_file : option string) (s : Session) :
  let run := extract_weather_data_multi net latitude longitude start_date end_date
               active_groups temporal_resolution (mkWorld (sent_requests s) []) in
  let s1 := mkSession (sent run.2) (terminal s ++ (Pipeline <$> console run.2))
              (written s) (objects s) in
  extract_weather_data_multi_file net fs latitude longitude start_date end_date
    active_groups temporal_resolution output_file s
  = match run.1 with
    | Raise e => (Crash (Exception e), s1)
    | Ok df =>
        match output_file with
        | Some (String a p) =>
            let call := mkWrite (String a p) CsvFile df in
            match fs call with
            | None =>
                (Done df,
                 mkSession (sent run.2)
                   (terminal s ++ (Pipeline <$> console run.2) ++ [Saved (String a p)])
                   (written s ++ [call]) (objects s))
            | Some c =>
                (Crash c,
                 mkSession (sent run.2) (terminal s ++ (Pipeline <$> console run.2))
                   (written s ++ [call]) (objects s))
            end
        | _ => (Done df, s1)
        end
    end.
Proof.
  cbv zeta. unfold extract_weather_data_multi_file, mbind, cli_bind, io.
  destruct (extract_weather_data_multi _ _ _ _ _ _ _ _) as [[df|e] w]; cbn [fst snd of_result];
    [|done].
  destruct output_file as [[|a p]|]; try done.
  unfold write, say, mret, cli_ret. cbn [sent_requests terminal written objects].
  destruct (fs _); [done|]. by rewrite <- app_assoc.
Qed.
End OutputFile.

(** X11.  The output file of the pipeline is written last and only on
    success.  A run that raises (an invalid date range and a run without
    data included) calls no writer; a run that returns a table with a
    non-empty [output_file] calls the CSV writer once, on that path and on
    the very table it returns, and prints the confirmation only if the
    writer did not raise; with no [output_file], or an empty one, nothing
    is written. *)
Theorem output_file_written_on_success (net : Request → Response)
    (fs : WriteCall → option crash) (latitude longitude : Q) (start_date end_date : Date)
    (active_groups : list (string * bool)) (temporal_resolution : string)
    (output_file : option string) (s : Session) :
  let run := extract_weather_data_multi net latitude longitude start_date end_date
               active_groups temporal_resolution (mkWorld (sent_requests s) []) in
  let out := extract_weather_data_multi_file net fs latitude longitude start_date end_date
               active_groups temporal_resolution output_file s in
  sent_requests out.2 = sent run.2
  ∧ objects out.2 = objects s
  ∧ (∀ e, run.1 = Raise e →
       out.1 = Crash (Exception e) ∧ written out.2 = written s
       ∧ terminal out.2 = terminal s ++ (Pipeline <$> console run.2))
  ∧ (key_ltb end_date start_date = true
     ∨ frames_of net latitude longitude start_date end_date active_groups = [] →
     written out.2 = written s)
  ∧ (∀ df, run.1 = Ok df →
       if truthy output_file
       then ∃ path, output_file = Some path
              ∧ written out.2 = written s ++ [mkWrite path CsvFile df]
              ∧ match fs (mkWrite path CsvFile df) with
                | None =>
                    out.1 = Done df
                    ∧ terminal out.2
                      = terminal s ++ (Pipeline <$> console run.2) ++ [Saved path]
                | Some c =>
                    out.1 = Crash c
                    ∧ terminal out.2 = terminal s ++ (Pipeline <$> console run.2)
                end
       else out.1 = Done df ∧ written out.2 = written s
            ∧ terminal out.2 = terminal s ++ (Pipeline <$> console run.2)).
Proof.
  intros run out. unfold out.
  rewrite (extract_file_spec net fs latitude longitude start_date end_date active_groups
             temporal_resolution output_file s). cbv zeta. fold run.
  assert (key_ltb end_date start_date = true
          ∨ frames_of net latitude longitude start_date end_date active_groups = [] →
          ∃ e, run.1 = Raise e) as Hfail.
  { unfold run.
    destruct (extract_spec net latitude longitude start_date end_date active_groups
                temporal_resolution (mkWorld (sent_requests s) [])) as [tail ->].
    rewrite datetime_of_date_ltb. intros [-> | Hf]; [by eexists|].
    destruct (key_ltb end_date start_date); [by eexists|]. rewrite Hf. by eexists. }
  destruct run.1 as [df|e] eqn:Er.
  - split; [by destruct output_file as [[|a p]|]; try destruct (fs _)|].
    split; [by destruct output_file as [[|a p]|]; try destruct (fs _)|].
    split; [done|].
    split; [intros Hf; by destruct (Hfail Hf)|].
    intros df' [= <-]. destruct output_file as [[|a p]|]; cbn [truthy]; try done.
    exists (String a p). split; [done|]. by destruct (fs _).
  - split; [done|]. split; [done|]. split; [by intros e' [= <-]|]. split; done.
Qed.

(** ** The closing report *)

Lemma outcome_line_no_report (g : string) (r : Response) :
  is_report (outcome_line g r) = false.
Proof.
  destruct r as [e|status [e|[[e|payload]|]]]; simpl;
    try destruct (raise_for_status status); try done.
  by destruct (frame_of_hourly payload).
Qed.

Lemma lines_of_no_report (net : Request → Response) (latitude longitude : Q)
    (start_date end_date : Date) (active_groups : list (string * bool)) :
  Forall (λ l, is_report l = false)
    (lines_of net latitude longitude start_date end_date active_groups).
Proof.
  unfold lines_of. induction (planned active_groups) as [|gv l IH]; [constructor|].
  cbn [flat_map app]. repeat (constructor; [done|]).
  constructor; [apply outcome_line_no_report|exact IH].
Qed.

(** The lines of the pipeline: the report is printed when the table is
    there, as the last three lines. *)
Lemma pipeline_report (net : Request → Response) (latitude longitude : Q)
    (start_date end_date : Date) (active_groups : list (string * bool))
    (temporal_resolution : string) (w : World) :
  let run := extract_weather_data_multi net latitude longitude start_date end_date
               active_groups temporal_resolution w in
  ∃ lines,
    console run.2 = console w ++ lines
    ∧ match run.1 with
      | Ok out =>
          ∃ before,
            lines = before ++ [ TotalRecords (nrows out);
                                TotalVariables (Z.of_nat (length (columns out)) - 1);
                                Resolution temporal_resolution ]
            ∧ Forall (λ l, is_report l = false) before
      | Raise _ => Forall (λ l, is_report l = false) lines
      end.
Proof.
  intros run. unfold run. clear run.
  destruct (extract_weather_data_multi _ _ _ _ _ _ _ _) as [res w'] eqn:E. cbn [fst snd].
  unfold extract_weather_data_multi in E.
  destruct (key_ltb _ _).
  { injection E as <- <-. exists []. split; [by rewrite app_nil_r|constructor]. }
  unfold mbind at 1, st_bind at 1 in E. rewrite fetch_groups_spec in E. cbn [app] in E.
  pose proof (lines_of_no_report net latitude longitude start_date end_date active_groups)
    as Hl.
  set (ls := lines_of net latitude longitude start_date end_date active_groups) in *.
  assert (∀ extra, Forall (λ l, is_report l = false) extra →
                   Forall (λ l, is_report l = false) (ls ++ extra)) as Hls.
  { intros extra He. apply Forall_app. by split. }
  destruct (frames_of _ _ _ _ _ _) as [|first rest].
  { injection E as <- <-. exists ls. split; [done|]. exact Hl. }
  unfold _resample_to_daily, _resample_to_monthly,
    mbind, st_bind, result_bind, print, lift, mret, st_ret in E.
  cbn [sent console] in E.
  destruct (merge_all first rest) as [m|e].
  2:{ injection E as <- <-. exists (ls ++ [Merging]). cbn [console].
      split; [by rewrite <- !app_assoc|]. apply Hls. by repeat constructor. }
  destruct (sort_values m) as [s|e].
  2:{ injection E as <- <-. exists (ls ++ [Merging]). cbn [console].
      split; [by rewrite <- !app_assoc|]. apply Hls. by repeat constructor. }
  destruct (String.eqb temporal_resolution "daily").
  { cbn [sent console] in E. destruct (resample_to_daily s) as [out|e];
      injection E as <- <-; cbn [console].
    - eexists. split; [by rewrite <- !app_assoc|].
      exists (ls ++ [Merging; ConvertingDaily]). split; [by rewrite <- !app_assoc|].
      apply Hls. by repeat constructor.
    - exists (ls ++ [Merging; ConvertingDaily]). split; [by rewrite <- !app_assoc|].
      apply Hls. by repeat constructor. }
  destruct (String.eqb temporal_resolution "monthly").
  { cbn [sent console] in E. destruct (resample_to_monthly s) as [out|e];
      injection E as <- <-; cbn [console].
    - eexists. split; [by rewrite <- !app_assoc|].
      exists (ls ++ [Merging; ConvertingMonthly]). split; [by rewrite <- !app_assoc|].
      apply Hls. by repeat constructor.
    - exists (ls ++ [Merging; ConvertingMonthly]). split; [by rewrite <- !app_assoc|].
      apply Hls. by repeat constructor. }
  cbn [sent console] in E. injection E as <- <-. cbn [console].
  eexists. split; [by rewrite <- !app_assoc|].
  exists (ls ++ [Merging]). split; [by rewrite <- !app_assoc|].
  apply Hls. by repeat constructor.
Qed.

Lemma pipeline_lines_no_report (lines : list Line) :
  Forall (λ l, is_report l = false) lines →
  Forall (λ o, reports o = false) (Pipeline <$> lines).
Proof. intros Hl. apply Forall_fmap. exact Hl. Qed.

(** X21.  The closing report.  A run prints "Total merged records",
    "Total variables" and "Temporal resolution" only once it has the table
    that it returns: they give the number of rows of that table, the
    number of its columns less one (after a resampling these are the
    statistic columns, several per variable), and the resolution as it was
    passed.  They are the last three lines of a run that returns, followed
    only by "Data saved to" when an output file is given.  A run that
    raises has printed none of them, unless it is the writer of the output
    file that raises: then the three lines are the last ones printed. *)
Theorem closing_report (net : Request → Response) (fs : WriteCall → option crash)
    (latitude longitude : Q) (start_date end_date : Date)
    (active_groups : list (string * bool)) (temporal_resolution : string)
    (output_file : option string) (s : Session) :
  let out := extract_weather_data_multi_file net fs latitude longitude start_date end_date
               active_groups temporal_resolution output_file s in
  let report df :=
    [ Pipeline (TotalRecords (nrows df));
      Pipeline (TotalVariables (Z.of_nat (length (columns df)) - 1));
      Pipeline (Resolution temporal_resolution) ] in
  ∃ lines,
    terminal out.2 = terminal s ++ lines
    ∧ match out.1 with
      | Done df =>
          ∃ before,
            Forall (λ o, reports o = false) before
            ∧ lines = before ++ report df
                      ++ match output_file with
                         | Some (String a p) => [Saved (String a p)]
                         | _ => []
                         end
      | Crash c =>
          Forall (λ o, reports o = false) lines
          ∨ ∃ df path before,
              output_file = Some path ∧ path ≠ ""
              ∧ fs (mkWrite path CsvFile df) = Some c
              ∧ Forall (λ o, reports o = false) before
              ∧ lines = before ++ report df
      end.
Proof.
  intros out report. unfold out.
  rewrite (extract_file_spec net fs latitude longitude start_date end_date active_groups
             temporal_resolution output_file s). cbv zeta.
  destruct (pipeline_report net latitude longitude start_date end_date active_groups
              temporal_resolution (mkWorld (sent_requests s) [])) as (lines & Hc & Hl).
  cbn [console app] in Hc. rewrite Hc.
  destruct (extract_weather_data_multi _ _ _ _ _ _ _ _).1 as [df|e].
  - destruct Hl as (before & -> & Hb). apply pipeline_lines_no_report in Hb.
    rewrite fmap_app. fold (report df).
    destruct output_file as [[|a p]|].
    + eexists. split; [done|]. exists (Pipeline <$> before). by rewrite app_nil_r.
    + destruct (fs _) as [c|] eqn:Efs; cbn [fst snd terminal].
      * eexists. split; [done|]. right. exists df, (String a p), (Pipeline <$> before).
        done.
      * eexists. split; [done|]. exists (Pipeline <$> before). split; [done|].
        by rewrite <- app_assoc.
    + eexists. split; [done|]. exists (Pipeline <$> before). by rewrite app_nil_r.
  - eexists. split; [done|]. left. by apply pipeline_lines_no_report.
Qed.

(** A run that writes its output file: the report, then the confirmation. *)
Example report_before_confirmation :
  ∃ before,
    terminal (extract_weather_data_multi_file net_soil_only (λ _, None) 0 0
                (mkDate 2024 1 1) (mkDate 2024 1 2) [("soil", true)] "hourly"
                (Some "soil.csv") session0).2
    = before ++ [ Pipeline (TotalRecords 2); Pipeline (TotalVariables 1);
                  Pipeline (Resolution "hourly"); Saved "soil.csv" ].
Proof. eexists [_; _; _; _]. by vm_compute. Qed.

(** ** Saving with options *)

Section Saving.
Variable fs : WriteCall → option crash.

Lemma save_with_options_plain (df : loc) (output_file format : string) (s : Session) :
  save_with_options fs df output_file false format s
  = match writer_of format with
    | None => (Crash (Exception (ValueError ("Unsupported format: " +:+ format))), s)
    | Some fmt =>
        match objects s !! df with
        | None => (Crash (Exception (TypeError "not a DataFrame")), s)
        | Some d =>
            let call := mkWrite output_file fmt d in
            match fs call with
            | None =>
                (Done tt, mkSession (sent_requests s) (terminal s ++ [Saved output_file])
                            (written s ++ [call]) (objects s))
            | Some c =>
                (Crash c, mkSession (sent_requests s) (terminal s)
                            (written s ++ [call]) (objects s))
            end
        end
    end.
Proof.
  destruct s as [rq tm wr ob].
  unfold save_with_options, writer_of, mbind, cli_bind, mret, cli_ret.
  destruct (String.eqb format "csv");
    [|destruct (String.eqb format "excel"); [|destruct (String.eqb format "json")]];
    try done;
    unfold obj, load, write, say; cbn [sent_requests terminal written objects];
    destruct (ob !! df) as [d|]; cbn [of_result]; try done; by destruct (fs _).
Qed.

Lemma save_with_options_daily (df : loc) (output_file format : string) (s : Session) :
  save_with_options fs df output_file true format s
  = match get_daily_summary df (objects s) with
    | (Raise e, h) =>
        (Crash (Exception e), mkSession (sent_requests s) (terminal s) (written s) h)
    | (Ok r, h) =>
        save_with_options fs r output_file false format
          (mkSession (sent_requests s) (terminal s) (written s) h)
    end.
Proof.
  unfold save_with_options at 1, mbind at 1, cli_bind at 1, obj at 1.
  destruct (get_daily_summary df (objects s)) as [[r|e] h]; done.
Qed.
End Saving.




(** X13.  With [daily], a table without a ['time'] column makes
    [save_with_options] raise the [ValueError] of the summary, whatever the
    format (the format is not looked at before): nothing is written,
    nothing is printed and the table is left as it was. *)
Theorem save_daily_requires_time (fs : WriteCall → option crash) (df : loc)
    (output_file format : string) (s : Session) (d : DataFrame) :
  objects s !! df = Some d → "time" ∉ columns d →
  save_with_options fs df output_file true format s
  = (Crash (Exception (ValueError "Data must have a 'time' column")), s).
Proof.
  intros Hd Ht%mem_not_elem_of. rewrite save_with_options_daily.
  unfold get_daily_summary, mbind, st_bind, load at 1. rewrite Hd, Ht. cbn [negb raise].
  by destruct s.
Qed.

Lemma save_daily_requires_time_witness :
  save_with_options (λ _, None) 0%nat "out.csv" true "csv"
    (mkSession [] [] [] {[ 0%nat := ex_no_time ]})
  = (Crash (Exception (ValueError "Data must have a 'time' column")),
     mkSession [] [] [] {[ 0%nat := ex_no_time ]}).
Proof.
  apply (save_daily_requires_time (λ _, None) 0%nat "out.csv" "csv"
           (mkSession [] [] [] {[ 0%nat := ex_no_time ]}) ex_no_time).
  - reflexivity.
  - intros Hin. repeat (apply elem_of_cons in Hin as [Hin|Hin]; [discriminate Hin|]).
    by apply elem_of_nil in Hin.
Defined.

(** X14.  With a supported format, [save_with_options] calls exactly one
    writer, the one of the format, on the given path.  Without [daily] the
    frame written is the table and the table is untouched; with [daily], on
    an hourly table, the frame written is the daily summary and the table
    has received its ['date'] column.  The confirmation is printed only
    if the writer did not raise. *)
Theorem save_writes_one_file (fs : WriteCall → option crash) (df : loc)
    (output_file : string) (daily : bool) (format : string) (fmt : FileFormat)
    (s : Session) (d : DataFrame) (ts : list (option Timestamp)) :
  objects s !! df = Some d → writer_of format = Some fmt →
  (daily = true → hourly_table d ts) →
  let call := mkWrite output_file fmt (if daily then daily_summary d ts else d) in
  let out := save_with_options fs df output_file daily format s in
  written out.2 = written s ++ [call]
  ∧ objects out.2 !! df = Some (if daily then with_date d ts else d)
  ∧ sent_requests out.2 = sent_requests s
  ∧ out.1 = match fs call with None => Done tt | Some c => Crash c end
  ∧ terminal out.2
    = terminal s ++ match fs call with None => [Saved output_file] | Some _ => [] end.
Proof.
  intros Hd Hw Hdf call out. unfold out, call. destruct daily.
  - specialize (Hdf eq_refl). pose proof (ht_time _ _ Hdf) as Ht.
    rewrite save_with_options_daily.
    rewrite (get_daily_summary_eq (objects s) df d ts Hd Ht Hdf). cbv zeta.
    set (h1 := <[df := with_date d ts]> (objects s)).
    rewrite save_with_options_plain, Hw. cbn [objects sent_requests terminal written].
    rewrite lookup_insert_eq. cbv zeta.
    assert (fresh (dom h1) ≠ df) as Hne.
    { apply fresh_not_in. unfold h1. rewrite lookup_insert_eq. by eexists. }
    destruct (fs _); cbn [fst snd objects sent_requests terminal written];
      rewrite ?app_nil_r, lookup_insert_ne by done; unfold h1;
      by rewrite lookup_insert_eq.
  - rewrite save_with_options_plain, Hw, Hd. cbv zeta.
    destruct (fs _); cbn [fst snd objects sent_requests terminal written];
      by rewrite ?app_nil_r.
Qed.

Lemma save_writes_one_file_witness :
  let s := mkSession [] [] [] {[ 0%nat := ex_temp ]} in
  let ts := [hour_of 1 0; hour_of 1 1; hour_of 1 2] in
  let fs := λ _ : WriteCall, @None crash in
  let call := mkWrite "out.json" JsonFile (if true then daily_summary ex_temp ts else ex_temp) in
  let out := save_with_options fs 0%nat "out.json" true "json" s in
  written out.2 = written s ++ [call]
  ∧ objects out.2 !! 0%nat = Some (if true then with_date ex_temp ts else ex_temp)
  ∧ sent_requests out.2 = sent_requests s
  ∧ out.1 = match fs call with None => Done tt | Some c => Crash c end
  ∧ terminal out.2
    = terminal s ++ match fs call with None => [Saved "out.json"] | Some _ => [] end.
Proof.
  apply (save_writes_one_file (λ _, None) 0%nat "out.json" true "json" JsonFile
           (mkSession [] [] [] {[ 0%nat := ex_temp ]}) ex_temp
           [hour_of 1 0; hour_of 1 1; hour_of 1 2]).
  - reflexivity.
  - reflexivity.
  - intros _. solve_hourly_table.
Defined.

(** ** The entry point *)

Lemma for_each_say {A} (f : A → Output) (l : list A) (s : Session) :
  for_each l (λ x, say (f x)) s
  = (Done tt, mkSession (sent_requests s) (terminal s ++ (f <$> l)) (written s) (objects s)).
Proof.
  revert s. induction l as [|x l IH]; intros s.
  - cbn [for_each fmap list_fmap]. rewrite app_nil_r. by destruct s.
  - cbn [for_each]. unfold mbind at 1, cli_bind at 1, say at 1. rewrite IH.
    cbn [sent_requests terminal written objects fmap list_fmap]. by rewrite <- app_assoc.
Qed.

Lemma for_each_groups (h : string → string) (groups : list (string * list string))
    (s : Session) :
  for_each groups (λ gv, _ ← say (GroupHeading (h gv.1));
                         for_each gv.2 (λ var, say (Bullet var))) s
  = (Done tt,
     mkSession (sent_requests s)
       (terminal s ++ flat_map (λ gv, GroupHeading (h gv.1) :: (Bullet <$> gv.2)) groups)
       (written s) (objects s)).
Proof.
  revert s. induction groups as [|gv groups IH]; intros s.
  - cbn [for_each flat_map]. rewrite app_nil_r. by destruct s.
  - cbn [for_each flat_map]. unfold mbind at 1, cli_bind at 1.
    unfold mbind at 1, cli_bind at 1, say at 1. rewrite for_each_say, IH.
    cbn [sent_requests terminal written objects]. do 2 f_equal.
    by rewrite <- !app_assoc.
Qed.

Lemma list_groups_eq (s : Session) :
  list_groups s
  = (Done tt,
     mkSession (sent_requests s)
       (terminal s
        ++ GroupsTitle :: Rule 70
           :: flat_map (λ gv, GroupHeading (replace "_" " " (upper gv.1)) :: (Bullet <$> gv.2))
                VARIABLE_GROUPS)
       (written s) (objects s)).
Proof.
  unfold list_groups. generalize VARIABLE_GROUPS. intros groups.
  unfold mbind at 1, cli_bind at 1, say at 1.
  unfold mbind at 1, cli_bind at 1, say at 1.
  rewrite (for_each_groups (λ g, replace "_" " " (upper g))).
  cbn [sent_requests terminal written objects]. 
  f_equal. f_equal.
  rewrite <- !app_assoc.
  reflexivity.
Qed.

Lemma replace_absent (old new s : string) :
  contains old s = false → replace old new s = s.
Proof.
  unfold replace. induction s as [|c s IH]; [done|].
  cbn [contains replace_from]. intros [Hp Hc]%orb_false_elim.
  rewrite Hp. f_equal. by apply IH.
Qed.

Lemma prefix_cons (a b : ascii) (s1 s2 : string) :
  String.prefix (String a s1) (String b s2)
  = if Ascii.ascii_dec a b then String.prefix s1 s2 else false.
Proof. reflexivity. Qed.

Lemma prefix_empty (s : string) : String.prefix "" s = true.
Proof. by destruct s. Qed.

Lemma prefix_of_empty (a : ascii) (s : string) : String.prefix (String a s) "" = false.
Proof. reflexivity. Qed.

Lemma csv_not_across (c : ascii) (base : string) :
  contains ".csv" (String c base) = false →
  String.prefix ".csv" (String c (base +:+ ".csv")) = false.
Proof.
  intros [Hp _]%orb_false_elim. revert Hp.
  destruct base as [|c1 [|c2 [|c3 b3]]];
    rewrite ?append_cons, ?append_empty_l, ?prefix_cons;
    repeat (match goal with
            | |- context [Ascii.ascii_dec ?a ?b] => destruct (Ascii.ascii_dec a b); subst
            end;
            rewrite ?prefix_cons, ?prefix_empty, ?prefix_of_empty; try done).
Qed.

Lemma replace_csv_suffix (base : string) :
  contains ".csv" base = false →
  replace ".csv" "_daily.csv" (base +:+ ".csv") = base +:+ "_daily.csv".
Proof.
  unfold replace. induction base as [|c base IH]; intros Hc; [done|].
  rewrite !append_cons. cbn [replace_from].
  rewrite (csv_not_across c base Hc). f_equal. apply IH.
  cbn [contains] in Hc. by apply orb_false_elim in Hc as [_ ?].
Qed.

Lemma planned_switches (config : Config) :
  planned (switches config)
  = omap (λ gv, if enabled config gv.1 then Some gv else None) VARIABLE_GROUPS.
Proof.
  unfold switches, planned, get_available_groups. fold (enabled config).
  change (default ∅ (cfg_variable_groups config)) with (default ∅ (cfg_variable_groups config)).
  assert (∀ g, default false (default ∅ (cfg_variable_groups config) !! g) = enabled config g)
    as He by done.
  cbn [VARIABLE_GROUPS fmap list_fmap map fst snd omap list_omap]. rewrite !He.
  destruct (enabled config "basic_weather"), (enabled config "solar_radiation"),
    (enabled config "soil"); reflexivity.
Qed.

Lemma catalog_order_switches (latitude longitude : Q) (start_date end_date : Date)
    (config : Config) :
  catalog_order_requests latitude longitude start_date end_date (switches config)
  = requests_of latitude longitude start_date end_date (switches config).
Proof.
  unfold requests_of. rewrite planned_switches.
  unfold catalog_order_requests, switches, get_available_groups.
  assert (∀ g, default false (default ∅ (cfg_variable_groups config) !! g) = enabled config g)
    as He by done.
  cbn [VARIABLE_GROUPS fmap list_fmap map fst snd omap list_omap existsb]. rewrite !He.
  destruct (enabled config "basic_weather"), (enabled config "solar_radiation"),
    (enabled config "soil"); reflexivity.
Qed.

Section MainFacts.
Variables (net : Request → Response) (fs : WriteCall → option crash)
          (json_load : string → outcome Config).

(** With a configuration that has the four required entries, [main]
    prints its banner and goes on to the pipeline. *)
Lemma main_config (args : Args) (path : string) (config : Config)
    (latitude longitude : Q) (start_date end_date : Date) (s : Session) :
  args_list_groups args = false → args_config args = Some path → path ≠ "" →
  json_load path = Done config →
  cfg_latitude config = Some latitude → cfg_longitude config = Some longitude →
  cfg_start_date config = Some start_date → cfg_end_date config = Some end_date →
  main net fs json_load args s
  = (df ← extract_weather_data_multi_file net fs latitude longitude start_date end_date
            (switches config) (default "hourly" (cfg_temporal_resolution config))
            (cfg_output_file config);
     _ ← (if args_daily args then daily_part fs config df else mret tt);
     say Finished)
      (mkSession (sent_requests s)
         (terminal s ++ banner latitude longitude start_date end_date)
         (written s) (objects s)).
Proof.
  intros Hl Hc Hp Hj Hlat Hlon Hsd Hed.
  unfold main, banner. rewrite Hl, Hc. destruct path as [|a p]; [done|].
  cbv [mbind cli_bind]. rewrite Hj.
  cbv [say]. cbn [sent_requests terminal written objects].
  rewrite Hlat, Hlon. cbv [item mret cli_ret].
  cbn [sent_requests terminal written objects].
  rewrite Hsd, Hed. cbn [sent_requests terminal written objects].
  rewrite <- !app_assoc. reflexivity.
Qed.

(** A run that collects no frame. *)
Lemma extract_no_frames (latitude longitude : Q) (start_date end_date : Date)
    (active_groups : list (string * bool)) (temporal_resolution : string) (w : World) :
  key_ltb end_date start_date = false →
  frames_of net latitude longitude start_date end_date active_groups = [] →
  extract_weather_data_multi net latitude longitude start_date end_date active_groups
    temporal_resolution w
  = (Raise NoDataRetrieved,
     mkWorld (sent w ++ requests_of latitude longitude start_date end_date active_groups)
       (console w ++ lines_of net latitude longitude start_date end_date active_groups)).
Proof.
  intros Hd Hf. unfold extract_weather_data_multi.
  rewrite datetime_of_date_ltb, Hd. unfold mbind at 1, st_bind at 1.
  rewrite fetch_groups_spec. cbn [app]. by rewrite Hf.
Qed.
End MainFacts.

Lemma requests_of_switches (latitude longitude : Q) (start_date end_date : Date)
    (config : Config) :
  requests_of latitude longitude start_date end_date (switches config)
  = omap (λ gv, if enabled config gv.1
                then Some (request_for latitude longitude start_date end_date gv.2)
                else None) VARIABLE_GROUPS.
Proof.
  unfold requests_of. rewrite planned_switches.
  cbn [VARIABLE_GROUPS fst snd omap list_omap].
  destruct (enabled config "basic_weather"), (enabled config "solar_radiation"),
    (enabled config "soil"); reflexivity.
Qed.

Lemma planned_switches_off (config : Config) :
  (∀ g, g ∈ VARIABLE_GROUPS.*1 → enabled config g = false) →
  planned (switches config) = [].
Proof.
  intros Hoff. rewrite planned_switches. apply omap_nil. intros [g vs] Hin.
  cbn [fst]. rewrite Hoff; [done|]. apply list_elem_of_fmap. by exists (g, vs).
Qed.

Section EntryPoint.
Variables (net : Request → Response) (fs : WriteCall → option crash)
          (json_load : string → outcome Config).

Lemma extract_file_requests (latitude longitude : Q) (start_date end_date : Date)
    (active_groups : list (string * bool)) (temporal_resolution : string)
    (output_file : option string) (s : Session) :
  sent_requests (extract_weather_data_multi_file net fs latitude longitude start_date
                   end_date active_groups temporal_resolution output_file s).2
  = sent_requests s
    ++ if key_ltb end_date start_date then []
       else requests_of latitude longitude start_date end_date active_groups.
Proof.
  rewrite extract_file_spec. cbv zeta.
  destruct (extract_spec net latitude longitude start_date end_date active_groups
              temporal_resolution (mkWorld (sent_requests s) [])) as [tail E].
  assert (sent (extract_weather_data_multi net latitude longitude start_date end_date
                  active_groups temporal_resolution (mkWorld (sent_requests s) [])).2
          = sent_requests s
            ++ if key_ltb end_date start_date then []
               else requests_of latitude longitude start_date end_date active_groups) as Hs.
  { rewrite E, datetime_of_date_ltb.
    destruct (key_ltb end_date start_date); [by rewrite app_nil_r|done]. }
  destruct (extract_weather_data_multi _ _ _ _ _ _ _ _).1 as [df|e]; [|exact Hs].
  destruct output_file as [[|a p]|]; try exact Hs. by destruct (fs _).
Qed.

Lemma offline_after_pipeline (args : Args) (config : Config) (df : DataFrame) :
  offline (_ ← (if args_daily args then daily_part fs config df else mret tt);
           say Finished).
Proof.
  apply offline_bind; [|intros _; apply offline_say].
  destruct (args_daily args); [apply offline_daily_part|apply offline_ret].
Qed.

Lemma main_requests (args : Args) (path : string) (config : Config)
    (latitude longitude : Q) (start_date end_date : Date) (s : Session) :
  args_list_groups args = false → args_config args = Some path → path ≠ "" →
  json_load path = Done config →
  cfg_latitude config = Some latitude → cfg_longitude config = Some longitude →
  cfg_start_date config = Some start_date → cfg_end_date config = Some end_date →
  sent_requests (main net fs json_load args s).2
  = sent_requests s
    ++ if key_ltb end_date start_date then []
       else requests_of latitude longitude start_date end_date (switches config).
Proof.
  intros Hl Hc Hp Hj Hlat Hlon Hsd Hed.
  rewrite (main_config net fs json_load args path config latitude longitude start_date
             end_date s Hl Hc Hp Hj Hlat Hlon Hsd Hed).
  rewrite bind_offline by (intros df; apply offline_after_pipeline).
  by rewrite extract_file_requests.
Qed.
End EntryPoint.

(** X15.  Through [main] the requests follow the catalog.  [main] builds
    the mapping itself, one entry per group of the catalog in the order of
    the catalog, so with a valid date range it sends one request for every
    catalog group that the configuration switches on, in catalog order,
    whatever the order of the entries in the configuration; a group of the
    configuration that the catalog does not have is never requested, and
    the summary of [--daily] sends nothing. *)
Theorem main_requests_follow_catalog (net : Request → Response)
    (fs : WriteCall → option crash) (json_load : string → outcome Config)
    (args : Args) (path : string) (config : Config) (latitude longitude : Q)
    (start_date end_date : Date) (s : Session) :
  args_list_groups args = false → args_config args = Some path → path ≠ "" →
  json_load path = Done config →
  cfg_latitude config = Some latitude → cfg_longitude config = Some longitude →
  cfg_start_date config = Some start_date → cfg_end_date config = Some end_date →
  key_ltb end_date start_date = false →
  let requests :=
    omap (λ gv, if enabled config gv.1
                then Some (request_for latitude longitude start_date end_date gv.2)
                else None) VARIABLE_GROUPS in
  sent_requests (main net fs json_load args s).2 = sent_requests s ++ requests
  ∧ requests = catalog_order_requests latitude longitude start_date end_date
                 (switches config).
Proof.
  intros Hl Hc Hp Hj Hlat Hlon Hsd Hed Hd requests. unfold requests.
  rewrite (main_requests net fs json_load args path config latitude longitude start_date
             end_date s Hl Hc Hp Hj Hlat Hlon Hsd Hed), Hd.
  by rewrite catalog_order_switches, requests_of_switches.
Qed.

Lemma main_requests_follow_catalog_witness :
  let requests :=
    omap (λ gv, if enabled ex_config_soil gv.1
                then Some (request_for 0 0 (mkDate 2024 1 1) (mkDate 2024 1 2) gv.2)
                else None) VARIABLE_GROUPS in
  sent_requests (main net_soil_only (λ _, None) ex_json_load
                   (mkArgs (Some "soil.json") false true) session0).2
  = sent_requests session0 ++ requests
  ∧ requests = catalog_order_requests 0 0 (mkDate 2024 1 1) (mkDate 2024 1 2)
                 (switches ex_config_soil).
Proof.
  apply (main_requests_follow_catalog net_soil_only (λ _, None) ex_json_load
           (mkArgs (Some "soil.json") false true) "soil.json" ex_config_soil 0 0
           (mkDate 2024 1 1) (mkDate 2024 1 2) session0); try reflexivity.
  discriminate.
Defined.

(** X16.  A configuration that switches no catalog group on (it has no
    [variable_groups] entry, or the entry names no catalog group with
    [true]) makes [main] fail: the banner is printed, no request is sent,
    no file is written.  The error is that of a run without data, or, when
    the start date is after the end date, that of the date range, which is
    checked first. *)
Theorem main_without_groups (net : Request → Response)
    (fs : WriteCall → option crash) (json_load : string → outcome Config)
    (args : Args) (path : string) (config : Config) (latitude longitude : Q)
    (start_date end_date : Date) (s : Session) :
  args_list_groups args = false → args_config args = Some path → path ≠ "" →
  json_load path = Done config →
  cfg_latitude config = Some latitude → cfg_longitude config = Some longitude →
  cfg_start_date config = Some start_date → cfg_end_date config = Some end_date →
  (∀ g, g ∈ VARIABLE_GROUPS.*1 → enabled config g = false) →
  main net fs json_load args s
  = (Crash (Exception (if key_ltb end_date start_date
                       then InvalidDateRange else NoDataRetrieved)),
     mkSession (sent_requests s)
       (terminal s ++ banner latitude longitude start_date end_date)
       (written s) (objects s)).
Proof.
  intros Hl Hc Hp Hj Hlat Hlon Hsd Hed Hoff.
  rewrite (main_config net fs json_load args path config latitude longitude start_date
             end_date s Hl Hc Hp Hj Hlat Hlon Hsd Hed).
  pose proof (planned_switches_off config Hoff) as Hpl.
  unfold mbind at 1, cli_bind at 1. rewrite extract_file_spec. cbv zeta.
  destruct (key_ltb end_date start_date) eqn:Hd.
  - destruct (extract_spec net latitude longitude start_date end_date (switches config)
                (default "hourly" (cfg_temporal_resolution config))
                (mkWorld (sent_requests
                            (mkSession (sent_requests s)
                               (terminal s ++ banner latitude longitude start_date end_date)
                               (written s) (objects s))) [])) as [tail ->].
    rewrite datetime_of_date_ltb, Hd.
    cbn [fst snd sent console sent_requests terminal written objects fmap list_fmap].
    by rewrite app_nil_r.
  - rewrite extract_no_frames; [|done|by unfold frames_of; rewrite Hpl].
    unfold requests_of, lines_of. rewrite Hpl.
    cbn [fst snd sent console sent_requests terminal written objects map flat_map
         fmap list_fmap].
    by rewrite !app_nil_r.
Qed.

Lemma main_without_groups_witness :
  main net_soil_only (λ _, None) ex_json_load (mkArgs (Some "config.json") false false)
    session0
  = (Crash (Exception (if key_ltb (mkDate 2024 1 2) (mkDate 2024 1 1)
                       then InvalidDateRange else NoDataRetrieved)),
     mkSession (sent_requests session0)
       (terminal session0 ++ banner 0 0 (mkDate 2024 1 1) (mkDate 2024 1 2))
       (written session0) (objects session0)).
Proof.
  apply (main_without_groups net_soil_only (λ _, None) ex_json_load
           (mkArgs (Some "config.json") false false) "config.json" ex_config 0 0
           (mkDate 2024 1 1) (mkDate 2024 1 2) session0); try reflexivity.
  discriminate.
Defined.

(** X17.  A configuration that lacks one of ['latitude'], ['longitude'],
    ['start_date'] and ['end_date'] makes [main] raise the [KeyError] of
    the first one missing, in this order.  The first three lines of the
    banner have been printed by then; no request has been sent and no file
    written. *)
Theorem main_requires_config_keys (net : Request → Response)
    (fs : WriteCall → option crash) (json_load : string → outcome Config)
    (args : Args) (path : string) (config : Config) (key : string) (s : Session) :
  args_list_groups args = false → args_config args = Some path → path ≠ "" →
  json_load path = Done config → missing_key config = Some key →
  let out := main net fs json_load args s in
  out.1 = Crash (Exception (KeyError key))
  ∧ sent_requests out.2 = sent_requests s
  ∧ written out.2 = written s
  ∧ objects out.2 = objects s
  ∧ ∃ more, terminal out.2 = terminal s ++ Rule 70 :: Banner :: Rule 70 :: more.
Proof.
  intros Hl Hc Hp Hj Hk out. unfold out, main. rewrite Hl, Hc.
  destruct path as [|a p]; [done|].
  cbv [mbind cli_bind]. rewrite Hj.
  cbv [say]. cbn [sent_requests terminal written objects].
  unfold missing_key in Hk.
  destruct (cfg_latitude config) as [lat|].
  2:{ injection Hk as <-. cbn. split; [done|]. split; [done|]. split; [done|].
      split; [done|]. exists []. by rewrite <- !app_assoc. }
  destruct (cfg_longitude config) as [lon|].
  2:{ injection Hk as <-. cbn. split; [done|]. split; [done|]. split; [done|].
      split; [done|]. exists []. by rewrite <- !app_assoc. }
  destruct (cfg_start_date config) as [sd|].
  2:{ injection Hk as <-. cbn. split; [done|]. split; [done|]. split; [done|].
      split; [done|]. exists [Location lat lon]. by rewrite <- !app_assoc. }
  destruct (cfg_end_date config) as [ed|]; [done|].
  injection Hk as <-. cbn. split; [done|]. split; [done|]. split; [done|].
  split; [done|]. exists [Location lat lon]. by rewrite <- !app_assoc.
Qed.

Lemma main_requires_config_keys_witness :
  let out := main net_soil_only (λ _, None) ex_json_load
               (mkArgs (Some "partial.json") false false) session0 in
  out.1 = Crash (Exception (KeyError "longitude"))
  ∧ sent_requests out.2 = sent_requests session0
  ∧ written out.2 = written session0
  ∧ objects out.2 = objects session0
  ∧ ∃ more, terminal out.2 = terminal session0 ++ Rule 70 :: Banner :: Rule 70 :: more.
Proof.
  apply (main_requires_config_keys net_soil_only (λ _, None) ex_json_load
           (mkArgs (Some "partial.json") false false) "partial.json" ex_config_partial
           "longitude" session0); try reflexivity.
  discriminate.
Defined.

(** X18.  The file of the daily summary.  With [--daily] and an output
    file, a run that succeeds calls the CSV writer twice: on the output
    file with the table of the pipeline, then on the name that replacing
    every [.csv] by [_daily.csv] gives, with the daily summary.  A name of
    the form base.csv gives base_daily.csv; a name in which [.csv] does not
    occur is left as it is, so the summary is written to the output file
    itself, after the table. *)
Theorem daily_summary_file (net : Request → Response)
    (fs : WriteCall → option crash) (json_load : string → outcome Config)
    (args : Args) (path : string) (config : Config) (latitude longitude : Q)
    (start_date end_date : Date) (output_file : string) (df : DataFrame)
    (ts : list (option Timestamp)) (s : Session) :
  args_list_groups args = false → args_config args = Some path → path ≠ "" →
  json_load path = Done config →
  cfg_latitude config = Some latitude → cfg_longitude config = Some longitude →
  cfg_start_date config = Some start_date → cfg_end_date config = Some end_date →
  args_daily args = true →
  cfg_output_file config = Some output_file → output_file ≠ "" →
  (extract_weather_data_multi net latitude longitude start_date end_date
     (switches config) (default "hourly" (cfg_temporal_resolution config))
     (mkWorld (sent_requests s) [])).1 = Ok df →
  hourly_table df ts →
  fs (mkWrite output_file CsvFile df) = None →
  let daily_file := replace ".csv" "_daily.csv" output_file in
  written (main net fs json_load args s).2
  = written s ++ [ mkWrite output_file CsvFile df;
                   mkWrite daily_file CsvFile (daily_summary df ts) ]
  ∧ (contains ".csv" output_file = false → daily_file = output_file)
  ∧ (∀ base, contains ".csv" base = false → output_file = base +:+ ".csv" →
       daily_file = base +:+ "_daily.csv").
Proof.
  intros Hl Hc Hp Hj Hlat Hlon Hsd Hed Hdaily Hout Hne Hrun Hdf Hfs daily_file.
  split; [|split].
  2:{ apply replace_absent. }
  2:{ intros base Hb ->. by apply replace_csv_suffix. }
  rewrite (main_config net fs json_load args path config latitude longitude start_date
             end_date s Hl Hc Hp Hj Hlat Hlon Hsd Hed).
  unfold mbind at 1, cli_bind at 1. rewrite extract_file_spec. cbv zeta.
  cbn [sent_requests terminal written objects]. rewrite Hrun, Hout.
  destruct output_file as [|a p]; [done|]. fold daily_file. rewrite Hfs, Hdaily.
  unfold daily_part. rewrite Hout. fold daily_file.
  unfold mbind at 1, cli_bind at 1. unfold mbind at 1, cli_bind at 1, say at 1.
  cbn [sent_requests terminal written objects].
  unfold mbind at 1, cli_bind at 1, obj at 1, alloc.
  cbn [sent_requests terminal written objects of_result].
  set (h := objects s). set (r := fresh (dom h)). set (h1 := <[r := df]> h).
  assert (h1 !! r = Some df) as Hr by apply lookup_insert_eq.
  unfold mbind at 1, cli_bind at 1, obj at 1.
  cbn [sent_requests terminal written objects].
  rewrite (get_daily_summary_eq h1 r df ts Hr (ht_time _ _ Hdf) Hdf). cbv zeta.
  cbn [of_result].
  unfold mbind at 1, cli_bind at 1, obj at 1, load.
  cbn [sent_requests terminal written objects]. rewrite lookup_insert_eq.
  cbn [of_result].
  unfold mbind at 1, cli_bind at 1, say at 1.
  cbn [sent_requests terminal written objects].
  unfold mbind at 1, cli_bind at 1, write at 1.
  cbn [sent_requests terminal written objects].
  destruct (fs (mkWrite daily_file CsvFile (daily_summary df ts)));
    cbn [fst snd written say]; by rewrite <- app_assoc.
Qed.

Lemma daily_summary_file_witness :
  let daily_file := replace ".csv" "_daily.csv" "soil.txt" in
  written (main net_soil_only (λ _, None) ex_json_load
             (mkArgs (Some "soil.json") false true) session0).2
  = written session0
    ++ [ mkWrite "soil.txt" CsvFile ex_soil;
         mkWrite daily_file CsvFile (daily_summary ex_soil [hour_of 1 2; hour_of 1 3]) ]
  ∧ (contains ".csv" "soil.txt" = false → daily_file = "soil.txt")
  ∧ (∀ base, contains ".csv" base = false → "soil.txt" = base +:+ ".csv" →
       daily_file = base +:+ "_daily.csv").
Proof.
  apply (daily_summary_file net_soil_only (λ _, None) ex_json_load
           (mkArgs (Some "soil.json") false true) "soil.json" ex_config_soil 0 0
           (mkDate 2024 1 1) (mkDate 2024 1 2) "soil.txt" ex_soil
           [hour_of 1 2; hour_of 1 3] session0); try reflexivity; try discriminate.
  solve_hourly_table.
Defined.

(** X19.  What [main] does without a pipeline.  With [--list-groups] it
    prints the title, the rule and, for every group of the catalog in
    order, a heading (the name in upper case with spaces for underscores)
    and one line per variable, and returns: whatever the other arguments,
    no configuration is read, no request is sent and no file is written.
    Without [--list-groups] and without a non-empty [--config] it exits
    with status 2 and has done nothing. *)
Theorem main_without_pipeline (net : Request → Response)
    (fs : WriteCall → option crash) (json_load : string → outcome Config)
    (args : Args) (s : Session) :
  (args_list_groups args = true →
     main net fs json_load args s
     = (Done tt,
        mkSession (sent_requests s)
          (terminal s
           ++ GroupsTitle :: Rule 70
              :: flat_map (λ gv, GroupHeading (replace "_" " " (upper gv.1))
                                 :: (Bullet <$> gv.2)) get_available_groups)
          (written s) (objects s)))
  ∧ (args_list_groups args = false → truthy (args_config args) = false →
       main net fs json_load args s = (Crash (SystemExit 2), s))
  ∧ (GroupHeading <$> ((λ g, replace "_" " " (upper g)) <$> get_available_groups.*1)
     = [GroupHeading "BASIC WEATHER"; GroupHeading "SOLAR RADIATION"; GroupHeading "SOIL"]).
Proof.
  split; [|split].
  - intros Hl. unfold main. rewrite Hl. apply list_groups_eq.
  - intros Hl Hc. unfold main. rewrite Hl.
    by destruct (args_config args) as [[|a p]|].
  - by vm_compute.
Qed.
